(** * OCPP charge-point simulator: a shallow embedding of [ocpp_chargepoint.js]

    The JavaScript class [ChargePoint] is embedded as state-passing functions
    over a [World]: the fields of the object, the two browser stores
    ([sessionStorage], [localStorage]), the table of running [setInterval]
    timers and the trace of every call the engine makes on a collaborator
    (storage writes, console, socket, observers, timers), in program order.

    Modelling conventions.
    - JavaScript values are the inductive [value]; numbers are [NaN] or an
      integer (the protocol fields used here are integers; fractions are
      outside the model).
    - The constants module [ocpp_constants.js] is imported by the source as
      [ocpp]; here it is a record [Constants] and every function takes the
      table it runs with, so [ocpp.KEY_CP_STATUS] reads [KEY_CP_STATUS ocpp].
    - Built-ins whose results only flow into frames and logs ([Math.random],
      the luxon clock, [parseInt], string-to-number conversion) are fields of
      a [Platform] record.
    - Observers registered by the page are opaque names; calling one is an
      event of the trace and has no effect on the engine's state.
    - [WebSocket.send] and [WebSocket.close] are events of the trace; the
      ready-state of the socket is the browser's and is not modelled.
    - An [async] function is an [M task]: the effects up to its first [await],
      then the continuation to run when the awaited timer fires.
    - [JSON.stringify] and [JSON.parse] work on text, character by character;
      a string is a sequence of code units below 256, an object is the list
      of its properties in property order.

    The definitions come first (values, JSON text, the engine, the helpers the
    statements use, the request listener of [server.js]), then the proofs: the
    round trip through JSON text, the connector state machine, the result
    handlers, the decoder, the stop sequence, the heartbeat timer, the
    scenarios of the specification, and further properties of the engine and
    of the file server, function by function. *)

From stdpp Require Import gmap strings list fin_maps pretty.
From Equations Require Import Equations.
From Stdlib Require Import ZArith Ascii String.

Local Open Scope Z_scope.
Local Open Scope string_scope.

(** ** JavaScript values *)

Inductive number : Type :=
| NaN
| Int (z : Z).

#[warnings="-register-all"]
Inductive value : Type :=
| Undefined
| Null
| Bool (b : bool)
| Num (n : number)
| Str (s : string)
| Arr (elems : list value)
| Obj (props : list (string * value)).

Definition number_eqb (a b : number) : bool :=
  match a, b with
  | Int x, Int y => Z.eqb x y
  | _, _ => false
  end.

Definition number_mul (a b : number) : number :=
  match a, b with
  | Int x, Int y => Int (x * y)
  | _, _ => NaN
  end.

Definition number_to_string (n : number) : string :=
  match n with
  | NaN => "NaN"
  | Int z => pretty z
  end.

(** [ToBoolean]: the test of [if (v)] and [!v]. *)
Definition truthy (v : value) : bool :=
  match v with
  | Undefined | Null => false
  | Bool b => b
  | Num NaN => false
  | Num (Int z) => negb (Z.eqb z 0)
  | Str s => negb (String.eqb s "")
  | Arr _ | Obj _ => true
  end.

(** [Array.prototype.join(",")] over already converted elements. *)
Fixpoint join_comma (l : list string) : string :=
  match l with
  | [] => ""
  | [s] => s
  | s :: rest => s +:+ "," +:+ join_comma rest
  end.

(** [ToString], as applied by [+] on a string, by [Storage.setItem] and by
    [==] on an object. An array joins its elements, with [null] and
    [undefined] elements printed empty. *)
Fixpoint ToString (v : value) : string :=
  match v with
  | Undefined => "undefined"
  | Null => "null"
  | Bool true => "true"
  | Bool false => "false"
  | Num n => number_to_string n
  | Str s => s
  | Arr elems =>
      join_comma (List.map (fun e => match e with
                                     | Undefined | Null => ""
                                     | _ => ToString e
                                     end) elems)
  | Obj _ => "[object Object]"
  end.

(** Own-property lookup in an object's property list. *)
Fixpoint lookup_prop (k : string) (props : list (string * value)) : option value :=
  match props with
  | [] => None
  | (k', v) :: rest => if String.eqb k' k then Some v else lookup_prop k rest
  end.

(** ** The constants module and the platform *)

Record Constants : Type := {
  CP_ERROR : string;
  CP_DISCONNECTED : string;
  CP_CONNECTING : string;
  CP_CONNECTED : string;
  CP_AUTHORIZED : string;
  CP_INTRANSACTION : string;
  KEY_CP_STATUS : string;
  KEY_METER_VALUE : string;
  KEY_CONN_STATUS : string;
  KEY_CONN_AVAILABILITY : string;
  CONN_AVAILABLE : string;
  CONN_CHARGING : string;
  CONN_FINISHING : string;
  CONN_UNAVAILABLE : string;
  AVAILABITY_OPERATIVE : string;
  AVAILABITY_INOPERATIVE : string;
  BOOT_NOTIFICATION : string;
  AUTHORIZE : string;
  START_TRANSACTION : string;
  STOP_TRANSACTION : string;
  HEARTBEAT : string;
  METERVALUES : string;
  STATUSNOTIFICATION : string
}.

Record Platform : Type := {
  (** [Math.floor(Math.random() * len)] at the k-th call of [Math.random] *)
  random_index : nat -> nat -> nat;
  (** [luxon.DateTime.utc().toISO()] at the k-th reading of the clock *)
  utc_iso : nat -> string;
  (** [parseInt(s)] *)
  parseInt : string -> number;
  (** [Number(s)] on a string *)
  StringToNumber : string -> number
}.

(** ** The world the engine runs in *)

Definition callback : Type := string.
Definition socket : Type := string.

Inductive event : Type :=
| sessionStorage_setItem (key val : string)
| localStorage_setItem (key val : string)
| console_log (line : string)
| websocket_send (data : string)
| websocket_close (code : Z)
| call_statusChangeCb (cb : callback) (s msg : string)
| call_availabilityChangeCb (cb : callback) (c newAvailability : value)
| call_loggingCb (cb : callback) (msg : string)
| call_setInterval (id : positive) (delay : number)
| call_clearInterval (id : positive).

Record ChargePoint : Type := Build_ChargePoint {
  _websocket : option socket;
  _heartbeat : option positive;
  _statusChangeCb : option callback;
  _availabilityChangeCb : option callback;
  _loggingCb : option callback;
  _remoteStartStopResponse : string;
  _remoteStartDelaySeconds : number
}.

Record World : Type := Build_World {
  this : ChargePoint;
  sessionStorage : gmap string string;
  localStorage : gmap string string;
  (** running [setInterval] timers: handle to period in milliseconds *)
  intervals : gmap positive number;
  next_timer : positive;
  (** calls of [Math.random] so far *)
  draws : nat;
  (** readings of the clock so far *)
  ticks : nat;
  trace : list event
}.

Definition with_this (f : ChargePoint -> ChargePoint) (w : World) : World :=
  match w with
  | Build_World t ss ls iv nt dr tk tr => Build_World (f t) ss ls iv nt dr tk tr
  end.

Definition with_sessionStorage (m : gmap string string) (w : World) : World :=
  match w with
  | Build_World t _ ls iv nt dr tk tr => Build_World t m ls iv nt dr tk tr
  end.

Definition with_localStorage (m : gmap string string) (w : World) : World :=
  match w with
  | Build_World t ss _ iv nt dr tk tr => Build_World t ss m iv nt dr tk tr
  end.

Definition with_intervals (m : gmap positive number) (n : positive) (w : World) : World :=
  match w with
  | Build_World t ss ls _ _ dr tk tr => Build_World t ss ls m n dr tk tr
  end.

Definition with_draws (n : nat) (w : World) : World :=
  match w with
  | Build_World t ss ls iv nt _ tk tr => Build_World t ss ls iv nt n tk tr
  end.

Definition with_ticks (n : nat) (w : World) : World :=
  match w with
  | Build_World t ss ls iv nt dr _ tr => Build_World t ss ls iv nt dr n tr
  end.

Definition with_trace (t : list event) (w : World) : World :=
  match w with
  | Build_World th ss ls iv nt dr tk _ => Build_World th ss ls iv nt dr tk t
  end.

(** ** Computations: state passing with exceptions *)

Inductive outcome (A : Type) : Type :=
| Normal (a : A) (w : World)
| Thrown (error : string) (w : World).
Arguments Normal {A} a w.
Arguments Thrown {A} error w.

Definition M (A : Type) : Type := World -> outcome A.

Definition ret {A} (a : A) : M A := fun w => Normal a w.

Definition bind {A B} (m : M A) (k : A -> M B) : M B :=
  fun w => match m w with
           | Normal a w' => k a w'
           | Thrown e w' => Thrown e w'
           end.

Definition throw {A} (e : string) : M A := fun w => Thrown e w.

Notation "'let!' x ':=' c1 'in' c2" := (bind c1 (fun x => c2))
  (at level 10, x name, c1 at level 100, c2 at level 200).
Notation "c1 '>>' c2" := (bind c1 (fun _ => c2))
  (at level 100, c2 at level 200, right associativity).

Definition gets {A} (f : World -> A) : M A := fun w => Normal (f w) w.
Definition modify (f : World -> World) : M unit := fun w => Normal tt (f w).
Definition emit (e : event) : M unit :=
  modify (fun w => with_trace (trace w ++ [e]) w).

(** The state a computation ends in, whether it returned or threw. *)
Definition final {A} (o : outcome A) : World :=
  match o with
  | Normal _ w => w
  | Thrown _ w => w
  end.

(** An [async] function between two [await]s of a timer. *)
#[warnings="-register-all"]
Inductive task : Type :=
| Done
| Sleep (ms : number) (resume : World -> outcome task).

(** ** [JSON.stringify]

    Strings are sequences of code units below 256. [QuoteJSONString] escapes
    the quote, the backslash and the control characters; everything else is
    copied. *)

Definition dquote : ascii := "034"%char.
Definition backslash : ascii := "092"%char.

Definition hex_digit (n : nat) : ascii :=
  match n with
  | 0%nat => "0" | 1%nat => "1" | 2%nat => "2" | 3%nat => "3"
  | 4%nat => "4" | 5%nat => "5" | 6%nat => "6" | 7%nat => "7"
  | 8%nat => "8" | 9%nat => "9" | 10%nat => "a" | 11%nat => "b"
  | 12%nat => "c" | 13%nat => "d" | 14%nat => "e" | _ => "f"
  end%char.

Definition json_escape (c : ascii) : string :=
  let n := nat_of_ascii c in
  if Nat.eqb n 8 then String backslash "b"
  else if Nat.eqb n 9 then String backslash "t"
  else if Nat.eqb n 10 then String backslash "n"
  else if Nat.eqb n 12 then String backslash "f"
  else if Nat.eqb n 13 then String backslash "r"
  else if Nat.eqb n 34 then String backslash (String dquote "")
  else if Nat.eqb n 92 then String backslash (String backslash "")
  else if Nat.ltb n 32 then
    String backslash
      (String "u" (String "0" (String "0"
        (String (hex_digit (n / 16)) (String (hex_digit (n mod 16)) "")))))
  else String c "".

Fixpoint quote_chars (s : string) : string :=
  match s with
  | EmptyString => ""
  | String c rest => json_escape c +:+ quote_chars rest
  end.

Definition QuoteJSONString (s : string) : string :=
  String dquote (quote_chars s +:+ String dquote "").

(** [JSON.stringify(v)]; [None] is the result [undefined]. An [undefined]
    element of an array prints as [null], an [undefined] property of an object
    is left out, [NaN] prints as [null]. *)
Fixpoint JSON_stringify (v : value) : option string :=
  match v with
  | Undefined => None
  | Null => Some "null"
  | Bool true => Some "true"
  | Bool false => Some "false"
  | Num NaN => Some "null"
  | Num (Int z) => Some (pretty z)
  | Str s => Some (QuoteJSONString s)
  | Arr elems =>
      Some ("[" +:+ join_comma
                      (List.map (fun e => match JSON_stringify e with
                                          | Some t => t
                                          | None => "null"
                                          end) elems) +:+ "]")
  | Obj props =>
      Some ("{" +:+ join_comma
                      (omap (fun kv => match JSON_stringify (snd kv) with
                                       | Some t => Some (QuoteJSONString (fst kv) +:+ ":" +:+ t)
                                       | None => None
                                       end) props) +:+ "}")
  end.

(** [JSON.stringify(v)] used where a string is expected. *)
Definition stringify (v : value) : string :=
  match JSON_stringify v with
  | Some t => t
  | None => "undefined"
  end.

(** ** [JSON.parse]

    A recursive-descent reader of the JSON grammar over this value model:
    number literals are integers (a fraction or an exponent is outside the
    model and gives [None], as does a [\u] escape above 00ff); [None] is
    otherwise the [SyntaxError] of the built-in. The fuel bounds the nesting
    depth and the number of elements of an array or object; the length of the
    text is enough of it. *)

Definition is_ws (c : ascii) : bool :=
  let n := nat_of_ascii c in
  Nat.eqb n 32 || Nat.eqb n 9 || Nat.eqb n 10 || Nat.eqb n 13.

Fixpoint skip_ws (s : string) : string :=
  match s with
  | String c rest => if is_ws c then skip_ws rest else s
  | EmptyString => s
  end.

Definition digit_of (c : ascii) : option N :=
  let n := N_of_ascii c in
  if ((48 <=? n) && (n <=? 57))%N then Some (n - 48)%N else None.

Fixpoint parse_digits (s : string) (acc : N) : N * string :=
  match s with
  | String c rest =>
      match digit_of c with
      | Some d => parse_digits rest (acc * 10 + d)%N
      | None => (acc, s)
      end
  | EmptyString => (acc, s)
  end.

(** What may not follow the integer part: a further digit after a leading
    zero is a syntax error, a fraction or an exponent is outside the model. *)
Definition number_continues (s : string) : bool :=
  match s with
  | String c _ =>
      match digit_of c with
      | Some _ => true
      | None => Ascii.eqb c "." || Ascii.eqb c "e" || Ascii.eqb c "E"
      end
  | EmptyString => false
  end.

Definition parse_natural (s : string) : option (N * string) :=
  match s with
  | String c rest =>
      match digit_of c with
      | Some d =>
          let '(n, rest') := if N.eqb d 0 then (0%N, rest) else parse_digits rest d in
          if number_continues rest' then None else Some (n, rest')
      | None => None
      end
  | EmptyString => None
  end.

Definition parse_number (s : string) : option (value * string) :=
  match s with
  | String c rest =>
      if Ascii.eqb c "-" then
        match parse_natural rest with
        | Some (n, rest') => Some (Num (Int (- Z.of_N n)), rest')
        | None => None
        end
      else
        match parse_natural s with
        | Some (n, rest') => Some (Num (Int (Z.of_N n)), rest')
        | None => None
        end
  | EmptyString => None
  end.

Definition hex_value (c : ascii) : option nat :=
  let n := nat_of_ascii c in
  if Nat.leb 48 n && Nat.leb n 57 then Some (n - 48)%nat
  else if Nat.leb 97 n && Nat.leb n 102 then Some (n - 87)%nat
  else if Nat.leb 65 n && Nat.leb n 70 then Some (n - 55)%nat
  else None.

Definition unescape (c : ascii) : option ascii :=
  if Ascii.eqb c dquote then Some dquote
  else if Ascii.eqb c backslash then Some backslash
  else if Ascii.eqb c "/" then Some "/"%char
  else if Ascii.eqb c "b" then Some (ascii_of_nat 8)
  else if Ascii.eqb c "f" then Some (ascii_of_nat 12)
  else if Ascii.eqb c "n" then Some (ascii_of_nat 10)
  else if Ascii.eqb c "r" then Some (ascii_of_nat 13)
  else if Ascii.eqb c "t" then Some (ascii_of_nat 9)
  else None.

Definition unicode_escape (h1 h2 h3 h4 : ascii) : option ascii :=
  match hex_value h1, hex_value h2, hex_value h3, hex_value h4 with
  | Some a, Some b, Some c, Some d =>
      let code := (((a * 16 + b) * 16 + c) * 16 + d)%nat in
      if Nat.ltb code 256 then Some (ascii_of_nat code) else None
  | _, _, _, _ => None
  end.

(** The characters of a string literal after its opening quote, up to and
    including the closing one. *)
Fixpoint parse_string_chars (s : string) : option (string * string) :=
  match s with
  | EmptyString => None
  | String c rest =>
      if Ascii.eqb c dquote then Some ("", rest)
      else if Ascii.eqb c backslash then
        match rest with
        | String e rest' =>
            if Ascii.eqb e "u" then
              match rest' with
              | String h1 (String h2 (String h3 (String h4 rest''))) =>
                  match unicode_escape h1 h2 h3 h4, parse_string_chars rest'' with
                  | Some ch, Some (str, out) => Some (String ch str, out)
                  | _, _ => None
                  end
              | _ => None
              end
            else
              match unescape e, parse_string_chars rest' with
              | Some ch, Some (str, out) => Some (String ch str, out)
              | _, _ => None
              end
        | EmptyString => None
        end
      else if Nat.ltb (nat_of_ascii c) 32 then None
      else
        match parse_string_chars rest with
        | Some (str, out) => Some (String c str, out)
        | None => None
        end
  end.

Fixpoint strip_prefix (p s : string) : option string :=
  match p with
  | EmptyString => Some s
  | String a p' =>
      match s with
      | String b s' => if Ascii.eqb a b then strip_prefix p' s' else None
      | EmptyString => None
      end
  end.

(** Property order of an object: array indices (canonical decimal strings
    below 2^32 - 1) first, ascending, then the other keys in the order they
    were created. *)
Definition array_index (k : string) : option N :=
  match parse_digits k 0 with
  | (n, EmptyString) =>
      if String.eqb (pretty n) k && (n <? 4294967295)%N then Some n else None
  | _ => None
  end.

Fixpoint has_prop (k : string) (props : list (string * value)) : bool :=
  match props with
  | [] => false
  | (k', _) :: rest => String.eqb k' k || has_prop k rest
  end.

Fixpoint replace_prop (k : string) (v : value) (props : list (string * value))
  : list (string * value) :=
  match props with
  | [] => []
  | (k', v') :: rest =>
      if String.eqb k' k then (k', v) :: rest else (k', v') :: replace_prop k v rest
  end.

Fixpoint insert_index (i : N) (k : string) (v : value) (props : list (string * value))
  : list (string * value) :=
  match props with
  | [] => [(k, v)]
  | (k', v') :: rest =>
      match array_index k' with
      | Some j => if (i <? j)%N then (k, v) :: props
                  else (k', v') :: insert_index i k v rest
      | None => (k, v) :: props
      end
  end.

(** [CreateDataProperty]: an existing key keeps its place and takes the new
    value, a new key goes where the property order puts it. *)
Definition define_property (props : list (string * value)) (kv : string * value)
  : list (string * value) :=
  let '(k, v) := kv in
  if has_prop k props then replace_prop k v props
  else match array_index k with
       | Some i => insert_index i k v props
       | None => (props ++ [(k, v)])%list
       end.

Fixpoint parse_elements (pv : string -> option (value * string)) (fuel : nat) (s : string)
  : option (list value * string) :=
  match fuel with
  | O => None
  | S fuel' =>
      match pv s with
      | Some (v, rest) =>
          match skip_ws rest with
          | String c rest' =>
              if Ascii.eqb c "," then
                match parse_elements pv fuel' rest' with
                | Some (vs, out) => Some (v :: vs, out)
                | None => None
                end
              else if Ascii.eqb c "]" then Some ([v], rest')
              else None
          | EmptyString => None
          end
      | None => None
      end
  end.

Fixpoint parse_members (pv : string -> option (value * string)) (fuel : nat) (s : string)
  : option (list (string * value) * string) :=
  match fuel with
  | O => None
  | S fuel' =>
      match skip_ws s with
      | String q rest =>
          if Ascii.eqb q dquote then
            match parse_string_chars rest with
            | Some (k, rest1) =>
                match skip_ws rest1 with
                | String colon rest2 =>
                    if Ascii.eqb colon ":" then
                      match pv rest2 with
                      | Some (v, rest3) =>
                          match skip_ws rest3 with
                          | String c rest4 =>
                              if Ascii.eqb c "," then
                                match parse_members pv fuel' rest4 with
                                | Some (kvs, out) => Some ((k, v) :: kvs, out)
                                | None => None
                                end
                              else if Ascii.eqb c "}" then Some ([(k, v)], rest4)
                              else None
                          | EmptyString => None
                          end
                      | None => None
                      end
                    else None
                | EmptyString => None
                end
            | None => None
            end
          else None
      | EmptyString => None
      end
  end.

Fixpoint parse_value (fuel : nat) (s : string) : option (value * string) :=
  match fuel with
  | O => None
  | S f =>
      match skip_ws s with
      | EmptyString => None
      | String c rest =>
          if Ascii.eqb c "[" then
            match skip_ws rest with
            | EmptyString => None
            | String c2 rest2 =>
                if Ascii.eqb c2 "]" then Some (Arr [], rest2)
                else match parse_elements (parse_value f) f (String c2 rest2) with
                     | Some (vs, out) => Some (Arr vs, out)
                     | None => None
                     end
            end
          else if Ascii.eqb c "{" then
            match skip_ws rest with
            | EmptyString => None
            | String c2 rest2 =>
                if Ascii.eqb c2 "}" then Some (Obj [], rest2)
                else match parse_members (parse_value f) f (String c2 rest2) with
                     | Some (kvs, out) => Some (Obj (fold_left define_property kvs []), out)
                     | None => None
                     end
            end
          else if Ascii.eqb c dquote then
            match parse_string_chars rest with
            | Some (str, out) => Some (Str str, out)
            | None => None
            end
          else if Ascii.eqb c "t" then
            match strip_prefix "rue" rest with
            | Some out => Some (Bool true, out)
            | None => None
            end
          else if Ascii.eqb c "f" then
            match strip_prefix "alse" rest with
            | Some out => Some (Bool false, out)
            | None => None
            end
          else if Ascii.eqb c "n" then
            match strip_prefix "ull" rest with
            | Some out => Some (Null, out)
            | None => None
            end
          else parse_number (String c rest)
      end
  end.

Definition JSON_parse (text : string) : option value :=
  match parse_value (String.length text) text with
  | Some (v, rest) =>
      match skip_ws rest with
      | EmptyString => Some v
      | String _ _ => None
      end
  | None => None
  end.

(** ** The engine *)

Section Engine.

Variable ocpp : Constants.
Variable js : Platform.

(** [ToNumber]: an object or array goes through its string form. *)
Definition ToNumber (v : value) : number :=
  match v with
  | Undefined => NaN
  | Null => Int 0
  | Bool true => Int 1
  | Bool false => Int 0
  | Num n => n
  | Str s => StringToNumber js s
  | Arr _ | Obj _ => StringToNumber js (ToString v)
  end.

(** [v == s] for a string [s]. *)
Definition loose_eq_string (v : value) (s : string) : bool :=
  match v with
  | Undefined | Null => false
  | Bool _ | Num _ => number_eqb (ToNumber v) (StringToNumber js s)
  | Str t => String.eqb t s
  | Arr _ | Obj _ => String.eqb (ToString v) s
  end.

(** [v == n] for a number [n]. *)
Definition loose_eq_number (v : value) (n : number) : bool :=
  match v with
  | Undefined | Null => false
  | _ => number_eqb (ToNumber v) n
  end.

(** [v.name] for the field names the engine reads ([type], [idTag],
    [transactionId], [connectorId], [requestedMessage], [status], [interval],
    [idTagInfo], [length]): none is an array index or inherited from a
    prototype. [None] is the [TypeError] of reading a property of [null] or
    [undefined]. *)
Definition get_prop (v : value) (name : string) : option value :=
  match v with
  | Undefined | Null => None
  | Obj props =>
      Some (match lookup_prop name props with Some x => x | None => Undefined end)
  | Arr elems =>
      Some (if String.eqb name "length"
            then Num (Int (Z.of_nat (List.length elems))) else Undefined)
  | Str s =>
      Some (if String.eqb name "length"
            then Num (Int (Z.of_nat (String.length s))) else Undefined)
  | Bool _ | Num _ => Some Undefined
  end.

Definition prop (v : value) (name : string) : M value :=
  match get_prop v name with
  | Some x => ret x
  | None => throw "TypeError"
  end.

Definition charAt (s : string) (i : nat) : string :=
  match String.get i s with
  | Some c => String c ""
  | None => ""
  end.

Definition possible : string :=
  "ABCDEFGHIJKLMNOPQRSTUVWXYZabcdefghijklmnopqrstuvwxyz0123456789".

(** The loop of [generateId] with [i] rounds left, [k] calls of
    [Math.random] made before it. *)
Fixpoint generateId_loop (k : nat) (i : nat) (id : string) : string :=
  match i with
  | O => id
  | S i' =>
      generateId_loop (S k) i'
        (id +:+ charAt possible (random_index js k (String.length possible)))
  end.

Definition generateId : M string :=
  fun w => Normal (generateId_loop (draws w) 36 "") (with_draws (draws w + 36)%nat w).

(** [luxon.DateTime.utc().toISO()] *)
Definition utc_toISO : M string :=
  fun w => Normal (utc_iso js (ticks w)) (with_ticks (S (ticks w)) w).

Definition strict_eq_number (v : value) (z : Z) : bool :=
  match v with
  | Num (Int x) => Z.eqb x z
  | _ => false
  end.

(** [v === s], the comparison of a [switch] on string cases. *)
Definition strict_eq_string (v : value) (s : string) : bool :=
  match v with
  | Str t => String.eqb t s
  | _ => false
  end.

Definition isEmpty (str : value) : bool :=
  negb (truthy str) ||
  match get_prop str "length" with
  | Some len => strict_eq_number len 0
  | None => false
  end.

Definition setSessionKey (key : string) (val : value) : M unit :=
  emit (sessionStorage_setItem key (ToString val)) >>
  modify (fun w => with_sessionStorage (<[key := ToString val]> (sessionStorage w)) w).

Definition getSessionKey (key : string) (default_value : string) : M string :=
  gets (fun w => match sessionStorage w !! key with
                 | Some v => if String.eqb v "" then default_value else v
                 | None => default_value
                 end).

Definition setKey (key : string) (val : value) : M unit :=
  emit (localStorage_setItem key (ToString val)) >>
  modify (fun w => with_localStorage (<[key := ToString val]> (localStorage w)) w).

Definition getKey (key : string) (default_value : string) : M string :=
  gets (fun w => match localStorage w !! key with
                 | Some v => if String.eqb v "" then default_value else v
                 | None => default_value
                 end).

Definition constructor : ChargePoint :=
  {| _websocket := None; _heartbeat := None; _statusChangeCb := None;
     _availabilityChangeCb := None; _loggingCb := None;
     _remoteStartStopResponse := "Accepted"; _remoteStartDelaySeconds := Int 0 |}.

Definition setStatusChangeCallback (cb : option callback) : M unit :=
  modify (with_this (fun t =>
    match t with
    | Build_ChargePoint ws hb _ acb lcb rr dd => Build_ChargePoint ws hb cb acb lcb rr dd
    end)).

Definition setLoggingCallback (cb : option callback) : M unit :=
  modify (with_this (fun t =>
    match t with
    | Build_ChargePoint ws hb scb acb _ rr dd => Build_ChargePoint ws hb scb acb cb rr dd
    end)).

Definition setAvailabilityChangeCallback (cb : option callback) : M unit :=
  modify (with_this (fun t =>
    match t with
    | Build_ChargePoint ws hb scb _ lcb rr dd => Build_ChargePoint ws hb scb cb lcb rr dd
    end)).

Definition set_websocket (sock : option socket) : M unit :=
  modify (with_this (fun t =>
    match t with
    | Build_ChargePoint _ hb scb acb lcb rr dd => Build_ChargePoint sock hb scb acb lcb rr dd
    end)).

Definition set_heartbeat (h : option positive) : M unit :=
  modify (with_this (fun t =>
    match t with
    | Build_ChargePoint ws _ scb acb lcb rr dd => Build_ChargePoint ws h scb acb lcb rr dd
    end)).

Definition logMsg (msg : string) : M unit :=
  let! cb := gets (fun w => _loggingCb (this w)) in
  match cb with
  | Some f => emit (call_loggingCb f ("[OCPP] " +:+ msg))
  | None => ret tt
  end.

Definition setStatus (s : string) (msg : string) : M unit :=
  setSessionKey (KEY_CP_STATUS ocpp) (Str s) >>
  let! cb := gets (fun w => _statusChangeCb (this w)) in
  match cb with
  | Some f => emit (call_statusChangeCb f s msg)
  | None => ret tt
  end.

Definition setLastAction (action : string) : M unit :=
  setSessionKey "LastAction" (Str action).

Definition getLastAction : M string :=
  getSessionKey "LastAction" "".

Definition wsSendData (data : string) : M unit :=
  let! now := utc_toISO in
  emit (console_log ("[" +:+ now +:+ "] [ -> ] " +:+ data)) >>
  let! ws := gets (fun w => _websocket (this w)) in
  match ws with
  | Some _ => emit (websocket_send data)
  | None => setStatus (CP_ERROR ocpp) "No connection to OCPP server"
  end.

Definition status : M string :=
  getSessionKey (KEY_CP_STATUS ocpp) "".

Definition wsDisconnect : M unit :=
  let! ws := gets (fun w => _websocket (this w)) in
  match ws with
  | Some _ => emit (websocket_close 3001)
  | None => ret tt
  end >>
  setStatus (CP_DISCONNECTED ocpp) "".

Definition meterValue : M number :=
  let! v := getSessionKey (KEY_METER_VALUE ocpp) "0" in
  ret (parseInt js v).

(** *** Heartbeat *)

Definition sendHeartbeat : M unit :=
  setLastAction "Heartbeat" >>
  let! id := generateId in
  let HB := stringify (Arr [Num (Int 2); Str id; Str "Heartbeat"; Obj []]) in
  logMsg "Heartbeat" >>
  wsSendData HB.

Definition clearInterval (id : positive) : M unit :=
  emit (call_clearInterval id) >>
  modify (fun w => with_intervals (delete id (intervals w)) (next_timer w) w).

(** [setInterval(this.sendHeartbeat.bind(this), delay)]: the only repeating
    timer of the program, so the table keeps the delay alone. *)
Definition setInterval (delay : number) : M positive :=
  let! id := gets next_timer in
  emit (call_setInterval id delay) >>
  modify (fun w => with_intervals (<[id := delay]> (intervals w)) (Pos.succ id) w) >>
  ret id.

Definition setHeartbeat (period : value) : M unit :=
  logMsg ("Setting heartbeat period to " +:+ ToString period +:+ "s") >>
  let! hb := gets (fun w => _heartbeat (this w)) in
  match hb with
  | Some id => clearInterval id
  | None => ret tt
  end >>
  let! id := setInterval (number_mul (ToNumber period) (Int 1000)) in
  set_heartbeat (Some id).

(** What the timer [id] does when it fires. *)
Definition interval_fires (id : positive) : M unit :=
  let! running := gets (fun w => intervals w !! id) in
  match running with
  | Some _ => sendHeartbeat
  | None => ret tt
  end.

(** *** Connectors *)

Definition connectorStatus (c : value) : M string :=
  let key := KEY_CONN_STATUS ocpp +:+ ToString c in
  getSessionKey key "".

Definition sendStatusNotification (c : value) : M unit :=
  let! st := connectorStatus c in
  setLastAction "StatusNotification" >>
  let! id := generateId in
  let! now := utc_toISO in
  let sn_req := stringify (Arr [Num (Int 2); Str id; Str "StatusNotification";
                  Obj [("connectorId", c);
                       ("errorCode", Str "NoError");
                       ("status", Str st);
                       ("timestamp", Str now)]]) in
  logMsg ("Sending StatusNotification for connector " +:+ ToString c +:+ ": " +:+ st) >>
  wsSendData sn_req.

Definition setConnectorStatus (c : value) (newStatus : string) (updateServer : bool) : M unit :=
  let key := KEY_CONN_STATUS ocpp +:+ ToString c in
  setSessionKey key (Str newStatus) >>
  if updateServer then sendStatusNotification c else ret tt.

Definition availability (c : value) : M string :=
  let c := match c with Undefined => Num (Int 0) | _ => c end in
  let key := KEY_CONN_AVAILABILITY ocpp +:+ ToString c in
  getKey key (AVAILABITY_OPERATIVE ocpp).

(** [Number(c) == 0], the test that guards the cascade. *)
Definition is_connector_zero (c : value) : bool :=
  number_eqb (ToNumber c) (Int 0).

Definition inspect {A} (a : A) : {b | a = b} := exist _ a eq_refl.

(** The statements of [setConnectorAvailability] before the cascade. *)
Definition setConnectorAvailability_own (c newAvailability : value) : M unit :=
  let key := KEY_CONN_AVAILABILITY ocpp +:+ ToString c in
  setKey key newAvailability >>
  (if loose_eq_string newAvailability (AVAILABITY_INOPERATIVE ocpp)
   then setConnectorStatus c (CONN_UNAVAILABLE ocpp) true
   else if loose_eq_string newAvailability (AVAILABITY_INOPERATIVE ocpp)
   then setConnectorStatus c (CONN_AVAILABLE ocpp) true
   else ret tt) >>
  let! cb := gets (fun w => _availabilityChangeCb (this w)) in
  match cb with
  | Some f => emit (call_availabilityChangeCb f c newAvailability)
  | None => ret tt
  end.

Equations? setConnectorAvailability (c newAvailability : value) : M unit
  by wf (if is_connector_zero c then 1%nat else 0%nat) lt :=
  setConnectorAvailability c newAvailability with inspect (is_connector_zero c) := {
    | exist _ true _ =>
        setConnectorAvailability_own c newAvailability >>
        setConnectorAvailability (Num (Int 1)) newAvailability >>
        setConnectorAvailability (Num (Int 2)) newAvailability
    | exist _ false _ =>
        setConnectorAvailability_own c newAvailability
  }.
Proof. all: rewrite e; cbn; lia. Qed.

(** *** Outgoing calls *)

Definition authorize (tagId : value) : M unit :=
  setLastAction "Authorize" >>
  logMsg ("Requesting authorization for tag " +:+ ToString tagId) >>
  let! id := generateId in
  let Auth := stringify (Arr [Num (Int 2); Str id; Str "Authorize";
                Obj [("idTag", tagId)]]) in
  wsSendData Auth.

Definition startTransaction (tagId connectorId reservationId : value) : M unit :=
  let connectorId := match connectorId with Undefined => Num (Int 1) | _ => connectorId end in
  let reservationId := match reservationId with Undefined => Num (Int 0) | _ => reservationId end in
  setStatus (CP_INTRANSACTION ocpp) "" >>
  let! mv := meterValue in
  let! id := generateId in
  let! now := utc_toISO in
  let params := [("connectorId", connectorId);
                 ("idTag", tagId);
                 ("meterStart", Num mv);
                 ("timestamp", Str now)] in
  let params := if negb (loose_eq_number reservationId (Int 0))
                then (params ++ [("reservationId", reservationId)])%list
                else params in
  let strtT := stringify (Arr [Num (Int 2); Str id; Str (START_TRANSACTION ocpp); Obj params]) in
  logMsg ("Starting Transaction for tag " +:+ ToString tagId +:+ " (connector:"
          +:+ ToString connectorId +:+ ", meter value=" +:+ number_to_string mv +:+ ")") >>
  wsSendData strtT >>
  setConnectorStatus connectorId (CONN_CHARGING ocpp) true >>
  setLastAction (START_TRANSACTION ocpp).

(** [async stopTransactionWithId]: the part before the first [await], then
    one continuation per timer. *)
Definition stopTransactionWithId (transactionId tagId : value) : M task :=
  let tagId := match tagId with Undefined => Str "DEADBEEF" | _ => tagId end in
  setLastAction (STOP_TRANSACTION ocpp) >>
  setStatus (CP_AUTHORIZED ocpp) "" >>
  let! mv := meterValue in
  logMsg ("Stopping Transaction with id " +:+ ToString transactionId
          +:+ " (meterValue=" +:+ number_to_string mv +:+ ")") >>
  let! id := generateId in
  let! now := utc_toISO in
  let stopParams := [("transactionId", transactionId);
                     ("timestamp", Str now);
                     ("meterStop", Num mv)] in
  let stopParams := if negb (isEmpty tagId)
                    then (stopParams ++ [("idTag", tagId)])%list
                    else stopParams in
  let stpT := stringify (Arr [Num (Int 2); Str id; Str "StopTransaction"; Obj stopParams]) in
  wsSendData stpT >>
  ret (Sleep (Int 1000)
        (setConnectorStatus (Num (Int 1)) (CONN_FINISHING ocpp) true >>
         ret (Sleep (Int 1000)
               (setConnectorStatus (Num (Int 1)) (CONN_AVAILABLE ocpp) true >>
                ret Done)))).

Definition stopTransaction (tagId : value) : M task :=
  let! stored := getSessionKey "TransactionId" "" in
  let transactionId := parseInt js stored in
  stopTransactionWithId (Num transactionId) tagId.

Definition sendBootNotification : M unit :=
  logMsg "Sending BootNotification" >>
  setLastAction (BOOT_NOTIFICATION ocpp) >>
  let! id := generateId in
  let bn_req := stringify (Arr [Num (Int 2); Str id; Str "BootNotification";
                  Obj [("chargePointVendor", Str "ocpp-cp-simulator");
                       ("chargePointModel", Str "JAVASCRIPT SIMULATOR");
                       ("chargePointSerialNumber", Str "TEST_00000001");
                       ("chargeBoxSerialNumber", Str "TEST_00000001");
                       ("firmwareVersion", Str "1.0.0");
                       ("iccid", Str "");
                       ("imsi", Str "");
                       ("meterType", Str "");
                       ("meterSerialNumber", Str "")]]) in
  wsSendData bn_req.

Definition sendMeterValue (connectorId : value) : M unit :=
  let connectorId := match connectorId with Undefined => Num (Int 1) | _ => connectorId end in
  setLastAction "MeterValues" >>
  let! meter := getSessionKey (KEY_METER_VALUE ocpp) "" in
  let! id := generateId in
  let! stored := getSessionKey "TransactionId" "" in
  let transactionId := parseInt js stored in
  let! now := utc_toISO in
  let mvreq := stringify (Arr [Num (Int 2); Str id; Str "MeterValues";
                 Obj [("connectorId", connectorId);
                      ("transactionId", Num transactionId);
                      ("meterValue", Arr [Obj [
                         ("sampledValue", Arr [Obj [
                            ("value", Str meter);
                            ("context", Str "Sample.Periodic");
                            ("measurand", Str "Energy.Active.Import.Register");
                            ("location", Str "Outlet");
                            ("unit", Str "kWh")]]);
                         ("timestamp", Str now)]])]]) in
  logMsg ("Send Meter Values: " +:+ meter +:+ " (connector " +:+ ToString connectorId +:+ ")") >>
  wsSendData mvreq.

Definition setMeterValue (v : value) (updateServer : bool) : M unit :=
  setSessionKey (KEY_METER_VALUE ocpp) v >>
  if updateServer then sendMeterValue Undefined else ret tt.

Definition triggerMessage (requestedMessage c : value) : M unit :=
  let c := match c with Undefined => Num (Int 0) | _ => c end in
  if strict_eq_string requestedMessage "BootNotification" then sendBootNotification
  else if strict_eq_string requestedMessage "Heartbeat" then sendHeartbeat
  else if strict_eq_string requestedMessage "MeterValues" then sendMeterValue c
  else if strict_eq_string requestedMessage "StatusNotification" then sendStatusNotification c
  else if strict_eq_string requestedMessage "DiagnosticStatusNotification" then ret tt
  else if strict_eq_string requestedMessage "FirmwareStatusNotification" then ret tt
  else logMsg ("Requested Message not supported: " +:+ ToString requestedMessage).

(** *** Handlers of incoming messages *)

Definition handleCallResult (payload : value) : M unit :=
  let! la := getLastAction in
  if String.eqb la (BOOT_NOTIFICATION ocpp) then
    let! st := prop payload "status" in
    if loose_eq_string st "Accepted" then
      logMsg "Connection accepted" >>
      let! hb_interval := prop payload "interval" in
      setHeartbeat hb_interval >>
      setStatus (CP_CONNECTED ocpp) ""
    else
      logMsg "Connection refused by server" >>
      wsDisconnect
  else if String.eqb la (AUTHORIZE ocpp) then
    let! info := prop payload "idTagInfo" in
    let! st := prop info "status" in
    if loose_eq_string st "Invalid" then
      logMsg "Authorization failed"
    else
      logMsg "Authorization OK" >>
      setStatus (CP_AUTHORIZED ocpp) ""
  else if String.eqb la (START_TRANSACTION ocpp) then
    let! transactionId := prop payload "transactionId" in
    if negb (truthy transactionId) then
      ret tt
    else
      setSessionKey "TransactionId" transactionId >>
      setStatus (CP_INTRANSACTION ocpp) ("TransactionId: " +:+ ToString transactionId) >>
      logMsg ("Transaction id is " +:+ ToString transactionId)
  else if String.eqb la (STOP_TRANSACTION ocpp) then
    setConnectorStatus (Num (Int 1)) (CONN_AVAILABLE ocpp) false
  else if String.eqb la (HEARTBEAT ocpp) then ret tt
  else if String.eqb la (METERVALUES ocpp) then ret tt
  else if String.eqb la (STATUSNOTIFICATION ocpp) then ret tt
  else
    logMsg ("NOT IMPLEMENTED in handleCallResult in ocpp_chargepont.js LastAction: "
            +:+ la +:+ " payload: " +:+ stringify payload).

Definition handleCallError (errCode errMsg : value) : M unit :=
  setStatus (CP_ERROR ocpp)
    ("ErrorCode: " +:+ ToString errCode +:+ " (" +:+ ToString errMsg +:+ ")").

(** [async handleCallRequest]: the result lists the continuations left
    pending, its own after the plug-in delay or the one of the
    [stopTransactionWithId] it started. *)
Definition handleCallRequest (id request payload : value) : M (list task) :=
  let respOk := stringify (Arr [Num (Int 3); id; Obj [("status", Str "Accepted")]]) in
  if strict_eq_string request "Reset" then
    let! rstType := prop payload "type" in
    logMsg ("Reset Request: type=" +:+ ToString rstType) >>
    wsSendData respOk >>
    wsDisconnect >>
    ret []
  else if strict_eq_string request "RemoteStartTransaction" then
    let! tagId := prop payload "idTag" in
    logMsg ("Reception of a RemoteStartTransaction request for tag " +:+ ToString tagId) >>
    let! response := gets (fun w => _remoteStartStopResponse (this w)) in
    let rstConf := stringify (Arr [Num (Int 3); id; Obj [("status", Str response)]]) in
    wsSendData rstConf >>
    if String.eqb response "Rejected" then ret []
    else
      let! delay := gets (fun w => _remoteStartDelaySeconds (this w)) in
      logMsg ("Simulating " +:+ number_to_string delay
              +:+ " sec delay for user to plug in charger") >>
      ret [Sleep (number_mul (Int 1000) delay)
             (startTransaction tagId Undefined Undefined >> ret Done)]
  else if strict_eq_string request "RemoteStopTransaction" then
    let! stop_id := prop payload "transactionId" in
    logMsg ("Reception of a RemoteStopTransaction request for transaction "
            +:+ ToString stop_id) >>
    let! response := gets (fun w => _remoteStartStopResponse (this w)) in
    let respConf := stringify (Arr [Num (Int 3); id; Obj [("status", Str response)]]) in
    wsSendData respConf >>
    if String.eqb response "Rejected" then ret []
    else
      let! t := stopTransactionWithId stop_id Undefined in
      ret [t]
  else if strict_eq_string request "TriggerMessage" then
    let! requestedMessage := prop payload "requestedMessage" in
    let! given := prop payload "connectorId" in
    let connectorId := if truthy given then given else Num (Int 0) in
    logMsg ("Reception of a TriggerMessage request (" +:+ ToString requestedMessage +:+ ")") >>
    wsSendData respOk >>
    triggerMessage requestedMessage connectorId >>
    ret []
  else if strict_eq_string request "ChangeAvailability" then
    let! avail := prop payload "type" in
    let! connectorId := prop payload "connectorId" in
    logMsg ("Reception of a ChangeAvailability request (connector "
            +:+ ToString connectorId +:+ " " +:+ ToString avail +:+ ")") >>
    wsSendData respOk >>
    setConnectorAvailability (Num (ToNumber connectorId)) avail >>
    ret []
  else if strict_eq_string request "UnlockConnector" then
    wsSendData respOk >>
    ret []
  else if strict_eq_string request "GetConfiguration" then
    let! requestedMessage := prop payload "requestedMessage" in
    logMsg ("Reception of a GetConfiguration request (" +:+ ToString requestedMessage +:+ ")") >>
    let configuration :=
      Arr [Num (Int 3); id;
           Obj [("unknownKey", Arr []);
                ("configurationKey",
                 Arr [Obj [("key", Str "HeartbeatInterval");
                           ("readonly", Bool false);
                           ("value", Str "900")]])]] in
    wsSendData (stringify configuration) >>
    ret []
  else
    let error := stringify (Arr [Num (Int 4); id; Str "NotImplemented"]) in
    wsSendData error >>
    ret [].

(** *** Transport *)

Definition wsConnect (wsurl cpid : string) : M unit :=
  let! ws := gets (fun w => _websocket (this w)) in
  match ws with
  | Some _ =>
      setStatus (CP_ERROR ocpp) "Socket already opened. Closing it. Retry later" >>
      emit (websocket_close 3001)
  | None =>
      set_websocket (Some (wsurl +:+ "" +:+ cpid))
  end.

Definition onopen : M unit :=
  setStatus (CP_CONNECTING ocpp) "" >>
  sendBootNotification.

Definition onerror (readyState : Z) (evt_type : string) : M unit :=
  if Z.eqb readyState 1 then
    setStatus (CP_ERROR ocpp) ("ws normal error: " +:+ evt_type)
  else if Z.eqb readyState 3 then
    setStatus (CP_ERROR ocpp) ("connection cannot be opened: " +:+ evt_type)
  else
    setStatus (CP_ERROR ocpp) ("websocket error: " +:+ evt_type).

(** [ddata[i]] on whatever [JSON.parse] returned; [None] is the [TypeError]
    of indexing [null]. *)
Definition get_index (ddata : value) (i : nat) : option value :=
  match ddata with
  | Undefined | Null => None
  | Arr elems => Some (nth i elems Undefined)
  | Obj props =>
      Some (match lookup_prop (pretty i) props with Some x => x | None => Undefined end)
  | Str s =>
      Some (match String.get i s with Some c => Str (String c "") | None => Undefined end)
  | Bool _ | Num _ => Some Undefined
  end.

Definition index (ddata : value) (i : nat) : M value :=
  match get_index ddata i with
  | Some x => ret x
  | None => throw "TypeError"
  end.

(** [v > 3] *)
Definition greater_than (v : value) (z : Z) : bool :=
  match ToNumber v with
  | Int x => Z.ltb z x
  | NaN => false
  end.

(** The handler the [onmessage] callback calls, with its arguments. *)
Inductive incoming : Type :=
| to_handleCallRequest (id request payload : value)
| to_handleCallResult (payload : value)
| to_handleCallError (errCode errMsg : value)
| to_nothing.

(** The [switch (msgType)] of [onmessage], up to the call of the handler. *)
Definition decode (ddata : value) : M incoming :=
  let! msgType := index ddata 0 in
  if strict_eq_number msgType 2 then
    let! id := index ddata 1 in
    let! request := index ddata 2 in
    let! len := prop ddata "length" in
    let! payload := if greater_than len 3 then index ddata 3 else ret Null in
    ret (to_handleCallRequest id request payload)
  else if strict_eq_number msgType 3 then
    let! payload := index ddata 2 in
    ret (to_handleCallResult payload)
  else if strict_eq_number msgType 4 then
    let! errCode := index ddata 2 in
    let! errMsg := index ddata 3 in
    ret (to_handleCallError errCode errMsg)
  else ret to_nothing.

(** A call of an [async] function that is not awaited: an exception inside
    rejects its promise and does not reach the caller. *)
Definition unawaited (m : M (list task)) : M (list task) :=
  fun w => match m w with
           | Normal ts w' => Normal ts w'
           | Thrown _ w' => Normal [] w'
           end.

Definition dispatch (call : incoming) : M (list task) :=
  match call with
  | to_handleCallRequest id request payload =>
      unawaited (handleCallRequest id request payload)
  | to_handleCallResult payload => handleCallResult payload >> ret []
  | to_handleCallError errCode errMsg => handleCallError errCode errMsg >> ret []
  | to_nothing => ret []
  end.

Definition onmessage (msg_data : string) : M (list task) :=
  let! now := utc_toISO in
  emit (console_log ("[" +:+ now +:+ "] [ <- ] " +:+ msg_data)) >>
  match JSON_parse msg_data with
  | None => throw "SyntaxError"
  | Some ddata =>
      let! call := decode ddata in
      dispatch call
  end.

Definition onclose (evt_code : Z) : M unit :=
  let! hb := gets (fun w => _heartbeat (this w)) in
  match hb with
  | Some id => clearInterval id >> set_heartbeat None
  | None => ret tt
  end >>
  if Z.eqb evt_code 3001 then
    setStatus (CP_DISCONNECTED ocpp) "" >>
    logMsg "Connection closed" >>
    set_websocket None
  else
    setStatus (CP_ERROR ocpp) ("Connection error: " +:+ pretty evt_code) >>
    logMsg ("Connection error: " +:+ pretty evt_code) >>
    set_websocket None.

End Engine.

(** ** A constants table and a platform for examples *)

(** Modelled from the spec: [ocpp_constants.js] is not among the sources. The
    statuses, availabilities and action names are those of the spec's data
    model (section 3) and of the action literals the engine itself stores as
    its last action; the storage keys are sample names. The theorems below
    hold for every table, under the hypotheses they state; this one is the
    instance used in examples. *)
Definition sample_constants : Constants :=
  {| CP_ERROR := "Error";
     CP_DISCONNECTED := "Disconnected";
     CP_CONNECTING := "Connecting";
     CP_CONNECTED := "Connected";
     CP_AUTHORIZED := "Authorized";
     CP_INTRANSACTION := "InTransaction";
     KEY_CP_STATUS := "cp_status";
     KEY_METER_VALUE := "meter_value";
     KEY_CONN_STATUS := "conn_status";
     KEY_CONN_AVAILABILITY := "conn_availability";
     CONN_AVAILABLE := "Available";
     CONN_CHARGING := "Charging";
     CONN_FINISHING := "Finishing";
     CONN_UNAVAILABLE := "Unavailable";
     AVAILABITY_OPERATIVE := "Operative";
     AVAILABITY_INOPERATIVE := "Inoperative";
     BOOT_NOTIFICATION := "BootNotification";
     AUTHORIZE := "Authorize";
     START_TRANSACTION := "StartTransaction";
     STOP_TRANSACTION := "StopTransaction";
     HEARTBEAT := "Heartbeat";
     METERVALUES := "MeterValues";
     STATUSNOTIFICATION := "StatusNotification" |}.

(** A string of decimal digits as a number, [NaN] otherwise. *)
Definition decimal_or_NaN (s : string) : number :=
  match s with
  | EmptyString => NaN
  | String _ _ =>
      match parse_digits s 0 with
      | (n, EmptyString) => Int (Z.of_N n)
      | _ => NaN
      end
  end.

(** A platform for examples: the k-th random index is [k] modulo the length,
    the clock is stopped, and the two conversions read decimal digits only
    (with the empty string converting to 0, as [Number] does). *)
Definition sample_platform : Platform :=
  {| random_index := fun k len => (k mod len)%nat;
     utc_iso := fun _ => "2023-10-17T08:45:43.774Z";
     parseInt := decimal_or_NaN;
     StringToNumber := fun s => match s with
                                | EmptyString => Int 0
                                | _ => decimal_or_NaN s
                                end |}.

(** The world of a page that has just built its [ChargePoint]. *)
Definition fresh_world : World :=
  {| this := constructor; sessionStorage := ∅; localStorage := ∅;
     intervals := ∅; next_timer := 1%positive; draws := 0; ticks := 0;
     trace := [] |}.

(** The calls of the availability-change observer among some events. *)
Fixpoint availability_calls (evs : list event) : list (callback * value * value) :=
  match evs with
  | [] => []
  | call_availabilityChangeCb cb c a :: rest => (cb, c, a) :: availability_calls rest
  | _ :: rest => availability_calls rest
  end.

(** ** Reading a run *)

(** The value a computation returned, if it returned. *)
Definition result {A} (o : outcome A) : option A :=
  match o with
  | Normal a _ => Some a
  | Thrown _ _ => None
  end.

Definition is_observer_call (e : event) : bool :=
  match e with
  | call_statusChangeCb _ _ _ => true
  | call_availabilityChangeCb _ _ _ => true
  | call_loggingCb _ _ => true
  | _ => false
  end.

(** The events of a run without the calls of the page's observers: writes to
    the stores, frames handed to the transport, timers. *)
Fixpoint engine_events (evs : list event) : list event :=
  match evs with
  | [] => []
  | e :: rest => if is_observer_call e then engine_events rest
                 else e :: engine_events rest
  end.

(** What [wsSendData(data)] leaves among the engine events: the console line,
    then the frame on the socket, or the error status when no socket is
    there. *)
Definition wsSendData_events (ocpp : Constants) (ws : option socket)
    (now data : string) : list event :=
  console_log ("[" +:+ now +:+ "] [ -> ] " +:+ data) ::
  match ws with
  | Some _ => [websocket_send data]
  | None => [sessionStorage_setItem (KEY_CP_STATUS ocpp) (CP_ERROR ocpp)]
  end.

(** The frame [sendStatusNotification] builds. *)
Definition StatusNotification_frame (id : string) (c : value) (st now : string) : string :=
  stringify (Arr [Num (Int 2); Str id; Str "StatusNotification";
                  Obj [("connectorId", c);
                       ("errorCode", Str "NoError");
                       ("status", Str st);
                       ("timestamp", Str now)]]).

(** The engine events of [setConnectorStatus(c, st, true)] run in [w]. *)
Definition notify_events (ocpp : Constants) (js : Platform) (c : value) (st : string)
    (w : World) : list event :=
  sessionStorage_setItem (KEY_CONN_STATUS ocpp +:+ ToString c) st ::
  sessionStorage_setItem "LastAction" "StatusNotification" ::
  wsSendData_events ocpp (_websocket (this w)) (utc_iso js (S (ticks w)))
    (StatusNotification_frame (generateId_loop js (draws w) 36 "") c st
       (utc_iso js (ticks w))).

(** The session store after [setConnectorStatus(c, st, true)]. *)
Definition notify_session (ocpp : Constants) (c : value) (st : string)
    (w : World) : gmap string string :=
  let m := <["LastAction" := "StatusNotification"]>
             (<[KEY_CONN_STATUS ocpp +:+ ToString c := st]> (sessionStorage w)) in
  match _websocket (this w) with
  | Some _ => m
  | None => <[KEY_CP_STATUS ocpp := CP_ERROR ocpp]> m
  end.

(** Events that write a status or hand a frame to the transport. *)
Definition writes_status_or_sends (e : event) : bool :=
  match e with
  | sessionStorage_setItem _ _ => true
  | console_log _ => true
  | websocket_send _ => true
  | _ => false
  end.

(** The only repeating timer that runs, if any, is the one the engine holds
    in [_heartbeat]. *)
Definition heartbeat_owns_timers (w : World) : Prop :=
  match _heartbeat (this w) with
  | Some id => forall j, j <> id -> intervals w !! j = None
  | None => intervals w = ∅
  end.

Definition is_digit (c : ascii) : bool :=
  match digit_of c with Some _ => true | None => false end.

Fixpoint ends_with_digit (s : string) : bool :=
  match s with
  | EmptyString => false
  | String c EmptyString => is_digit c
  | String _ rest => ends_with_digit rest
  end.

(** The availability callback, as [setConnectorAvailability] calls it. *)
Definition observer_call (w : World) (c X : value) : list (callback * value * value) :=
  match _availabilityChangeCb (this w) with
  | Some cb => [(cb, c, X)]
  | None => []
  end.

(** ** Values that survive a round trip through JSON text *)

(** [k1] may stand before [k2] in the property order of an object. *)
Definition key_before (k1 k2 : string) : bool :=
  negb (String.eqb k1 k2) &&
  match array_index k1, array_index k2 with
  | Some i, Some j => (i <? j)%N
  | Some _, None => true
  | None, Some _ => false
  | None, None => true
  end.

Fixpoint ordered_keys (ks : list string) : bool :=
  match ks with
  | [] => true
  | k :: rest => forallb (key_before k) rest && ordered_keys rest
  end.

(** A value JSON text can carry and this model reads back exactly: no
    [undefined] and no [NaN] inside, integers in the range where a double is
    exact, and objects whose keys are distinct and in property order (as
    every object of the engine is). *)
Fixpoint json_ok (v : value) : bool :=
  match v with
  | Undefined => false
  | Null => true
  | Bool _ => true
  | Num NaN => false
  | Num (Int z) => (Z.abs z <=? 9007199254740991)%Z
  | Str _ => true
  | Arr elems => forallb json_ok elems
  | Obj props =>
      ordered_keys (List.map fst props) &&
      forallb (fun kv => json_ok (snd kv)) props
  end.

(** The text of an element of an array, as [JSON.stringify] prints it. *)
Definition text_of (v : value) : string :=
  match JSON_stringify v with
  | Some t => t
  | None => "null"
  end.

(** The text of a property. *)
Definition member_text (kv : string * value) : string :=
  QuoteJSONString (fst kv) +:+ ":" +:+ text_of (snd kv).

(** The fuel [parse_value] needs to read a value back. *)
Fixpoint json_size (v : value) : nat :=
  match v with
  | Arr elems => S (list_sum (List.map json_size elems))
  | Obj props => S (list_sum (List.map (fun kv => json_size (snd kv)) props))
  | _ => 1%nat
  end.

(** What may follow a value in a text: the end, or the separator or bracket
    that closes it. *)
Definition delimited (rest : string) : Prop :=
  match rest with
  | EmptyString => True
  | String c _ => c = ","%char \/ c = "]"%char \/ c = "}"%char
  end.

(** A text that starts with the first character of a value: not white
    space, and not a closing bracket. *)
Definition value_start (s : string) : Prop :=
  match s with
  | String c _ =>
      is_ws c = false /\ Ascii.eqb c "]" = false /\ Ascii.eqb c "}" = false
  | EmptyString => False
  end.

(** The first character of a number literal. *)
Definition number_start (c : ascii) : Prop := c = "-"%char \/ is_digit c = true.

(** ** Frames and requests named in the statements *)

(** The reply [[3, id, {"status": st}]] of the request router. *)
Definition status_reply (id : value) (st : string) : string :=
  stringify (Arr [Num (Int 3); id; Obj [("status", Str st)]]).

(** The actions [handleCallRequest] has a case for. *)
Definition known_request (request : value) : bool :=
  strict_eq_string request "Reset" ||
  strict_eq_string request "RemoteStartTransaction" ||
  strict_eq_string request "RemoteStopTransaction" ||
  strict_eq_string request "TriggerMessage" ||
  strict_eq_string request "ChangeAvailability" ||
  strict_eq_string request "UnlockConnector" ||
  strict_eq_string request "GetConfiguration".

(** The [idTag] property [stopTransactionWithId] adds for a given argument. *)
Definition idTag_property (tagId : value) : list (string * value) :=
  match tagId with
  | Undefined => [("idTag", Str "DEADBEEF")]
  | _ => if isEmpty tagId then [] else [("idTag", tagId)]
  end.

(** The frame [stopTransactionWithId] builds. *)
Definition StopTransaction_frame (id : string) (transactionId : value)
    (stamp : string) (mv : number) (tagId : value) : string :=
  stringify (Arr [Num (Int 2); Str id; Str "StopTransaction";
                  Obj ([("transactionId", transactionId);
                        ("timestamp", Str stamp);
                        ("meterStop", Num mv)] ++ idTag_property tagId)%list]).

(** The actions [triggerMessage] answers with a message of its own. *)
Definition triggers_a_message (requestedMessage : value) : bool :=
  strict_eq_string requestedMessage "BootNotification"
  || strict_eq_string requestedMessage "Heartbeat"
  || strict_eq_string requestedMessage "MeterValues"
  || strict_eq_string requestedMessage "StatusNotification".

(** The frame [sendMeterValue] builds. *)
Definition MeterValues_frame (id : string) (connectorId : value) (transactionId : number)
    (meter stamp : string) : string :=
  stringify (Arr [Num (Int 2); Str id; Str "MeterValues";
                  Obj [("connectorId", connectorId);
                       ("transactionId", Num transactionId);
                       ("meterValue", Arr [Obj [
                          ("sampledValue", Arr [Obj [
                             ("value", Str meter);
                             ("context", Str "Sample.Periodic");
                             ("measurand", Str "Energy.Active.Import.Register");
                             ("location", Str "Outlet");
                             ("unit", Str "kWh")]]);
                          ("timestamp", Str stamp)]])]]).

(** The [reservationId] of a StartTransaction CALL: present unless it is
    [== 0], which it is by default. *)
Definition reservation_property (js : Platform) (reservationId : value)
    : list (string * value) :=
  match reservationId with
  | Undefined => []
  | _ => if loose_eq_number js reservationId (Int 0) then []
         else [("reservationId", reservationId)]
  end.

(** The frame [startTransaction] builds. *)
Definition StartTransaction_frame (ocpp : Constants) (js : Platform) (id : string)
    (connectorId tagId : value) (mv : number) (stamp : string) (reservationId : value)
    : string :=
  stringify (Arr [Num (Int 2); Str id; Str (START_TRANSACTION ocpp);
                  Obj ([("connectorId", connectorId);
                        ("idTag", tagId);
                        ("meterStart", Num mv);
                        ("timestamp", Str stamp)] ++ reservation_property js reservationId)%list]).

(** The actions whose handler reads the payload before it replies. *)
Definition reads_payload (request : value) : bool :=
  strict_eq_string request "Reset"
  || strict_eq_string request "RemoteStartTransaction"
  || strict_eq_string request "RemoteStopTransaction"
  || strict_eq_string request "TriggerMessage"
  || strict_eq_string request "ChangeAvailability"
  || strict_eq_string request "GetConfiguration".

(** The frame [authorize] builds. *)
Definition Authorize_frame (id : string) (tagId : value) : string :=
  stringify (Arr [Num (Int 2); Str id; Str "Authorize"; Obj [("idTag", tagId)]]).

(** The frame [sendHeartbeat] builds. *)
Definition Heartbeat_frame (id : string) : string :=
  stringify (Arr [Num (Int 2); Str id; Str "Heartbeat"; Obj []]).

(** ** The static file server, [server.js] *)

(** What [res.writeHead] and [res.end] send. *)
Record Response : Type := {
  statusCode : Z;
  contentType : string;
  body : string
}.

Section Server.

(** The directory of the script, [path.join], and the file system as
    [fs.readFile] finds it: [None] is a read error. *)
Variable __dirname : string.
Variable path_join : string -> string -> string.
Variable readFile : string -> option string.

Definition startsWith (s p : string) : bool :=
  match strip_prefix p s with
  | Some _ => true
  | None => false
  end.

(** The request listener of [http.createServer], with the response its
    [readFile] callback sends; [None] when no branch is taken and the
    request is never answered. *)
Definition requestListener (url : string) : option Response :=
  if String.eqb url "/" || String.eqb url "/index.html" then
    let filePath := path_join __dirname "index.html" in
    match readFile filePath with
    | None => Some {| statusCode := 500; contentType := "text/plain";
                      body := "Internal Server Error" |}
    | Some data => Some {| statusCode := 200; contentType := "text/html"; body := data |}
    end
  else if startsWith url "/js/" then
    let jsFilePath := path_join __dirname url in
    match readFile jsFilePath with
    | None => Some {| statusCode := 404; contentType := "text/plain";
                      body := "File not found" |}
    | Some data => Some {| statusCode := 200; contentType := "text/javascript";
                           body := data |}
    end
  else None.

(** [process.env.PORT || 3000] *)
Definition PORT (env_PORT : option string) : string :=
  match env_PORT with
  | Some p => if String.eqb p "" then "3000" else p
  | None => "3000"
  end.

End Server.

(** * Proofs *)

(** ** Strings and keys *)

Lemma append_nil (s : string) : "" +:+ s = s.
Proof. reflexivity. Qed.

Lemma append_cons (c : ascii) (a b : string) : String c a +:+ b = String c (a +:+ b).
Proof. reflexivity. Qed.

Lemma append_inv_head (k a b : string) : k +:+ a = k +:+ b -> a = b.
Proof. apply (inj (String.app k)). Qed.

Lemma append_assoc (a b c : string) : (a +:+ b) +:+ c = a +:+ (b +:+ c).
Proof.
  induction a as [|x a IH]; [reflexivity|].
  rewrite !append_cons. now rewrite IH.
Qed.

Lemma empty_default (v : string) : (if String.eqb v "" then "" else v) = v.
Proof. destruct v; reflexivity. Qed.

Lemma ends_with_digit_append (a b : string) :
  b <> "" -> ends_with_digit (a +:+ b) = ends_with_digit b.
Proof.
  intros Hb. induction a as [|c a IH]; [reflexivity|].
  rewrite append_cons. cbn. rewrite IH.
  destruct (a +:+ b) eqn:E; [|reflexivity].
  destruct a; [rewrite append_nil in E; contradiction|].
  rewrite append_cons in E. discriminate.
Qed.

Lemma pretty_N_go_append (x : N) (s : string) :
  pretty_N_go x s = pretty_N_go x "" +:+ s.
Proof.
  revert s. induction (N.lt_wf_0 x) as [x _ IH]. intros s.
  destruct (decide (0 < x)%N) as [Hx|Hx].
  - rewrite (pretty_N_go_step x s), (pretty_N_go_step x "") by assumption.
    assert (Hlt : (x `div` 10 < x)%N) by (apply N.div_lt; lia).
    rewrite (IH _ Hlt (String _ s)), (IH _ Hlt (String _ "")).
    now rewrite append_assoc.
  - assert (x = 0%N) as -> by lia. reflexivity.
Qed.

Lemma is_digit_pretty_N_char (d : N) : is_digit (pretty_N_char d) = true.
Proof.
  destruct d as [|p]; [reflexivity|].
  do 4 (try reflexivity; destruct p as [p|p|]); reflexivity.
Qed.

Lemma ends_with_digit_pretty_N (x : N) : ends_with_digit (pretty x) = true.
Proof.
  unfold pretty, pretty_N. case_decide; [reflexivity|].
  rewrite pretty_N_go_step by lia. rewrite pretty_N_go_append.
  rewrite ends_with_digit_append by discriminate.
  apply is_digit_pretty_N_char.
Qed.

Lemma ends_with_digit_pretty_Z (z : Z) : ends_with_digit (pretty z) = true.
Proof.
  destruct z as [|p|p]; [reflexivity| |].
  - apply (ends_with_digit_pretty_N (Npos p)).
  - change (pretty (Z.neg p)) with ("-" +:+ pretty (Npos p)).
    rewrite ends_with_digit_append; [apply ends_with_digit_pretty_N|].
    intros E. pose proof (ends_with_digit_pretty_N (Npos p)) as H.
    rewrite E in H. discriminate.
Qed.

(** A connector key of an integer connector is never the key of the last
    action: it ends with a digit. *)
Lemma connector_key_not_LastAction (k : string) (c : Z) :
  k +:+ pretty c <> "LastAction".
Proof.
  intros E. assert (H : ends_with_digit (k +:+ pretty c) = true).
  { rewrite ends_with_digit_append; [apply ends_with_digit_pretty_Z|].
    intros E'. pose proof (ends_with_digit_pretty_Z c) as H. rewrite E' in H. discriminate. }
  rewrite E in H. discriminate.
Qed.

Lemma connector_keys_differ (k : string) (c d : Z) :
  c <> d -> k +:+ pretty c <> k +:+ pretty d.
Proof.
  intros Hcd E. apply append_inv_head in E. apply Hcd. now apply (inj pretty).
Qed.

#[local] Arguments stringify : simpl never.
#[local] Arguments generateId_loop : simpl never.
#[local] Arguments ToString !v : simpl nomatch.
#[local] Arguments pretty : simpl never.


(** ** The round trip through JSON text *)

Lemma append_nil_r (s : string) : s +:+ "" = s.
Proof. induction s as [|c s IH]; [reflexivity|]. now rewrite append_cons, IH. Qed.

Lemma length_append (a b : string) :
  String.length (a +:+ b) = (String.length a + String.length b)%nat.
Proof. induction a as [|c a IH]; [reflexivity|]. rewrite append_cons. cbn. now rewrite IH. Qed.

(** *** Numbers *)

Lemma digit_of_pretty_N_char (d : N) :
  (d < 10)%N -> digit_of (pretty_N_char d) = Some d.
Proof.
  intros H. destruct d as [|p]; [reflexivity|].
  do 4 (try reflexivity; destruct p as [p|p|]); try reflexivity; lia.
Qed.

Lemma parse_digits_pretty_N_go (x : N) :
  exists p : N, forall (s : string) (acc : N),
    parse_digits (pretty_N_go x "" +:+ s) acc = parse_digits s (acc * p + x)%N.
Proof.
  induction (N.lt_wf_0 x) as [x _ IH].
  destruct (decide (0 < x)%N) as [Hx|Hx].
  - assert (Hlt : (x `div` 10 < x)%N) by (apply N.div_lt; lia).
    destruct (IH _ Hlt) as [p Hp]. exists (p * 10)%N. intros s acc.
    rewrite pretty_N_go_step by assumption.
    rewrite pretty_N_go_append, append_assoc, append_cons, append_nil, Hp.
    cbn [parse_digits].
    rewrite digit_of_pretty_N_char by (apply N.mod_lt; lia).
    f_equal.
    assert (Hdm : x = (10 * (x `div` 10) + x `mod` 10)%N) by (apply N.div_mod; lia).
    set (q := (x `div` 10)%N) in *. set (m := (x `mod` 10)%N) in *. nia.
  - assert (x = 0%N) as -> by lia. exists 1%N. intros s acc.
    rewrite pretty_N_go_0, append_nil. f_equal. lia.
Qed.

Lemma pretty_N_go_head (x : N) :
  (0 < x)%N ->
  exists c r d, pretty_N_go x "" = String c r /\ digit_of c = Some d /\ d <> 0%N.
Proof.
  induction (N.lt_wf_0 x) as [x _ IH]. intros Hx.
  rewrite pretty_N_go_step by assumption.
  destruct (decide (0 < x `div` 10)%N) as [Hq|Hq].
  - assert (Hlt : (x `div` 10 < x)%N) by (apply N.div_lt; lia).
    destruct (IH _ Hlt Hq) as (c & r & d & E & D & Hd).
    rewrite pretty_N_go_append, E, append_cons. eauto 6.
  - assert (E : (x `div` 10 = 0)%N)
      by (revert Hq; generalize (x `div` 10)%N; intros; lia).
    rewrite E, pretty_N_go_0.
    assert (Hsmall : (x < 10)%N) by (apply N.div_small_iff in E; [assumption|lia]).
    exists (pretty_N_char (x `mod` 10)), "", x.
    rewrite N.mod_small by assumption.
    split; [reflexivity|]. split; [now apply digit_of_pretty_N_char|lia].
Qed.

Lemma parse_digits_stops (s : string) (acc : N) :
  number_continues s = false -> parse_digits s acc = (acc, s).
Proof.
  destruct s as [|c s]; [reflexivity|]. cbn.
  destruct (digit_of c); [discriminate|reflexivity].
Qed.

Lemma parse_natural_pretty (n : N) (rest : string) :
  number_continues rest = false ->
  parse_natural (pretty n +:+ rest) = Some (n, rest).
Proof.
  intros Hrest. unfold pretty, pretty_N. case_decide as Hn.
  - subst n. rewrite append_cons, append_nil.
    change (parse_natural (String "0" rest))
      with (if number_continues rest then None else Some (0%N, rest)).
    now rewrite Hrest.
  - destruct (pretty_N_go_head n) as (c & r & d & E & D & Hd); [lia|].
    destruct (parse_digits_pretty_N_go n) as [p Hp].
    specialize (Hp rest 0%N). rewrite E, append_cons in Hp. cbn in Hp.
    rewrite D in Hp. rewrite (parse_digits_stops rest) in Hp by assumption.
    rewrite E, append_cons. unfold parse_natural. rewrite D.
    apply N.eqb_neq in Hd. rewrite Hd.
    replace (0 * 10 + d)%N with d in Hp by lia. rewrite Hp.
    replace (0 * p + n)%N with n by lia. now rewrite Hrest.
Qed.

Lemma pretty_N_head_digit (n : N) :
  exists c r, pretty n = String c r /\ is_digit c = true.
Proof.
  unfold pretty, pretty_N. case_decide as Hn.
  - exists "0"%char, "". split; reflexivity.
  - destruct (pretty_N_go_head n) as (c & r & d & E & D & Hd); [lia|].
    exists c, r. split; [assumption|]. unfold is_digit. now rewrite D.
Qed.

Lemma is_digit_not_minus (c : ascii) : is_digit c = true -> Ascii.eqb c "-" = false.
Proof.
  destruct (Ascii.eqb_spec c "-"); [subst; discriminate|reflexivity].
Qed.

Lemma parse_number_pretty (z : Z) (rest : string) :
  number_continues rest = false ->
  parse_number (pretty z +:+ rest) = Some (Num (Int z), rest).
Proof.
  intros Hrest. destruct z as [|p|p].
  - change (pretty 0%Z) with "0". rewrite append_cons, append_nil.
    change (parse_number (String "0" rest))
      with (match (if number_continues rest then None else Some (0%N, rest)) with
            | Some (n, rest') => Some (Num (Int (Z.of_N n)), rest')
            | None => None
            end).
    now rewrite Hrest.
  - change (pretty (Z.pos p)) with (pretty (N.pos p)).
    pose proof (parse_natural_pretty (N.pos p) rest Hrest) as H.
    destruct (pretty_N_head_digit (N.pos p)) as (c & r & E & D).
    rewrite E, append_cons in *. unfold parse_number.
    rewrite (is_digit_not_minus c D), H. reflexivity.
  - change (pretty (Z.neg p)) with ("-" +:+ pretty (N.pos p)).
    rewrite append_assoc, append_cons, append_nil.
    change (parse_number (String "-" (pretty (N.pos p) +:+ rest)))
      with (match parse_natural (pretty (N.pos p) +:+ rest) with
            | Some (n, rest') => Some (Num (Int (- Z.of_N n)), rest')
            | None => None
            end).
    rewrite (parse_natural_pretty (N.pos p) rest Hrest). reflexivity.
Qed.

(** *** Strings *)

Lemma parse_escaped_char (c : ascii) (tail : string) :
  parse_string_chars (json_escape c +:+ tail) =
  match parse_string_chars tail with
  | Some (str, out) => Some (String c str, out)
  | None => None
  end.
Proof. destruct c as [[] [] [] [] [] [] [] []]; reflexivity. Qed.

Lemma parse_string_quoted (s rest : string) :
  parse_string_chars (quote_chars s +:+ String dquote rest) = Some (s, rest).
Proof.
  induction s as [|c s IH]; [reflexivity|].
  cbn [quote_chars]. rewrite append_assoc, parse_escaped_char, IH. reflexivity.
Qed.

Lemma QuoteJSONString_append (s rest : string) :
  QuoteJSONString s +:+ rest = String dquote (quote_chars s +:+ String dquote rest).
Proof.
  unfold QuoteJSONString. rewrite append_cons, append_assoc, append_cons, append_nil.
  reflexivity.
Qed.

(** *** Where a value starts *)

Lemma number_start_value_start (c : ascii) (r : string) :
  number_start c -> value_start (String c r).
Proof.
  unfold number_start, value_start.
  destruct c as [[] [] [] [] [] [] [] []]; intros [H|H];
    try discriminate H; try (vm_compute in H; discriminate H); repeat split.
Qed.

Lemma parse_value_number (c : ascii) (r : string) (f : nat) :
  number_start c -> parse_value (S f) (String c r) = parse_number (String c r).
Proof.
  unfold number_start.
  destruct c as [[] [] [] [] [] [] [] []]; intros [H|H];
    try discriminate H; try (vm_compute in H; discriminate H); reflexivity.
Qed.

Lemma pretty_Z_start (z : Z) :
  exists c r, pretty z = String c r /\ number_start c.
Proof.
  destruct z as [|p|p].
  - exists "0"%char, "". split; [reflexivity|now right].
  - destruct (pretty_N_head_digit (N.pos p)) as (c & r & E & D).
    exists c, r. split; [exact E|now right].
  - exists "-"%char, (pretty (N.pos p)). split; [reflexivity|now left].
Qed.

Lemma skip_ws_value_start (s : string) : value_start s -> skip_ws s = s.
Proof.
  destruct s as [|c s]; [contradiction|]. intros (H & _). cbn. now rewrite H.
Qed.

Lemma delimited_number_end (rest : string) :
  delimited rest -> number_continues rest = false.
Proof.
  destruct rest as [|c rest]; [reflexivity|].
  intros [->|[->| ->]]; reflexivity.
Qed.

Lemma json_ok_defined (v : value) :
  json_ok v = true -> JSON_stringify v = Some (text_of v).
Proof.
  unfold text_of. destruct v as [| |[]|[]| | |]; try discriminate; reflexivity.
Qed.

Lemma text_of_start (v : value) (rest : string) :
  json_ok v = true -> value_start (text_of v +:+ rest).
Proof.
  destruct v as [| |[]|[|z]|s|es|ps]; try discriminate; intros _.
  1-3: repeat split.
  - change (text_of (Num (Int z))) with (pretty z).
    destruct (pretty_Z_start z) as (c & r & -> & Hc).
    rewrite append_cons. now apply number_start_value_start.
  - change (text_of (Str s)) with (QuoteJSONString s).
    rewrite QuoteJSONString_append. repeat split.
  - repeat split.
  - repeat split.
Qed.

(** *** Arrays and objects *)

Lemma value_ind_nested (P : value -> Prop)
  (HU : P Undefined) (HN : P Null) (HB : forall b, P (Bool b))
  (HNum : forall n, P (Num n)) (HS : forall s, P (Str s))
  (HA : forall es, Forall P es -> P (Arr es))
  (HO : forall ps, Forall (fun kv => P (snd kv)) ps -> P (Obj ps)) :
  forall v, P v.
Proof.
  fix IH 1. intros [| |b|n|s|es|ps];
    [exact HU|exact HN|apply HB|apply HNum|apply HS| | ].
  - apply HA. induction es as [|e es IHes]; constructor; [apply IH|exact IHes].
  - apply HO. induction ps as [|kv ps IHps]; constructor; [apply IH|exact IHps].
Qed.

Lemma join_comma_cons (t : string) (ts : list string) :
  ts <> [] -> join_comma (t :: ts) = t +:+ "," +:+ join_comma ts.
Proof. destruct ts; [contradiction|reflexivity]. Qed.

Lemma parse_elements_text (pv : string -> option (value * string))
    (es : list value) (rest : string) :
  es <> [] ->
  Forall (fun e => forall rest', delimited rest' ->
                   pv (text_of e +:+ rest') = Some (e, rest')) es ->
  forall fuel, (List.length es <= fuel)%nat ->
  parse_elements pv fuel (join_comma (List.map text_of es) +:+ String "]" rest)
  = Some (es, rest).
Proof.
  induction es as [|e es IH]; [contradiction|]. intros _ Hall fuel Hfuel.
  apply Forall_cons in Hall as [He Hes].
  destruct fuel as [|fuel]; [cbn in Hfuel; lia|].
  destruct es as [|e' es].
  - cbn [List.map join_comma parse_elements].
    rewrite He by (right; now left). reflexivity.
  - cbn [List.map]. rewrite join_comma_cons by discriminate.
    rewrite !append_assoc, append_cons, append_nil.
    cbn [parse_elements]. rewrite He by now left.
    cbn [skip_ws]. change (is_ws ",") with false. cbv iota.
    change (Ascii.eqb "," ",") with true. cbv iota.
    change (text_of e' :: List.map text_of es) with (List.map text_of (e' :: es)).
    rewrite IH; [reflexivity|discriminate|assumption|cbn in *; lia].
Qed.

Lemma member_text_append (kv : string * value) (tail : string) :
  member_text kv +:+ tail
  = String dquote (quote_chars (fst kv) +:+
      String dquote (String ":" (text_of (snd kv) +:+ tail))).
Proof.
  unfold member_text. rewrite append_assoc, QuoteJSONString_append.
  rewrite append_assoc, append_cons, append_nil. reflexivity.
Qed.

Lemma parse_members_text (pv : string -> option (value * string))
    (ps : list (string * value)) (rest : string) :
  ps <> [] ->
  Forall (fun kv => forall rest', delimited rest' ->
                    pv (text_of (snd kv) +:+ rest') = Some (snd kv, rest')) ps ->
  forall fuel, (List.length ps <= fuel)%nat ->
  parse_members pv fuel (join_comma (List.map member_text ps) +:+ String "}" rest)
  = Some (ps, rest).
Proof.
  induction ps as [|kv ps IH]; [contradiction|]. intros _ Hall fuel Hfuel.
  apply Forall_cons in Hall as [Hkv Hps].
  destruct fuel as [|fuel]; [cbn in Hfuel; lia|].
  destruct ps as [|kv' ps].
  - cbn [List.map join_comma]. rewrite member_text_append.
    cbn [parse_members skip_ws]. change (is_ws dquote) with false. cbv iota.
    change (Ascii.eqb dquote dquote) with true. cbv iota.
    rewrite parse_string_quoted. cbn [skip_ws]. change (is_ws ":") with false.
    cbv iota. change (Ascii.eqb ":" ":") with true. cbv iota.
    rewrite Hkv by (right; now right). destruct kv. reflexivity.
  - cbn [List.map]. rewrite join_comma_cons by discriminate.
    rewrite append_assoc, member_text_append, append_assoc, append_cons, append_nil.
    cbn [parse_members skip_ws]. change (is_ws dquote) with false. cbv iota.
    change (Ascii.eqb dquote dquote) with true. cbv iota.
    rewrite parse_string_quoted. cbn [skip_ws]. change (is_ws ":") with false.
    cbv iota. change (Ascii.eqb ":" ":") with true. cbv iota.
    rewrite Hkv by now left.
    cbn [skip_ws]. change (is_ws ",") with false. cbv iota.
    change (Ascii.eqb "," ",") with true. cbv iota.
    change (member_text kv' :: List.map member_text ps)
      with (List.map member_text (kv' :: ps)).
    rewrite IH; [destruct kv; reflexivity|discriminate|assumption|cbn in *; lia].
Qed.

(** *** Property order *)

Lemma key_before_ne (k' k : string) : key_before k' k = true -> String.eqb k' k = false.
Proof. unfold key_before. destruct (String.eqb k' k); [discriminate|reflexivity]. Qed.

Lemma has_prop_fresh (k : string) (acc : list (string * value)) :
  Forall (fun kv => key_before (fst kv) k = true) acc -> has_prop k acc = false.
Proof.
  induction 1 as [|[k' v'] acc Hk _ IH]; [reflexivity|].
  cbn in *. now rewrite (key_before_ne _ _ Hk), IH.
Qed.

Lemma insert_index_last (i : N) (k : string) (v : value) (acc : list (string * value)) :
  array_index k = Some i ->
  Forall (fun kv => key_before (fst kv) k = true) acc ->
  insert_index i k v acc = (acc ++ [(k, v)])%list.
Proof.
  intros Hi. induction 1 as [|[k' v'] acc Hk _ IH]; [reflexivity|].
  cbn in *. unfold key_before in Hk. rewrite Hi in Hk.
  destruct (array_index k') as [j|].
  - apply andb_true_iff in Hk as [_ Hlt]. apply N.ltb_lt in Hlt.
    assert (E : (i <? j)%N = false) by (apply N.ltb_ge; lia).
    now rewrite E, IH.
  - apply andb_true_iff in Hk as [_ Hk]. discriminate.
Qed.

Lemma define_property_last (acc : list (string * value)) (kv : string * value) :
  Forall (fun kv' => key_before (fst kv') (fst kv) = true) acc ->
  define_property acc kv = (acc ++ [kv])%list.
Proof.
  destruct kv as [k v]. cbn [fst]. intros H. unfold define_property.
  rewrite (has_prop_fresh _ _ H).
  destruct (array_index k) as [i|] eqn:Hi; [|reflexivity].
  now apply insert_index_last.
Qed.

Lemma ordered_keys_before (acc : list (string * value)) (kv : string * value)
    (l : list (string * value)) :
  ordered_keys (List.map fst (acc ++ kv :: l)) = true ->
  Forall (fun kv' => key_before (fst kv') (fst kv) = true) acc.
Proof.
  induction acc as [|a acc IH]; [constructor|]. cbn.
  intros H. apply andb_true_iff in H as [Ha Hrest].
  constructor; [|now apply IH].
  rewrite forallb_forall in Ha. apply Ha.
  rewrite List.map_app. apply in_or_app. right. now left.
Qed.

Lemma fold_define_property (l acc : list (string * value)) :
  ordered_keys (List.map fst (acc ++ l)) = true ->
  fold_left define_property l acc = (acc ++ l)%list.
Proof.
  revert acc. induction l as [|kv l IH]; intros acc H.
  - now rewrite app_nil_r.
  - cbn. rewrite (define_property_last acc kv) by (eapply ordered_keys_before; eauto).
    rewrite IH; rewrite <- app_assoc; [reflexivity|exact H].
Qed.

(** *** Values *)

Lemma json_size_pos (v : value) : (1 <= json_size v)%nat.
Proof. destruct v; cbn; lia. Qed.

Lemma list_sum_bounds {A} (f : A -> nat) (l : list A) :
  (forall a, 1 <= f a)%nat ->
  (List.length l <= list_sum (List.map f l))%nat /\
  Forall (fun a => f a <= list_sum (List.map f l))%nat l.
Proof.
  intros Hf. induction l as [|a l [IH1 IH2]]; [split; [reflexivity|constructor]|].
  change (list_sum (List.map f (a :: l))) with (f a + list_sum (List.map f l))%nat.
  pose proof (Hf a). split; [cbn [List.length]; lia|]. constructor; [lia|].
  eapply Forall_impl; [exact IH2|]. cbn beta. intros; lia.
Qed.

Lemma text_of_Arr (es : list value) :
  text_of (Arr es) = "[" +:+ join_comma (List.map text_of es) +:+ "]".
Proof. reflexivity. Qed.

Lemma text_of_Obj (ps : list (string * value)) :
  forallb (fun kv => json_ok (snd kv)) ps = true ->
  text_of (Obj ps) = "{" +:+ join_comma (List.map member_text ps) +:+ "}".
Proof.
  intros H. unfold text_of. cbn [JSON_stringify]. do 3 f_equal.
  induction ps as [|kv ps IH]; [reflexivity|].
  cbn in H. apply andb_true_iff in H as [Hkv Hps].
  cbn. rewrite (json_ok_defined _ Hkv). cbn. now rewrite <- IH.
Qed.

Lemma join_comma_start (ts : list string) (t : string) (tail : string) :
  value_start t ->
  value_start (join_comma (t :: ts) +:+ tail).
Proof.
  destruct t as [|c t]; [contradiction|]. intros H.
  destruct ts; cbn [join_comma]; rewrite ?append_cons; exact H.
Qed.

Lemma parse_value_string (f : nat) (x : string) :
  parse_value (S f) (String dquote x) =
  match parse_string_chars x with
  | Some (str, out) => Some (Str str, out)
  | None => None
  end.
Proof. reflexivity. Qed.

Lemma parse_value_array (f : nat) (x : string) :
  parse_value (S f) (String "[" x) =
  match skip_ws x with
  | EmptyString => None
  | String c2 rest2 =>
      if Ascii.eqb c2 "]" then Some (Arr [], rest2)
      else match parse_elements (parse_value f) f (String c2 rest2) with
           | Some (vs, out) => Some (Arr vs, out)
           | None => None
           end
  end.
Proof. reflexivity. Qed.

Lemma parse_value_object (f : nat) (x : string) :
  parse_value (S f) (String "{" x) =
  match skip_ws x with
  | EmptyString => None
  | String c2 rest2 =>
      if Ascii.eqb c2 "}" then Some (Obj [], rest2)
      else match parse_members (parse_value f) f (String c2 rest2) with
           | Some (kvs, out) => Some (Obj (fold_left define_property kvs []), out)
           | None => None
           end
  end.
Proof. reflexivity. Qed.

Lemma parse_value_text (v : value) :
  json_ok v = true ->
  forall (fuel : nat) (rest : string),
    (json_size v <= fuel)%nat -> delimited rest ->
    parse_value fuel (text_of v +:+ rest) = Some (v, rest).
Proof.
  induction v as [| |b|n|s|es IH|ps IH] using value_ind_nested;
    intros Hok fuel rest Hfuel Hrest;
    (destruct fuel as [|f]; [cbn in Hfuel; lia|]).
  - discriminate Hok.
  - reflexivity.
  - destruct b; reflexivity.
  - destruct n as [|z]; [discriminate Hok|].
    change (text_of (Num (Int z))) with (pretty z).
    destruct (pretty_Z_start z) as (c & r & E & Hc).
    rewrite E, append_cons, parse_value_number by assumption.
    rewrite <- append_cons, <- E.
    apply parse_number_pretty. now apply delimited_number_end.
  - change (text_of (Str s)) with (QuoteJSONString s).
    rewrite QuoteJSONString_append, parse_value_string, parse_string_quoted.
    reflexivity.
  - rewrite text_of_Arr, !append_assoc, append_cons, append_nil, parse_value_array.
    rewrite append_cons, append_nil.
    destruct es as [|e es]; [reflexivity|].
    cbn [json_ok] in Hok. cbn [json_size] in Hfuel.
    destruct (list_sum_bounds json_size (e :: es) json_size_pos) as [Hlen Hsizes].
    assert (Hstart : value_start
              (join_comma (List.map text_of (e :: es)) +:+ String "]" rest)).
    { cbn [List.map]. apply join_comma_start.
      rewrite <- (append_nil_r (text_of e)). apply text_of_start.
      cbn in Hok. now apply andb_true_iff in Hok as [He _]. }
    rewrite (skip_ws_value_start _ Hstart).
    destruct (join_comma _ +:+ _) as [|c2 rest2] eqn:E; [contradiction|].
    destruct Hstart as (_ & Hc2 & _). rewrite Hc2, <- E.
    rewrite (parse_elements_text (parse_value f)); [reflexivity|discriminate| |lia].
    rewrite Forall_forall in IH, Hsizes. rewrite forallb_forall in Hok.
    apply Forall_forall. intros x Hx rest' Hrest'.
    apply IH; [assumption|apply Hok; now apply list_elem_of_In| |assumption].
    specialize (Hsizes x Hx). cbn beta in Hsizes. lia.
  - cbn [json_ok] in Hok. apply andb_true_iff in Hok as [Hkeys Hok].
    rewrite (text_of_Obj _ Hok), !append_assoc, append_cons, append_nil,
      parse_value_object.
    rewrite append_cons, append_nil.
    destruct ps as [|kv ps]; [reflexivity|].
    cbn [json_size] in Hfuel.
    destruct (list_sum_bounds (fun kv => json_size (snd kv)) (kv :: ps)
                (fun kv => json_size_pos (snd kv))) as [Hlen Hsizes].
    assert (Hstart : value_start
              (join_comma (List.map member_text (kv :: ps)) +:+ String "}" rest)).
    { cbn [List.map]. apply join_comma_start.
      rewrite <- (append_nil_r (member_text kv)), member_text_append.
      repeat split. }
    rewrite (skip_ws_value_start _ Hstart).
    destruct (join_comma _ +:+ _) as [|c2 rest2] eqn:E; [contradiction|].
    destruct Hstart as (_ & _ & Hc2). rewrite Hc2, <- E.
    rewrite (parse_members_text (parse_value f)); [|discriminate| |lia].
    + now rewrite (fold_define_property (kv :: ps) []).
    + rewrite Forall_forall in IH, Hsizes. rewrite forallb_forall in Hok.
      apply Forall_forall. intros x Hx rest' Hrest'.
      apply IH; [assumption|apply Hok; now apply list_elem_of_In| |assumption].
      specialize (Hsizes x Hx). cbn beta in Hsizes. lia.
Qed.

(** *** The length of the text is enough fuel *)

Lemma length_join_comma (ts : list string) :
  (list_sum (List.map String.length ts) <= String.length (join_comma ts))%nat.
Proof.
  induction ts as [|t ts IH]; [reflexivity|].
  change (list_sum (List.map String.length (t :: ts)))
    with (String.length t + list_sum (List.map String.length ts))%nat.
  destruct ts as [|t' ts].
  - cbn. lia.
  - rewrite join_comma_cons by discriminate. rewrite !length_append. lia.
Qed.

Lemma list_sum_le {A} (f g : A -> nat) (l : list A) :
  Forall (fun a => f a <= g a)%nat l ->
  (list_sum (List.map f l) <= list_sum (List.map g l))%nat.
Proof.
  induction 1 as [|a l Ha _ IH]; [reflexivity|].
  change (list_sum (List.map f (a :: l))) with (f a + list_sum (List.map f l))%nat.
  change (list_sum (List.map g (a :: l))) with (g a + list_sum (List.map g l))%nat.
  lia.
Qed.

Lemma json_size_le_length (v : value) :
  json_ok v = true -> (json_size v <= String.length (text_of v))%nat.
Proof.
  induction v as [| |b|n|s|es IH|ps IH] using value_ind_nested; intros Hok.
  - discriminate Hok.
  - cbn. lia.
  - destruct b; cbn; lia.
  - destruct n as [|z]; [discriminate Hok|].
    change (text_of (Num (Int z))) with (pretty z).
    destruct (pretty_Z_start z) as (c & r & -> & _). cbn. lia.
  - cbn. lia.
  - rewrite text_of_Arr, !length_append. cbn [json_size String.length].
    cbn [json_ok] in Hok. rewrite forallb_forall in Hok.
    pose proof (length_join_comma (List.map text_of es)) as Hj.
    rewrite List.map_map in Hj.
    assert (Hle : (list_sum (List.map json_size es)
                   <= list_sum (List.map (fun e => String.length (text_of e)) es))%nat).
    { apply list_sum_le. rewrite Forall_forall in IH. apply Forall_forall.
      intros x Hx. apply IH; [assumption|]. apply Hok. now apply list_elem_of_In. }
    lia.
  - cbn [json_ok] in Hok. apply andb_true_iff in Hok as [_ Hok].
    rewrite (text_of_Obj _ Hok), !length_append. cbn [json_size String.length].
    rewrite forallb_forall in Hok.
    pose proof (length_join_comma (List.map member_text ps)) as Hj.
    rewrite List.map_map in Hj.
    assert (Hle : (list_sum (List.map (fun kv => json_size (snd kv)) ps)
                   <= list_sum (List.map (fun kv => String.length (member_text kv)) ps))%nat).
    { apply list_sum_le. rewrite Forall_forall in IH. apply Forall_forall.
      intros x Hx. unfold member_text. rewrite !length_append.
      specialize (IH x Hx (Hok x (proj1 (list_elem_of_In _ _) Hx))). lia. }
    lia.
Qed.

(** [JSON.parse(JSON.stringify(v))] is [v]. *)
Lemma JSON_parse_stringify (v : value) :
  json_ok v = true ->
  JSON_stringify v = Some (text_of v) /\ JSON_parse (text_of v) = Some v.
Proof.
  intros Hok. split; [now apply json_ok_defined|].
  unfold JSON_parse.
  rewrite <- (append_nil_r (text_of v)) at 2.
  rewrite parse_value_text; [reflexivity|assumption| |exact I].
  now apply json_size_le_length.
Qed.

(** ** The round trip of a CALL *)

(** C8: for every id, action name [A] and JSON payload [P], the text
    [JSON.stringify([2, id, A, P])] is read back by [JSON.parse] as the same
    array, and the decoder of [onmessage] hands [handleCallRequest] the id,
    the action [A] and the payload [P]. *)
Theorem CALL_round_trip js (id A : string) (P : value) (w : World) :
  json_ok P = true ->
  exists text ddata,
    JSON_stringify (Arr [Num (Int 2); Str id; Str A; P]) = Some text /\
    JSON_parse text = Some ddata /\
    get_index ddata 0 = Some (Num (Int 2)) /\
    decode js ddata w = Normal (to_handleCallRequest (Str id) (Str A) P) w.
Proof.
  intros HP.
  assert (Hok : json_ok (Arr [Num (Int 2); Str id; Str A; P]) = true)
    by (cbn; now rewrite HP).
  destruct (JSON_parse_stringify _ Hok) as [Hs Hp].
  exists (text_of (Arr [Num (Int 2); Str id; Str A; P])),
         (Arr [Num (Int 2); Str id; Str A; P]).
  repeat split; assumption || reflexivity.
Qed.

Lemma CALL_round_trip_witness :
  exists text ddata,
    JSON_stringify (Arr [Num (Int 2); Str "id1"; Str "Authorize";
                         Obj [("idTag", Str "TAG1")]]) = Some text /\
    JSON_parse text = Some ddata /\
    get_index ddata 0 = Some (Num (Int 2)) /\
    decode sample_platform ddata fresh_world
    = Normal (to_handleCallRequest (Str "id1") (Str "Authorize")
                (Obj [("idTag", Str "TAG1")])) fresh_world.
Proof.
  apply (CALL_round_trip sample_platform "id1" "Authorize"
           (Obj [("idTag", Str "TAG1")]) fresh_world).
  reflexivity.
Defined.

Lemma ToString_Int (z : Z) : ToString (Num (Int z)) = pretty z.
Proof. reflexivity. Qed.

Lemma ToString_Str (s : string) : ToString (Str s) = s.
Proof. reflexivity. Qed.

Lemma nonempty_default (v d : string) : v <> "" -> (if String.eqb v "" then d else v) = v.
Proof. intros H. destruct (String.eqb_spec v ""); [contradiction|reflexivity]. Qed.

(** ** Running the engine symbolically *)

#[local] Opaque stringify generateId_loop ToString.

Ltac unfold_engine :=
  unfold setConnectorAvailability_own, setConnectorStatus, sendStatusNotification,
    connectorStatus, availability, setLastAction, getLastAction, wsSendData,
    setStatus, status, logMsg, setKey, setSessionKey, getSessionKey, getKey,
    generateId, utc_toISO, meterValue, emit, modify, gets, bind, ret, throw.

Ltac open_world w :=
  destruct w as [[ws hb scb acb lcb rr dd] ss ls iv nt dr tk tr].

Ltac norm_trace :=
  repeat match goal with
         | |- ((?a ++ ?b) ++ ?c)%list = _ => rewrite <- (app_assoc a b c)
         end.

Lemma availability_calls_app (a b : list event) :
  availability_calls (a ++ b) = (availability_calls a ++ availability_calls b)%list.
Proof.
  induction a as [|e a IH]; [reflexivity|].
  destruct e; cbn; rewrite IH; reflexivity.
Qed.

Lemma engine_events_app (a b : list event) :
  engine_events (a ++ b) = (engine_events a ++ engine_events b)%list.
Proof.
  induction a as [|e a IH]; [reflexivity|].
  destruct e; cbn; rewrite IH; reflexivity.
Qed.


Lemma setConnectorStatus_notifies ocpp js c st w :
  exists w' evs,
    setConnectorStatus ocpp js c st true w = Normal tt w' /\
    trace w' = (trace w ++ evs)%list /\
    engine_events evs = notify_events ocpp js c st w /\
    this w' = this w /\
    sessionStorage w' = notify_session ocpp c st w /\
    localStorage w' = localStorage w /\
    intervals w' = intervals w.
Proof.
  unfold_engine. unfold notify_events, notify_session, wsSendData_events,
    StatusNotification_frame. open_world w.
  destruct ws, scb, lcb; cbn; rewrite lookup_insert_eq, empty_default.
  all: eexists; eexists.
  all: split; [reflexivity|].
  all: split; [cbn; norm_trace; reflexivity|].
  all: repeat split.
Qed.

Lemma setConnectorAvailability_own_spec ocpp js c X w :
  exists w' evs,
    setConnectorAvailability_own ocpp js c X w = Normal tt w' /\
    trace w' = (trace w ++ evs)%list /\
    availability_calls evs = observer_call w c X /\
    this w' = this w /\
    localStorage w' =
      <[KEY_CONN_AVAILABILITY ocpp +:+ ToString c := ToString X]> (localStorage w) /\
    intervals w' = intervals w /\
    if loose_eq_string js X (AVAILABITY_INOPERATIVE ocpp)
    then engine_events evs =
           localStorage_setItem (KEY_CONN_AVAILABILITY ocpp +:+ ToString c) (ToString X)
           :: notify_events ocpp js c (CONN_UNAVAILABLE ocpp) w /\
         sessionStorage w' = notify_session ocpp c (CONN_UNAVAILABLE ocpp) w
    else engine_events evs =
           [localStorage_setItem (KEY_CONN_AVAILABILITY ocpp +:+ ToString c) (ToString X)] /\
         sessionStorage w' = sessionStorage w.
Proof.
  unfold_engine. unfold notify_events, notify_session, wsSendData_events,
    StatusNotification_frame, observer_call. open_world w.
  destruct (loose_eq_string js X (AVAILABITY_INOPERATIVE ocpp));
    destruct ws, scb, acb, lcb; cbn; rewrite ?lookup_insert_eq, ?empty_default.
  all: eexists; eexists.
  all: split; [reflexivity|].
  all: split; [cbn; norm_trace; reflexivity|].
  all: repeat split.
Qed.

(** ** [setConnectorAvailability] *)

Lemma setConnectorAvailability_nonzero ocpp js c X :
  is_connector_zero js c = false ->
  setConnectorAvailability ocpp js c X = setConnectorAvailability_own ocpp js c X.
Proof.
  intros H. rewrite setConnectorAvailability_equation_1.
  generalize (inspect (is_connector_zero js c)). intros [b e].
  destruct b; [congruence|]. reflexivity.
Qed.

Lemma setConnectorAvailability_zero ocpp js c X :
  is_connector_zero js c = true ->
  setConnectorAvailability ocpp js c X =
  (setConnectorAvailability_own ocpp js c X >>
   setConnectorAvailability_own ocpp js (Num (Int 1)) X >>
   setConnectorAvailability_own ocpp js (Num (Int 2)) X).
Proof.
  intros H. rewrite setConnectorAvailability_equation_1.
  generalize (inspect (is_connector_zero js c)). intros [b e].
  destruct b; [|congruence].
  unfold setConnectorAvailability_unfold_clause_1.
  rewrite !setConnectorAvailability_nonzero by reflexivity. reflexivity.
Qed.

(** C10: with an availability-change observer registered,
    [setConnectorAvailability(0, X)] calls it exactly three times, with
    (0, X), then (1, X), then (2, X); the cascade from connector 0 ends at
    connectors 1 and 2. *)
Theorem observer_called_for_0_1_2 ocpp js (X : value) (cb : callback) (w : World) :
  _availabilityChangeCb (this w) = Some cb ->
  exists w' evs,
    setConnectorAvailability ocpp js (Num (Int 0)) X w = Normal tt w' /\
    trace w' = (trace w ++ evs)%list /\
    availability_calls evs =
      [(cb, Num (Int 0), X); (cb, Num (Int 1), X); (cb, Num (Int 2), X)].
Proof.
  intros Hcb. rewrite setConnectorAvailability_zero by reflexivity. unfold bind.
  destruct (setConnectorAvailability_own_spec ocpp js (Num (Int 0)) X w)
    as (w1 & e1 & -> & T1 & A1 & H1 & _).
  destruct (setConnectorAvailability_own_spec ocpp js (Num (Int 1)) X w1)
    as (w2 & e2 & -> & T2 & A2 & H2 & _).
  destruct (setConnectorAvailability_own_spec ocpp js (Num (Int 2)) X w2)
    as (w3 & e3 & -> & T3 & A3 & H3 & _).
  exists w3, (e1 ++ e2 ++ e3)%list. split; [reflexivity|]. split.
  - rewrite T3, T2, T1, <- !app_assoc. reflexivity.
  - rewrite !availability_calls_app, A1, A2, A3. unfold observer_call.
    rewrite H2, H1, Hcb. reflexivity.
Qed.

Lemma existsb_writes_engine_events (evs : list event) :
  existsb writes_status_or_sends evs = existsb writes_status_or_sends (engine_events evs).
Proof.
  induction evs as [|e evs IH]; [reflexivity|].
  destruct e; cbn; rewrite ?IH; reflexivity.
Qed.

Lemma connectorStatus_reads ocpp c w :
  result (connectorStatus ocpp c w) =
  Some (match sessionStorage w !! (KEY_CONN_STATUS ocpp +:+ ToString c) with
        | Some v => v
        | None => ""
        end).
Proof.
  unfold connectorStatus, getSessionKey, gets. cbn.
  destruct (sessionStorage w !! _); [now rewrite empty_default|reflexivity].
Qed.

Lemma availability_reads ocpp (z : Z) w :
  result (availability ocpp (Num (Int z)) w) =
  Some (match localStorage w !! (KEY_CONN_AVAILABILITY ocpp +:+ pretty z) with
        | Some v => if String.eqb v "" then AVAILABITY_OPERATIVE ocpp else v
        | None => AVAILABITY_OPERATIVE ocpp
        end).
Proof. unfold availability, getKey, gets. cbn. now rewrite ToString_Int. Qed.

Lemma notify_session_self ocpp (c : Z) st w :
  KEY_CP_STATUS ocpp <> KEY_CONN_STATUS ocpp +:+ pretty c ->
  notify_session ocpp (Num (Int c)) st w !! (KEY_CONN_STATUS ocpp +:+ pretty c) = Some st.
Proof.
  intros Hk. unfold notify_session. rewrite ToString_Int.
  pose proof (connector_key_not_LastAction (KEY_CONN_STATUS ocpp) c) as Hla.
  destruct (_websocket (this w)).
  - rewrite lookup_insert_ne by congruence. apply lookup_insert_eq.
  - rewrite lookup_insert_ne by assumption.
    rewrite lookup_insert_ne by congruence. apply lookup_insert_eq.
Qed.

Lemma notify_session_other ocpp (c d : Z) st w :
  c <> d ->
  KEY_CP_STATUS ocpp <> KEY_CONN_STATUS ocpp +:+ pretty d ->
  notify_session ocpp (Num (Int c)) st w !! (KEY_CONN_STATUS ocpp +:+ pretty d)
  = sessionStorage w !! (KEY_CONN_STATUS ocpp +:+ pretty d).
Proof.
  intros Hcd Hk. unfold notify_session. rewrite ToString_Int.
  pose proof (connector_key_not_LastAction (KEY_CONN_STATUS ocpp) d) as Hla.
  pose proof (connector_keys_differ (KEY_CONN_STATUS ocpp) c d Hcd) as Hne.
  destruct (_websocket (this w)).
  - rewrite lookup_insert_ne by congruence. now rewrite lookup_insert_ne.
  - rewrite lookup_insert_ne by assumption.
    rewrite lookup_insert_ne by congruence. now rewrite lookup_insert_ne.
Qed.

Lemma setConnectorAvailability_not_inoperative ocpp js c X w :
  loose_eq_string js X (AVAILABITY_INOPERATIVE ocpp) = false ->
  exists w' evs,
    setConnectorAvailability ocpp js c X w = Normal tt w' /\
    trace w' = (trace w ++ evs)%list /\
    existsb writes_status_or_sends evs = false /\
    sessionStorage w' = sessionStorage w.
Proof.
  intros HX.
  assert (Hown : forall d v, exists v' evs,
    setConnectorAvailability_own ocpp js d X v = Normal tt v' /\
    trace v' = (trace v ++ evs)%list /\
    existsb writes_status_or_sends evs = false /\
    sessionStorage v' = sessionStorage v).
  { intros d v.
    destruct (setConnectorAvailability_own_spec ocpp js d X v)
      as (v' & evs & R & T & _ & _ & _ & _ & H). rewrite HX in H. destruct H as [E S].
    exists v', evs. repeat split; try assumption.
    rewrite existsb_writes_engine_events, E. reflexivity. }
  destruct (is_connector_zero js c) eqn:Hc.
  - rewrite setConnectorAvailability_zero by assumption. unfold bind.
    destruct (Hown c w) as (w1 & e1 & -> & T1 & Q1 & S1).
    destruct (Hown (Num (Int 1)) w1) as (w2 & e2 & -> & T2 & Q2 & S2).
    destruct (Hown (Num (Int 2)) w2) as (w3 & e3 & -> & T3 & Q3 & S3).
    exists w3, (e1 ++ e2 ++ e3)%list. repeat split.
    + rewrite T3, T2, T1, <- !app_assoc. reflexivity.
    + rewrite !existsb_app, Q1, Q2, Q3. reflexivity.
    + congruence.
  - rewrite setConnectorAvailability_nonzero by assumption. apply Hown.
Qed.

(** C2: for every connector, [setConnectorAvailability(c, Operative)] writes
    no connector status and hands nothing to the transport: the session
    store, and so [connectorStatus] of every connector, is unchanged. Both
    branches of the function test for Inoperative, so none runs. *)
Theorem operative_leaves_status_untouched ocpp js (c : value) (w : World) :
  AVAILABITY_OPERATIVE ocpp <> AVAILABITY_INOPERATIVE ocpp ->
  exists w' evs,
    setConnectorAvailability ocpp js c (Str (AVAILABITY_OPERATIVE ocpp)) w = Normal tt w' /\
    trace w' = (trace w ++ evs)%list /\
    existsb writes_status_or_sends evs = false /\
    sessionStorage w' = sessionStorage w /\
    forall d, result (connectorStatus ocpp d w') = result (connectorStatus ocpp d w).
Proof.
  intros Hne.
  destruct (setConnectorAvailability_not_inoperative ocpp js c
              (Str (AVAILABITY_OPERATIVE ocpp)) w) as (w' & evs & R & T & Q & S).
  { cbn. now apply String.eqb_neq. }
  exists w', evs. repeat split; try assumption.
  intros d. now rewrite !connectorStatus_reads, S.
Qed.

Lemma operative_leaves_status_untouched_witness :
  exists w' evs,
    setConnectorAvailability sample_constants sample_platform (Num (Int 1))
      (Str "Operative") fresh_world = Normal tt w' /\
    trace w' = (trace fresh_world ++ evs)%list /\
    existsb writes_status_or_sends evs = false /\
    sessionStorage w' = sessionStorage fresh_world /\
    forall d, result (connectorStatus sample_constants d w')
              = result (connectorStatus sample_constants d fresh_world).
Proof.
  apply (operative_leaves_status_untouched sample_constants sample_platform
           (Num (Int 1)) fresh_world).
  discriminate.
Defined.

Lemma availability_keys_differ ocpp (c d : Z) :
  c <> d ->
  KEY_CONN_AVAILABILITY ocpp +:+ ToString (Num (Int c))
  <> KEY_CONN_AVAILABILITY ocpp +:+ pretty d.
Proof. rewrite ToString_Int. apply connector_keys_differ. Qed.

(** C6: after [setConnectorAvailability(0, X)] the stored availabilities of
    connectors 1 and 2 are both X, for every availability X that is not the
    empty string (which [availability] reads back as the default). *)
Theorem availability_cascades_to_1_and_2 ocpp js (X : string) (w : World) :
  X <> "" ->
  exists w',
    setConnectorAvailability ocpp js (Num (Int 0)) (Str X) w = Normal tt w' /\
    result (availability ocpp (Num (Int 1)) w') = Some X /\
    result (availability ocpp (Num (Int 2)) w') = Some X.
Proof.
  intros HX. rewrite setConnectorAvailability_zero by reflexivity. unfold bind.
  destruct (setConnectorAvailability_own_spec ocpp js (Num (Int 0)) (Str X) w)
    as (w1 & e1 & -> & _ & _ & _ & L1 & _).
  destruct (setConnectorAvailability_own_spec ocpp js (Num (Int 1)) (Str X) w1)
    as (w2 & e2 & -> & _ & _ & _ & L2 & _).
  destruct (setConnectorAvailability_own_spec ocpp js (Num (Int 2)) (Str X) w2)
    as (w3 & e3 & -> & _ & _ & _ & L3 & _).
  exists w3. split; [reflexivity|].
  rewrite !availability_reads, L3, L2, ToString_Str.
  split.
  - rewrite lookup_insert_ne by (apply availability_keys_differ; lia).
    rewrite ToString_Int, lookup_insert_eq. now rewrite nonempty_default.
  - rewrite ToString_Int, lookup_insert_eq. now rewrite nonempty_default.
Qed.

Lemma availability_cascades_to_1_and_2_witness :
  exists w',
    setConnectorAvailability sample_constants sample_platform (Num (Int 0))
      (Str "Inoperative") fresh_world = Normal tt w' /\
    result (availability sample_constants (Num (Int 1)) w') = Some "Inoperative" /\
    result (availability sample_constants (Num (Int 2)) w') = Some "Inoperative".
Proof.
  apply (availability_cascades_to_1_and_2 sample_constants sample_platform
           "Inoperative" fresh_world).
  discriminate.
Defined.

Lemma wsSendData_events_logged ocpp ws now data :
  In (console_log ("[" +:+ now +:+ "] [ -> ] " +:+ data))
     (wsSendData_events ocpp ws now data) /\
  (ws <> None -> In (websocket_send data) (wsSendData_events ocpp ws now data)).
Proof.
  unfold wsSendData_events. split; [now left|].
  destruct ws; [intros _; right; now left|congruence].
Qed.

Lemma In_engine_events (e : event) (evs : list event) :
  In e (engine_events evs) -> In e evs.
Proof.
  induction evs as [|x evs IH]; [auto|]. cbn.
  destruct (is_observer_call x); cbn; intuition.
Qed.

(** C5: for every connector [c], after [setConnectorAvailability(c,
    Inoperative)] the stored status of [c] is Unavailable, and a
    StatusNotification CALL with connectorId [c], errorCode NoError and status
    Unavailable was handed to [wsSendData], which logs it and puts it on the
    socket when there is one. The status key of [c] must not be the key of
    the charge-point status, which [wsSendData] overwrites when there is no
    socket. *)
Theorem inoperative_sets_unavailable_and_notifies ocpp js (c : Z) (w : World) :
  KEY_CP_STATUS ocpp <> KEY_CONN_STATUS ocpp +:+ pretty c ->
  exists w' evs id stamp now,
    setConnectorAvailability ocpp js (Num (Int c))
      (Str (AVAILABITY_INOPERATIVE ocpp)) w = Normal tt w' /\
    result (connectorStatus ocpp (Num (Int c)) w') = Some (CONN_UNAVAILABLE ocpp) /\
    trace w' = (trace w ++ evs)%list /\
    let frame := StatusNotification_frame id (Num (Int c)) (CONN_UNAVAILABLE ocpp) stamp in
    In (sessionStorage_setItem (KEY_CONN_STATUS ocpp +:+ pretty c) (CONN_UNAVAILABLE ocpp)) evs /\
    In (console_log ("[" +:+ now +:+ "] [ -> ] " +:+ frame)) evs /\
    (_websocket (this w) <> None -> In (websocket_send frame) evs).
Proof.
  intros Hk.
  assert (HX : loose_eq_string js (Str (AVAILABITY_INOPERATIVE ocpp))
                 (AVAILABITY_INOPERATIVE ocpp) = true) by apply String.eqb_refl.
  assert (Hown : forall d v, exists v' evs,
    setConnectorAvailability_own ocpp js d (Str (AVAILABITY_INOPERATIVE ocpp)) v
      = Normal tt v' /\
    trace v' = (trace v ++ evs)%list /\ this v' = this v /\
    sessionStorage v' = notify_session ocpp d (CONN_UNAVAILABLE ocpp) v /\
    forall e, In e (notify_events ocpp js d (CONN_UNAVAILABLE ocpp) v) -> In e evs).
  { intros d v.
    destruct (setConnectorAvailability_own_spec ocpp js d
                (Str (AVAILABITY_INOPERATIVE ocpp)) v)
      as (v' & evs & R & T & _ & Hthis & _ & _ & H). rewrite HX in H. destruct H as [E S].
    exists v', evs. repeat split; try assumption.
    intros e He. apply In_engine_events. rewrite E. now right. }
  destruct (Hown (Num (Int c)) w) as (w1 & e1 & R1 & T1 & H1 & S1 & N1).
  pose (id := generateId_loop js (draws w) 36 "").
  pose (stamp := utc_iso js (ticks w)).
  pose (now := utc_iso js (S (ticks w))).
  assert (Hev : let frame := StatusNotification_frame id (Num (Int c))
                               (CONN_UNAVAILABLE ocpp) stamp in
    In (sessionStorage_setItem (KEY_CONN_STATUS ocpp +:+ pretty c) (CONN_UNAVAILABLE ocpp)) e1 /\
    In (console_log ("[" +:+ now +:+ "] [ -> ] " +:+ frame)) e1 /\
    (_websocket (this w) <> None -> In (websocket_send frame) e1)).
  { cbn zeta. unfold notify_events in N1. rewrite ToString_Int in N1.
    destruct (wsSendData_events_logged ocpp (_websocket (this w)) now
                (StatusNotification_frame id (Num (Int c)) (CONN_UNAVAILABLE ocpp) stamp))
      as [Hlog Hsend].
    split; [apply N1; now left|].
    split; [apply N1; right; right; exact Hlog|].
    intros Hws. apply N1. right; right. now apply Hsend. }
  destruct (Z.eqb_spec c 0) as [Hc|Hc].
  - subst c. rewrite setConnectorAvailability_zero by reflexivity. unfold bind.
    rewrite R1.
    destruct (Hown (Num (Int 1)) w1) as (w2 & e2 & -> & T2 & H2 & S2 & _).
    destruct (Hown (Num (Int 2)) w2) as (w3 & e3 & -> & T3 & H3 & S3 & _).
    exists w3, (e1 ++ e2 ++ e3)%list, id, stamp, now.
    split; [reflexivity|]. split.
    { rewrite connectorStatus_reads, ToString_Int, S3.
      rewrite notify_session_other by (lia || assumption).
      rewrite S2, notify_session_other by (lia || assumption).
      rewrite S1, notify_session_self by assumption. reflexivity. }
    split; [rewrite T3, T2, T1, <- !app_assoc; reflexivity|].
    cbn zeta in *. destruct Hev as (A & B & C).
    repeat split; [| |intros Hws; specialize (C Hws)]; apply in_or_app; now left.
  - rewrite setConnectorAvailability_nonzero
      by (cbn; now apply Z.eqb_neq).
    exists w1, e1, id, stamp, now. split; [assumption|]. split.
    { rewrite connectorStatus_reads, ToString_Int, S1.
      rewrite notify_session_self by assumption. reflexivity. }
    split; [assumption|exact Hev].
Qed.

Lemma inoperative_sets_unavailable_and_notifies_witness :
  exists w' evs id stamp now,
    setConnectorAvailability sample_constants sample_platform (Num (Int 0))
      (Str "Inoperative") fresh_world = Normal tt w' /\
    result (connectorStatus sample_constants (Num (Int 0)) w') = Some "Unavailable" /\
    trace w' = (trace fresh_world ++ evs)%list /\
    let frame := StatusNotification_frame id (Num (Int 0)) "Unavailable" stamp in
    In (sessionStorage_setItem ("conn_status" +:+ pretty 0) "Unavailable") evs /\
    In (console_log ("[" +:+ now +:+ "] [ -> ] " +:+ frame)) evs /\
    (_websocket (this fresh_world) <> None -> In (websocket_send frame) evs).
Proof.
  apply (inoperative_sets_unavailable_and_notifies sample_constants sample_platform
           0 fresh_world).
  discriminate.
Defined.

(** ** [handleCallResult] *)

Lemma getLastAction_returns (w : World) (la : string) :
  result (getLastAction w) = Some la -> getLastAction w = Normal la w.
Proof. unfold getLastAction, getSessionKey, gets. cbn. now intros [= <-]. Qed.

Lemma status_reads ocpp w :
  result (status ocpp w) =
  Some (match sessionStorage w !! KEY_CP_STATUS ocpp with
        | Some v => v
        | None => ""
        end).
Proof.
  unfold status, getSessionKey, gets. cbn.
  destruct (sessionStorage w !! _); [now rewrite empty_default|reflexivity].
Qed.

(** C3, as the code has it: while the pending action is StartTransaction, a
    result whose [transactionId] is truthy has it stored (as a string) under
    TransactionId and moves the status to InTransaction; a result whose
    [transactionId] is absent or falsy (0, the empty string, null, false)
    leaves the whole state as it was. *)
Theorem StartTransaction_result_records_truthy_id ocpp js (payload tid : value) (w : World) :
  result (getLastAction w) = Some (START_TRANSACTION ocpp) ->
  START_TRANSACTION ocpp <> BOOT_NOTIFICATION ocpp ->
  START_TRANSACTION ocpp <> AUTHORIZE ocpp ->
  KEY_CP_STATUS ocpp <> "TransactionId" ->
  get_prop payload "transactionId" = Some tid ->
  if truthy tid
  then exists w',
         handleCallResult ocpp js payload w = Normal tt w' /\
         sessionStorage w' !! "TransactionId" = Some (ToString tid) /\
         result (status ocpp w') = Some (CP_INTRANSACTION ocpp)
  else handleCallResult ocpp js payload w = Normal tt w.
Proof.
  intros Hla Hboot Hauth Hkey Hprop.
  apply String.eqb_neq in Hboot, Hauth.
  assert (Hrun : handleCallResult ocpp js payload w =
    (if negb (truthy tid) then ret tt
     else setSessionKey "TransactionId" tid >>
          setStatus ocpp (CP_INTRANSACTION ocpp) ("TransactionId: " +:+ ToString tid) >>
          logMsg ("Transaction id is " +:+ ToString tid)) w).
  { unfold handleCallResult. unfold bind at 1.
    rewrite (getLastAction_returns _ _ Hla), Hboot, Hauth, String.eqb_refl.
    unfold bind at 1, prop. now rewrite Hprop. }
  rewrite Hrun. clear Hrun.
  destruct (truthy tid); cbn [negb]; [|reflexivity].
  unfold_engine. open_world w. destruct scb, lcb; cbn.
  all: eexists; split; [reflexivity|]; cbn.
  all: rewrite ?ToString_Str, lookup_insert_eq, empty_default.
  all: rewrite lookup_insert_ne by assumption.
  all: rewrite lookup_insert_eq; split; reflexivity.
Qed.

Lemma StartTransaction_result_records_truthy_id_witness :
  let w := final (setLastAction "StartTransaction" fresh_world) in
  exists w',
    handleCallResult sample_constants sample_platform
      (Obj [("transactionId", Num (Int 42))]) w = Normal tt w' /\
    sessionStorage w' !! "TransactionId" = Some (ToString (Num (Int 42))) /\
    result (status sample_constants w') = Some "InTransaction".
Proof.
  exact (StartTransaction_result_records_truthy_id sample_constants sample_platform
           (Obj [("transactionId", Num (Int 42))]) (Num (Int 42))
           (final (setLastAction "StartTransaction" fresh_world))
           eq_refl ltac:(discriminate) ltac:(discriminate) ltac:(discriminate) eq_refl).
Defined.

(** C3 as stated fails: a result that carries the transaction id 0 is
    dropped, nothing is stored and the status does not become
    InTransaction. *)
Lemma StartTransaction_result_zero_id_dropped :
  let w := final (setLastAction "StartTransaction" fresh_world) in
  let payload := Obj [("transactionId", Num (Int 0))] in
  let w' := final (handleCallResult sample_constants sample_platform payload w) in
  get_prop payload "transactionId" = Some (Num (Int 0)) /\
  result (getLastAction w) = Some "StartTransaction" /\
  sessionStorage w' !! "TransactionId" = None /\
  result (status sample_constants w') <> Some "InTransaction".
Proof. vm_compute. repeat split; discriminate. Qed.

(** C4, as the code has it: while the pending action is Authorize, the status
    becomes Authorized unless [idTagInfo.status == 'Invalid']; for an Invalid
    result the stored state is left as it was. *)
Theorem Authorize_result_authorizes_unless_Invalid ocpp js (payload info st : value)
    (w : World) :
  result (getLastAction w) = Some (AUTHORIZE ocpp) ->
  AUTHORIZE ocpp <> BOOT_NOTIFICATION ocpp ->
  get_prop payload "idTagInfo" = Some info ->
  get_prop info "status" = Some st ->
  exists w',
    handleCallResult ocpp js payload w = Normal tt w' /\
    if loose_eq_string js st "Invalid"
    then sessionStorage w' = sessionStorage w
    else result (status ocpp w') = Some (CP_AUTHORIZED ocpp).
Proof.
  intros Hla Hboot Hinfo Hst.
  apply String.eqb_neq in Hboot.
  assert (Hrun : handleCallResult ocpp js payload w =
    (if loose_eq_string js st "Invalid" then logMsg "Authorization failed"
     else logMsg "Authorization OK" >> setStatus ocpp (CP_AUTHORIZED ocpp) "") w).
  { unfold handleCallResult. unfold bind at 1.
    rewrite (getLastAction_returns _ _ Hla), Hboot, String.eqb_refl.
    unfold bind at 1, prop. rewrite Hinfo. unfold ret at 1.
    unfold bind at 1. now rewrite Hst. }
  rewrite Hrun. clear Hrun.
  destruct (loose_eq_string js st "Invalid").
  all: unfold_engine; open_world w; destruct scb, lcb; cbn.
  all: eexists; split; [reflexivity|]; cbn.
  all: rewrite ?ToString_Str, ?lookup_insert_eq, ?empty_default; reflexivity.
Qed.

Lemma Authorize_result_authorizes_unless_Invalid_witness :
  let w := final (setLastAction "Authorize" fresh_world) in
  let payload := Obj [("idTagInfo", Obj [("status", Str "Accepted")])] in
  exists w',
    handleCallResult sample_constants sample_platform payload w = Normal tt w' /\
    result (status sample_constants w') = Some "Authorized".
Proof.
  exact (Authorize_result_authorizes_unless_Invalid sample_constants sample_platform
           (Obj [("idTagInfo", Obj [("status", Str "Accepted")])])
           (Obj [("status", Str "Accepted")]) (Str "Accepted")
           (final (setLastAction "Authorize" fresh_world))
           eq_refl ltac:(discriminate) eq_refl eq_refl).
Defined.

(** C4 as stated fails: a Blocked tag is not accepted, and the status still
    becomes Authorized. *)
Lemma Authorize_result_Blocked_authorizes :
  let w := final (setLastAction "Authorize" fresh_world) in
  let payload := Obj [("idTagInfo", Obj [("status", Str "Blocked")])] in
  let w' := final (handleCallResult sample_constants sample_platform payload w) in
  result (getLastAction w) = Some "Authorize" /\
  result (status sample_constants w) = Some "" /\
  result (status sample_constants w') = Some "Authorized".
Proof. vm_compute. repeat split. Qed.

(** ** The frame decoder *)

(** C1, as the code has it: for a CALL frame with no fourth element (an
    array of at most three elements whose first is 2) the decoder passes
    [null] to the request handler, with the id and the action of the frame
    ([undefined] where the frame has none). *)
Theorem call_without_payload_passes_null js (elems : list value) (w : World) :
  nth 0 elems Undefined = Num (Int 2) ->
  (List.length elems <= 3)%nat ->
  decode js (Arr elems) w
  = Normal (to_handleCallRequest (nth 1 elems Undefined) (nth 2 elems Undefined) Null) w.
Proof.
  intros Hfirst Hlen.
  destruct elems as [|msgType [|id [|request [|payload rest]]]];
    cbn in Hfirst, Hlen; try lia; try discriminate Hfirst; subst; reflexivity.
Qed.

Lemma call_without_payload_passes_null_witness :
  decode sample_platform (Arr [Num (Int 2); Str "id1"; Str "UnlockConnector"]) fresh_world
  = Normal (to_handleCallRequest (Str "id1") (Str "UnlockConnector") Null) fresh_world.
Proof.
  apply (call_without_payload_passes_null sample_platform
           [Num (Int 2); Str "id1"; Str "UnlockConnector"] fresh_world).
  - reflexivity.
  - cbn. lia.
Defined.

(** C1 as stated fails: the payload the handler receives for
    [[2,"id1","Reset"]] is [null], not the empty object, and the difference
    shows: with [null] the Reset handler throws before it acknowledges, with
    the empty object it returns. *)
Lemma call_without_payload_is_not_empty_object :
  let frame := Arr [Num (Int 2); Str "id1"; Str "Reset"] in
  JSON_parse (stringify frame) = Some frame /\
  decode sample_platform frame fresh_world
  = Normal (to_handleCallRequest (Str "id1") (Str "Reset") Null) fresh_world /\
  Null <> Obj [] /\
  result (handleCallRequest sample_constants sample_platform
            (Str "id1") (Str "Reset") Null fresh_world) = None /\
  result (handleCallRequest sample_constants sample_platform
            (Str "id1") (Str "Reset") (Obj []) fresh_world) = Some [].
Proof. vm_compute. repeat split; discriminate. Qed.

(** ** [stopTransactionWithId] *)

(** C7: [stopTransactionWithId] first stores the last action, sets the status
    to Authorized and hands the StopTransaction CALL (carrying the
    transaction id) to [wsSendData], then waits; when the first timer fires,
    in whatever state the world then is, it sets connector 1 to Finishing and
    notifies, then waits again; when the second timer fires it sets connector
    1 to Available and notifies, and is done. The engine events of each part
    are exactly these, so connector 1 is not set to Available before
    Finishing. *)
Theorem stopTransactionWithId_order ocpp js (transactionId tagId : value) (w : World) :
  exists w1 evs1 resume1 id now params,
    stopTransactionWithId ocpp js transactionId tagId w
    = Normal (Sleep (Int 1000) resume1) w1 /\
    trace w1 = (trace w ++ evs1)%list /\
    engine_events evs1 =
      sessionStorage_setItem "LastAction" (STOP_TRANSACTION ocpp) ::
      sessionStorage_setItem (KEY_CP_STATUS ocpp) (CP_AUTHORIZED ocpp) ::
      wsSendData_events ocpp (_websocket (this w)) now
        (stringify (Arr [Num (Int 2); Str id; Str "StopTransaction"; Obj params])) /\
    lookup_prop "transactionId" params = Some transactionId /\
    forall v, exists v1 evs2 resume2,
      resume1 v = Normal (Sleep (Int 1000) resume2) v1 /\
      trace v1 = (trace v ++ evs2)%list /\
      engine_events evs2 = notify_events ocpp js (Num (Int 1)) (CONN_FINISHING ocpp) v /\
      forall u, exists u1 evs3,
        resume2 u = Normal Done u1 /\
        trace u1 = (trace u ++ evs3)%list /\
        engine_events evs3 = notify_events ocpp js (Num (Int 1)) (CONN_AVAILABLE ocpp) u.
Proof.
  unfold stopTransactionWithId.
  set (resume2 := setConnectorStatus ocpp js (Num (Int 1)) (CONN_AVAILABLE ocpp) true >> ret Done).
  set (resume1 := setConnectorStatus ocpp js (Num (Int 1)) (CONN_FINISHING ocpp) true >>
                  ret (Sleep (Int 1000) resume2)).
  assert (Hresume : forall v, exists v1 evs2 k2,
    resume1 v = Normal (Sleep (Int 1000) k2) v1 /\
    trace v1 = (trace v ++ evs2)%list /\
    engine_events evs2 = notify_events ocpp js (Num (Int 1)) (CONN_FINISHING ocpp) v /\
    forall u, exists u1 evs3,
      k2 u = Normal Done u1 /\
      trace u1 = (trace u ++ evs3)%list /\
      engine_events evs3 = notify_events ocpp js (Num (Int 1)) (CONN_AVAILABLE ocpp) u).
  { intros v. subst resume1. unfold bind at 1.
    destruct (setConnectorStatus_notifies ocpp js (Num (Int 1)) (CONN_FINISHING ocpp) v)
      as (v1 & evs2 & -> & T & E & _).
    exists v1, evs2, resume2. repeat split; try assumption.
    intros u. subst resume2. unfold bind at 1.
    destruct (setConnectorStatus_notifies ocpp js (Num (Int 1)) (CONN_AVAILABLE ocpp) u)
      as (u1 & evs3 & -> & T' & E' & _).
    exists u1, evs3. repeat split; assumption. }
  clearbody resume1. clear resume2.
  unfold_engine. unfold wsSendData_events. open_world w.
  destruct (isEmpty match tagId with Undefined => Str "DEADBEEF" | _ => tagId end);
    destruct ws, scb, lcb; cbn [negb]; cbn.
  all: eexists; eexists; exists resume1; eexists; eexists; eexists.
  all: split; [reflexivity|].
  all: split; [cbn; norm_trace; reflexivity|].
  all: split; [reflexivity|].
  all: split; [reflexivity|exact Hresume].
Qed.

(** ** The heartbeat timer *)

Lemma heartbeat_owns_timers_fresh : heartbeat_owns_timers fresh_world.
Proof. reflexivity. Qed.

(** One call of [setHeartbeat]: the timer held before is cleared, a new one is
    started with the period in milliseconds and kept in [_heartbeat]. *)
Lemma setHeartbeat_spec js (n : Z) (w : World) :
  exists w' evs,
    setHeartbeat js (Num (Int n)) w = Normal tt w' /\
    trace w' = (trace w ++ evs)%list /\
    engine_events evs =
      (match _heartbeat (this w) with
       | Some old => [call_clearInterval old]
       | None => []
       end ++ [call_setInterval (next_timer w) (Int (n * 1000))])%list /\
    _heartbeat (this w') = Some (next_timer w) /\
    next_timer w' = Pos.succ (next_timer w) /\
    intervals w' =
      <[next_timer w := Int (n * 1000)]>
        (match _heartbeat (this w) with
         | Some old => delete old (intervals w)
         | None => intervals w
         end).
Proof.
  unfold setHeartbeat, setInterval, clearInterval, set_heartbeat. unfold_engine.
  open_world w. destruct hb, lcb; cbn.
  all: eexists; eexists; split; [reflexivity|].
  all: split; [cbn; norm_trace; reflexivity|].
  all: repeat split.
Qed.

Lemma sole_timer_deleted (m : gmap positive number) (id : positive) :
  (forall j, j <> id -> m !! j = None) -> delete id m = ∅.
Proof.
  intros H. apply map_eq. intros j. rewrite lookup_empty.
  destruct (decide (j = id)) as [->|Hj].
  - apply lookup_delete_eq.
  - rewrite lookup_delete_ne by congruence. now apply H.
Qed.

(** C9: calling [setHeartbeat(n)] twice in a row, in a world where the only
    repeating timer is the one the engine holds, leaves exactly one running
    timer, of period [n] seconds: each call leaves a single timer, and the
    second call clears the timer of the first before it starts its own. *)
Theorem setHeartbeat_twice_one_timer js (n : Z) (w : World) :
  heartbeat_owns_timers w ->
  exists w1 w2 id1 id2 evs,
    setHeartbeat js (Num (Int n)) w = Normal tt w1 /\
    setHeartbeat js (Num (Int n)) w1 = Normal tt w2 /\
    intervals w1 = {[ id1 := Int (n * 1000) ]} /\
    _heartbeat (this w1) = Some id1 /\
    intervals w2 = {[ id2 := Int (n * 1000) ]} /\
    _heartbeat (this w2) = Some id2 /\
    size (intervals w2) = 1%nat /\
    id2 <> id1 /\
    trace w2 = (trace w1 ++ evs)%list /\
    engine_events evs =
      [call_clearInterval id1; call_setInterval id2 (Int (n * 1000))].
Proof.
  intros Hinv.
  destruct (setHeartbeat_spec js n w) as (w1 & e1 & R1 & _ & _ & H1 & N1 & I1).
  destruct (setHeartbeat_spec js n w1) as (w2 & e2 & R2 & T2 & E2 & H2 & N2 & I2).
  assert (I1' : intervals w1 = {[ next_timer w := Int (n * 1000) ]}).
  { rewrite I1. unfold heartbeat_owns_timers in Hinv.
    destruct (_heartbeat (this w)).
    - now rewrite (sole_timer_deleted _ _ Hinv), insert_empty.
    - now rewrite Hinv, insert_empty. }
  assert (I2' : intervals w2 = {[ next_timer w1 := Int (n * 1000) ]}).
  { rewrite I2, H1, I1', delete_singleton_eq. now rewrite insert_empty. }
  exists w1, w2, (next_timer w), (next_timer w1), e2.
  repeat split; try assumption.
  - rewrite I2'. apply map_size_singleton.
  - rewrite N1. lia.
  - rewrite E2, H1. reflexivity.
Qed.

Lemma setHeartbeat_twice_one_timer_witness :
  exists w1 w2 id1 id2 evs,
    setHeartbeat sample_platform (Num (Int 30)) fresh_world = Normal tt w1 /\
    setHeartbeat sample_platform (Num (Int 30)) w1 = Normal tt w2 /\
    intervals w1 = {[ id1 := Int (30 * 1000) ]} /\
    _heartbeat (this w1) = Some id1 /\
    intervals w2 = {[ id2 := Int (30 * 1000) ]} /\
    _heartbeat (this w2) = Some id2 /\
    size (intervals w2) = 1%nat /\
    id2 <> id1 /\
    trace w2 = (trace w1 ++ evs)%list /\
    engine_events evs =
      [call_clearInterval id1; call_setInterval id2 (Int (30 * 1000))].
Proof.
  apply (setHeartbeat_twice_one_timer sample_platform 30 fresh_world).
  reflexivity.
Defined.

(** The invariant is kept by [setHeartbeat] and by the close of the socket. *)
Lemma setHeartbeat_keeps_timers_owned js (n : Z) (w : World) :
  heartbeat_owns_timers w ->
  heartbeat_owns_timers (final (setHeartbeat js (Num (Int n)) w)).
Proof.
  intros Hinv.
  destruct (setHeartbeat_spec js n w) as (w1 & e1 & R1 & _ & _ & H1 & N1 & I1).
  rewrite R1. cbn. unfold heartbeat_owns_timers in *. rewrite H1, I1.
  intros j Hj. rewrite lookup_insert_ne by congruence.
  destruct (_heartbeat (this w)).
  - destruct (decide (j = p)) as [->|Hjp]; [apply lookup_delete_eq|].
    rewrite lookup_delete_ne by congruence. now apply Hinv.
  - now rewrite Hinv.
Qed.

Lemma onclose_keeps_timers_owned ocpp (code : Z) (w : World) :
  heartbeat_owns_timers w ->
  heartbeat_owns_timers (final (onclose ocpp code w)) /\
  intervals (final (onclose ocpp code w)) = ∅.
Proof.
  unfold heartbeat_owns_timers, onclose, clearInterval, set_heartbeat, set_websocket.
  unfold_engine. open_world w. intros Hinv.
  destruct hb, scb, lcb, (Z.eqb code 3001); cbn in *.
  all: try (split; assumption).
  all: rewrite (sole_timer_deleted _ _ Hinv); split; reflexivity.
Qed.

Lemma observer_called_for_0_1_2_witness :
  let w := final (setAvailabilityChangeCallback (Some "page") fresh_world) in
  exists w' evs,
    setConnectorAvailability sample_constants sample_platform (Num (Int 0))
      (Str "Inoperative") w = Normal tt w' /\
    trace w' = (trace w ++ evs)%list /\
    availability_calls evs =
      [("page", Num (Int 0), Str "Inoperative");
       ("page", Num (Int 1), Str "Inoperative");
       ("page", Num (Int 2), Str "Inoperative")].
Proof.
  apply (observer_called_for_0_1_2 sample_constants sample_platform
           (Str "Inoperative") "page"
           (final (setAvailabilityChangeCallback (Some "page") fresh_world))).
  reflexivity.
Defined.

(** ** The scenarios of the specification, run on the sample platform *)

(** Scenario 2: [startTransaction("TAG1")] followed by the result
    [{transactionId: 42}] leaves the status InTransaction, the stored
    transaction id 42 and connector 1 Charging. *)
Example scenario_start_transaction :
  let w0 := final (wsConnect sample_constants "ws://server/" "CP1" fresh_world) in
  let w1 := final (startTransaction sample_constants sample_platform
                     (Str "TAG1") Undefined Undefined w0) in
  let w2 := final (handleCallResult sample_constants sample_platform
                     (Obj [("transactionId", Num (Int 42))]) w1) in
  result (status sample_constants w2) = Some "InTransaction" /\
  sessionStorage w2 !! "TransactionId" = Some "42" /\
  result (connectorStatus sample_constants (Num (Int 1)) w2) = Some "Charging".
Proof. vm_compute. repeat split. Qed.

(** Scenario 4: an incoming CALL for an unknown action is answered by a
    CALLERROR NotImplemented with the id of the call. *)
Example scenario_unknown_action :
  let w0 := final (wsConnect sample_constants "ws://server/" "CP1" fresh_world) in
  let incoming := stringify (Arr [Num (Int 2); Str "id1"; Str "UnknownAction"; Obj []]) in
  let w1 := final (onmessage sample_constants sample_platform incoming w0) in
  last (trace w1)
  = Some (websocket_send (stringify (Arr [Num (Int 4); Str "id1"; Str "NotImplemented"]))).
Proof. vm_compute. reflexivity. Qed.

(** Scenario 5: with the policy Rejected, a RemoteStartTransaction is
    answered Rejected and leaves nothing pending, so no StartTransaction
    follows. *)
Example scenario_remote_start_rejected :
  let w0 := final (wsConnect sample_constants "ws://server/" "CP1" fresh_world) in
  let w0' := with_this (fun t =>
               Build_ChargePoint (_websocket t) (_heartbeat t) (_statusChangeCb t)
                 (_availabilityChangeCb t) (_loggingCb t) "Rejected"
                 (_remoteStartDelaySeconds t)) w0 in
  let run := handleCallRequest sample_constants sample_platform (Str "id2")
               (Str "RemoteStartTransaction") (Obj [("idTag", Str "T2")]) w0' in
  result run = Some [] /\
  last (trace (final run))
  = Some (websocket_send (stringify (Arr [Num (Int 3); Str "id2";
                                          Obj [("status", Str "Rejected")]]))).
Proof. vm_compute. split; reflexivity. Qed.

(** Scenario 3, the states: [stopTransactionWithId(42)] leaves the status
    Authorized at once, connector 1 Finishing after the first timer and
    Available after the second. *)
Example scenario_stop_transaction :
  let w0 := final (wsConnect sample_constants "ws://server/" "CP1" fresh_world) in
  match stopTransactionWithId sample_constants sample_platform (Num (Int 42)) Undefined w0 with
  | Normal (Sleep (Int 1000) resume1) w1 =>
      result (status sample_constants w1) = Some "Authorized" /\
      match resume1 w1 with
      | Normal (Sleep (Int 1000) resume2) w2 =>
          result (connectorStatus sample_constants (Num (Int 1)) w2) = Some "Finishing" /\
          match resume2 w2 with
          | Normal Done w3 =>
              result (connectorStatus sample_constants (Num (Int 1)) w3) = Some "Available"
          | _ => False
          end
      | _ => False
      end
  | _ => False
  end.
Proof. vm_compute. repeat split. Qed.

(** * Further properties of the engine *)

(** ** [wsSendData] *)


(** ** The request router *)

Ltac finish_run :=
  split; [reflexivity|]; split; [cbn; norm_trace; reflexivity|].

(** X2: a CALL whose action is none of the seven the router knows (or is not
    a string at all) is answered by the CALLERROR [[4, id, "NotImplemented"]],
    whatever its payload, [null] included; nothing else is written and
    nothing is left pending. *)
Theorem unknown_request_NotImplemented ocpp js (id request payload : value) (w : World) :
  known_request request = false ->
  exists w' evs,
    handleCallRequest ocpp js id request payload w = Normal [] w' /\
    trace w' = (trace w ++ evs)%list /\
    engine_events evs =
      wsSendData_events ocpp (_websocket (this w)) (utc_iso js (ticks w))
        (stringify (Arr [Num (Int 4); id; Str "NotImplemented"])).
Proof.
  intros H. unfold known_request in H.
  repeat (apply orb_false_iff in H as [H ?]).
  unfold handleCallRequest.
  repeat match goal with E : strict_eq_string request _ = false |- _ =>
    rewrite E; clear E end.
  unfold_engine. unfold wsSendData_events. open_world w. destruct ws, scb; cbn.
  all: eexists; eexists; finish_run; reflexivity.
Qed.

Lemma unknown_request_NotImplemented_witness :
  exists w' evs,
    handleCallRequest sample_constants sample_platform (Str "id1")
      (Str "DataTransfer") Null fresh_world = Normal [] w' /\
    trace w' = (trace fresh_world ++ evs)%list /\
    engine_events evs =
      wsSendData_events sample_constants (_websocket (this fresh_world))
        (utc_iso sample_platform (ticks fresh_world))
        (stringify (Arr [Num (Int 4); Str "id1"; Str "NotImplemented"])).
Proof.
  apply (unknown_request_NotImplemented sample_constants sample_platform
           (Str "id1") (Str "DataTransfer") Null fresh_world).
  reflexivity.
Defined.

(** X3: a RemoteStartTransaction is answered with the configured policy
    string and nothing else happens before the plug-in delay: with the policy
    Rejected nothing is left pending, so no transaction is ever started; with
    any other policy exactly one continuation is pending, which after
    [1000 * delay] milliseconds runs [startTransaction] with the tag of the
    request. *)
Theorem RemoteStartTransaction_policy ocpp js (id payload tagId : value) (w : World) :
  get_prop payload "idTag" = Some tagId ->
  exists w' evs pending,
    handleCallRequest ocpp js id (Str "RemoteStartTransaction") payload w
    = Normal pending w' /\
    trace w' = (trace w ++ evs)%list /\
    engine_events evs =
      wsSendData_events ocpp (_websocket (this w)) (utc_iso js (ticks w))
        (status_reply id (_remoteStartStopResponse (this w))) /\
    pending =
      if String.eqb (_remoteStartStopResponse (this w)) "Rejected" then []
      else [Sleep (number_mul (Int 1000) (_remoteStartDelaySeconds (this w)))
              (startTransaction ocpp js tagId Undefined Undefined >> ret Done)].
Proof.
  intros Hp. unfold handleCallRequest. cbn [strict_eq_string String.eqb Ascii.eqb Bool.eqb].
  cbn match. unfold prop. unfold bind at 1. rewrite Hp. unfold ret at 1.
  set (k := startTransaction ocpp js tagId Undefined Undefined >> ret Done).
  unfold_engine. unfold wsSendData_events, status_reply. open_world w.
  destruct (String.eqb rr "Rejected") eqn:E; destruct ws, scb, lcb; cbn; rewrite ?E; cbn.
  all: eexists; eexists; eexists; finish_run.
  all: split; reflexivity.
Qed.

Lemma RemoteStartTransaction_policy_witness :
  exists w' evs pending,
    handleCallRequest sample_constants sample_platform (Str "id2")
      (Str "RemoteStartTransaction") (Obj [("idTag", Str "T2")]) fresh_world
    = Normal pending w' /\
    trace w' = (trace fresh_world ++ evs)%list /\
    engine_events evs =
      wsSendData_events sample_constants (_websocket (this fresh_world))
        (utc_iso sample_platform (ticks fresh_world))
        (status_reply (Str "id2") (_remoteStartStopResponse (this fresh_world))) /\
    pending =
      if String.eqb (_remoteStartStopResponse (this fresh_world)) "Rejected" then []
      else [Sleep (number_mul (Int 1000) (_remoteStartDelaySeconds (this fresh_world)))
              (startTransaction sample_constants sample_platform (Str "T2")
                 Undefined Undefined >> ret Done)].
Proof.
  apply (RemoteStartTransaction_policy sample_constants sample_platform
           (Str "id2") (Obj [("idTag", Str "T2")]) (Str "T2") fresh_world).
  reflexivity.
Defined.

(** ** [stopTransactionWithId] and the requests that reach it *)

Lemma idTag_property_spec (tagId : value) :
  (let tagId' := match tagId with Undefined => Str "DEADBEEF" | _ => tagId end in
   if negb (isEmpty tagId') then [("idTag", tagId')] else [])
  = idTag_property tagId.
Proof.
  unfold idTag_property. destruct tagId; try reflexivity; cbn zeta;
    destruct (isEmpty _); reflexivity.
Qed.

(** The synchronous part of [stopTransactionWithId]. *)
Lemma stopTransactionWithId_runs ocpp js (transactionId tagId : value) (w : World) :
  exists w1 evs id stamp mv,
    stopTransactionWithId ocpp js transactionId tagId w
    = Normal (Sleep (Int 1000)
                (setConnectorStatus ocpp js (Num (Int 1)) (CONN_FINISHING ocpp) true >>
                 ret (Sleep (Int 1000)
                        (setConnectorStatus ocpp js (Num (Int 1)) (CONN_AVAILABLE ocpp) true >>
                         ret Done)))) w1 /\
    trace w1 = (trace w ++ evs)%list /\
    this w1 = this w /\
    engine_events evs =
      sessionStorage_setItem "LastAction" (STOP_TRANSACTION ocpp) ::
      sessionStorage_setItem (KEY_CP_STATUS ocpp) (CP_AUTHORIZED ocpp) ::
      wsSendData_events ocpp (_websocket (this w)) (utc_iso js (S (ticks w)))
        (StopTransaction_frame id transactionId stamp mv tagId) /\
    sessionStorage w1 =
      (match _websocket (this w) with
       | Some _ => fun m => m
       | None => <[KEY_CP_STATUS ocpp := CP_ERROR ocpp]>
       end)
        (<[KEY_CP_STATUS ocpp := CP_AUTHORIZED ocpp]>
           (<["LastAction" := STOP_TRANSACTION ocpp]> (sessionStorage w))).
Proof.
  unfold stopTransactionWithId, StopTransaction_frame.
  rewrite <- (idTag_property_spec tagId). cbn zeta.
  set (resume := setConnectorStatus ocpp js (Num (Int 1)) (CONN_FINISHING ocpp) true >> _).
  unfold_engine. unfold wsSendData_events. open_world w.
  destruct (isEmpty match tagId with Undefined => Str "DEADBEEF" | _ => tagId end);
    destruct ws, scb, lcb; cbn [negb]; cbn.
  all: eexists; eexists; eexists; eexists; eexists; finish_run.
  all: split; [reflexivity|]; split; [|reflexivity].
  all: rewrite ?app_nil_r; reflexivity.
Qed.


(** X4: the StopTransaction CALL of [stopTransactionWithId] carries the
    transaction id it was given, a timestamp and the meter reading, and an
    [idTag] only when the tag is not empty: "DEADBEEF" when the tag argument
    is omitted, the tag itself when it is a non-empty value, and no [idTag]
    at all for the empty string, [null], 0, [false] or an empty array. *)
Theorem stopTransactionWithId_frame ocpp js (transactionId tagId : value) (w : World) :
  exists w1 evs resume id stamp mv now,
    stopTransactionWithId ocpp js transactionId tagId w
    = Normal (Sleep (Int 1000) resume) w1 /\
    trace w1 = (trace w ++ evs)%list /\
    let frame := StopTransaction_frame id transactionId stamp mv tagId in
    In (console_log ("[" +:+ now +:+ "] [ -> ] " +:+ frame)) evs /\
    (_websocket (this w) <> None -> In (websocket_send frame) evs) /\
    (tagId = Undefined -> idTag_property tagId = [("idTag", Str "DEADBEEF")]) /\
    (tagId <> Undefined -> isEmpty tagId = true -> idTag_property tagId = []) /\
    (tagId <> Undefined -> isEmpty tagId = false ->
     idTag_property tagId = [("idTag", tagId)]).
Proof.
  destruct (stopTransactionWithId_runs ocpp js transactionId tagId w)
    as (w1 & evs & id & stamp & mv & R & T & _ & E & _).
  exists w1, evs. eexists. exists id, stamp, mv, (utc_iso js (S (ticks w))).
  split; [exact R|]. split; [exact T|]. cbn zeta.
  destruct (wsSendData_events_logged ocpp (_websocket (this w)) (utc_iso js (S (ticks w)))
              (StopTransaction_frame id transactionId stamp mv tagId)) as [Hlog Hsend].
  split; [apply In_engine_events; rewrite E; right; right; exact Hlog|].
  split; [intros Hws; apply In_engine_events; rewrite E; right; right; now apply Hsend|].
  unfold idTag_property.
  split; [now intros ->|].
  split; intros Hne He; destruct tagId; try contradiction; now rewrite He.
Qed.

(** X5: a RemoteStopTransaction is answered with the configured policy
    string; with the policy Rejected nothing else happens, with any other
    policy [stopTransactionWithId] runs at once, after the reply, for the
    transaction id of the request and with the default tag "DEADBEEF", and
    its two timers are left pending. *)
Theorem RemoteStopTransaction_policy ocpp js (id payload stop_id : value) (w : World) :
  get_prop payload "transactionId" = Some stop_id ->
  exists w' evs pending,
    handleCallRequest ocpp js id (Str "RemoteStopTransaction") payload w
    = Normal pending w' /\
    trace w' = (trace w ++ evs)%list /\
    let reply := wsSendData_events ocpp (_websocket (this w)) (utc_iso js (ticks w))
                   (status_reply id (_remoteStartStopResponse (this w))) in
    if String.eqb (_remoteStartStopResponse (this w)) "Rejected"
    then pending = [] /\ engine_events evs = reply
    else exists resume frame_id stamp mv now,
           pending = [Sleep (Int 1000) resume] /\
           engine_events evs =
             (reply ++
              sessionStorage_setItem "LastAction" (STOP_TRANSACTION ocpp) ::
              sessionStorage_setItem (KEY_CP_STATUS ocpp) (CP_AUTHORIZED ocpp) ::
              wsSendData_events ocpp (_websocket (this w)) now
                (StopTransaction_frame frame_id stop_id stamp mv Undefined))%list.
Proof.
  intros Hp. unfold handleCallRequest. cbn [strict_eq_string String.eqb Ascii.eqb Bool.eqb].
  cbn match. unfold prop. unfold bind at 1. rewrite Hp. unfold ret at 1.
  unfold stopTransactionWithId, StopTransaction_frame, idTag_property.
  set (resume := setConnectorStatus ocpp js (Num (Int 1)) (CONN_FINISHING ocpp) true >> _).
  unfold_engine. unfold wsSendData_events, status_reply. open_world w.
  destruct (String.eqb rr "Rejected") eqn:E; destruct ws, scb, lcb; cbn; rewrite ?E; cbn.
  all: eexists; eexists; eexists; finish_run.
  all: try (split; reflexivity).
  all: exists resume; eexists; eexists; eexists; eexists; split; reflexivity.
Qed.

Lemma RemoteStopTransaction_policy_witness :
  exists w' evs pending,
    handleCallRequest sample_constants sample_platform (Str "id3")
      (Str "RemoteStopTransaction") (Obj [("transactionId", Num (Int 42))]) fresh_world
    = Normal pending w' /\
    trace w' = (trace fresh_world ++ evs)%list /\
    let reply := wsSendData_events sample_constants (_websocket (this fresh_world))
                   (utc_iso sample_platform (ticks fresh_world))
                   (status_reply (Str "id3") (_remoteStartStopResponse (this fresh_world))) in
    if String.eqb (_remoteStartStopResponse (this fresh_world)) "Rejected"
    then pending = [] /\ engine_events evs = reply
    else exists resume frame_id stamp mv now,
           pending = [Sleep (Int 1000) resume] /\
           engine_events evs =
             (reply ++
              sessionStorage_setItem "LastAction" (STOP_TRANSACTION sample_constants) ::
              sessionStorage_setItem (KEY_CP_STATUS sample_constants)
                (CP_AUTHORIZED sample_constants) ::
              wsSendData_events sample_constants (_websocket (this fresh_world)) now
                (StopTransaction_frame frame_id (Num (Int 42)) stamp mv Undefined))%list.
Proof.
  apply (RemoteStopTransaction_policy sample_constants sample_platform
           (Str "id3") (Obj [("transactionId", Num (Int 42))]) (Num (Int 42)) fresh_world).
  reflexivity.
Defined.

(** ** Results and errors from the server *)

(** X6: while the pending action is BootNotification, a result whose
    [status] is (loosely) equal to "Accepted" starts the heartbeat timer with
    a period of [interval * 1000] milliseconds ([NaN] when the result has no
    interval), keeps its handle in [_heartbeat] and leaves the status
    Connected; any other result starts no timer, closes the socket with code
    3001 when there is one and leaves the status Disconnected. *)
Theorem BootNotification_result ocpp js (payload st : value) (w : World) :
  result (getLastAction w) = Some (BOOT_NOTIFICATION ocpp) ->
  get_prop payload "status" = Some st ->
  exists w' evs,
    handleCallResult ocpp js payload w = Normal tt w' /\
    trace w' = (trace w ++ evs)%list /\
    if loose_eq_string js st "Accepted"
    then exists interval,
           get_prop payload "interval" = Some interval /\
           _heartbeat (this w') = Some (next_timer w) /\
           intervals w' !! next_timer w
             = Some (number_mul (ToNumber js interval) (Int 1000)) /\
           result (status ocpp w') = Some (CP_CONNECTED ocpp)
    else intervals w' = intervals w /\
         _heartbeat (this w') = _heartbeat (this w) /\
         result (status ocpp w') = Some (CP_DISCONNECTED ocpp) /\
         engine_events evs =
           (match _websocket (this w) with
            | Some _ => [websocket_close 3001]
            | None => []
            end ++
            [sessionStorage_setItem (KEY_CP_STATUS ocpp) (CP_DISCONNECTED ocpp)])%list.
Proof.
  intros Hla Hst.
  assert (Hint : exists interval, get_prop payload "interval" = Some interval).
  { destruct payload; try discriminate Hst; eexists; reflexivity. }
  destruct Hint as [interval Hint].
  assert (Hrun : handleCallResult ocpp js payload w =
    (if loose_eq_string js st "Accepted"
     then logMsg "Connection accepted" >>
          setHeartbeat js interval >> setStatus ocpp (CP_CONNECTED ocpp) ""
     else logMsg "Connection refused by server" >> wsDisconnect ocpp) w).
  { unfold handleCallResult. unfold bind at 1.
    rewrite (getLastAction_returns _ _ Hla), String.eqb_refl.
    unfold bind at 1, prop. rewrite Hst. unfold ret at 1.
    destruct (loose_eq_string js st "Accepted"); [|reflexivity].
    unfold bind. destruct (logMsg _ w); [|reflexivity].
    rewrite Hint. reflexivity. }
  rewrite Hrun. clear Hrun.
  destruct (loose_eq_string js st "Accepted").
  - unfold setHeartbeat, setInterval, clearInterval, set_heartbeat. unfold_engine.
    open_world w. destruct hb, scb, lcb; cbn.
    all: eexists; eexists; finish_run.
    all: exists interval; split; [assumption|]; split; [reflexivity|].
    all: cbn; rewrite lookup_insert_eq, ToString_Str, lookup_insert_eq, empty_default.
    all: split; reflexivity.
  - unfold wsDisconnect. unfold_engine. open_world w. destruct ws, scb, lcb; cbn.
    all: eexists; eexists; finish_run.
    all: cbn; rewrite ToString_Str, lookup_insert_eq, empty_default.
    all: repeat split.
Qed.

Lemma BootNotification_result_witness :
  let w := final (sendBootNotification sample_constants sample_platform
                    (final (wsConnect sample_constants "ws://server/" "CP1" fresh_world))) in
  let payload := Obj [("status", Str "Accepted"); ("interval", Num (Int 30))] in
  exists w' evs,
    handleCallResult sample_constants sample_platform payload w = Normal tt w' /\
    trace w' = (trace w ++ evs)%list /\
    exists interval,
      get_prop payload "interval" = Some interval /\
      _heartbeat (this w') = Some (next_timer w) /\
      intervals w' !! next_timer w
        = Some (number_mul (ToNumber sample_platform interval) (Int 1000)) /\
      result (status sample_constants w') = Some "Connected".
Proof.
  exact (BootNotification_result sample_constants sample_platform
           (Obj [("status", Str "Accepted"); ("interval", Num (Int 30))]) (Str "Accepted")
           (final (sendBootNotification sample_constants sample_platform
                     (final (wsConnect sample_constants "ws://server/" "CP1" fresh_world))))
           eq_refl eq_refl).
Defined.

(** X7: a result without a payload ([undefined], as for the frame
    [[3, id]], or [null]) makes [handleCallResult] throw a TypeError when the
    pending action is BootNotification, Authorize or StartTransaction, before
    anything is written: the state is the one before the call. *)
Theorem result_without_payload_throws ocpp js (payload : value) (la : string) (w : World) :
  payload = Undefined \/ payload = Null ->
  result (getLastAction w) = Some la ->
  String.eqb la (BOOT_NOTIFICATION ocpp) || String.eqb la (AUTHORIZE ocpp)
    || String.eqb la (START_TRANSACTION ocpp) = true ->
  handleCallResult ocpp js payload w = Thrown "TypeError" w.
Proof.
  intros Hp Hla Hcase. unfold handleCallResult. unfold bind at 1.
  rewrite (getLastAction_returns _ _ Hla).
  destruct (String.eqb la (BOOT_NOTIFICATION ocpp));
    [destruct Hp as [-> | ->]; reflexivity|].
  destruct (String.eqb la (AUTHORIZE ocpp));
    [destruct Hp as [-> | ->]; reflexivity|].
  destruct (String.eqb la (START_TRANSACTION ocpp)); [|discriminate Hcase].
  destruct Hp as [-> | ->]; reflexivity.
Qed.

Lemma result_without_payload_throws_witness :
  let w := final (setLastAction "StartTransaction" fresh_world) in
  handleCallResult sample_constants sample_platform Undefined w = Thrown "TypeError" w.
Proof.
  apply (result_without_payload_throws sample_constants sample_platform Undefined
           "StartTransaction" (final (setLastAction "StartTransaction" fresh_world))).
  - now left.
  - reflexivity.
  - reflexivity.
Defined.

(** X8: while the pending action is Authorize, a result that has no
    [idTagInfo] object (the payload is [{}], or its [idTagInfo] is [null])
    makes [handleCallResult] throw a TypeError and changes nothing: the status
    is not set, whether the tag was accepted or not. *)
Theorem Authorize_result_without_idTagInfo_throws ocpp js (payload : value) (w : World) :
  result (getLastAction w) = Some (AUTHORIZE ocpp) ->
  AUTHORIZE ocpp <> BOOT_NOTIFICATION ocpp ->
  (forall info, get_prop payload "idTagInfo" = Some info -> get_prop info "status" = None) ->
  handleCallResult ocpp js payload w = Thrown "TypeError" w.
Proof.
  intros Hla Hboot Hinfo. apply String.eqb_neq in Hboot.
  unfold handleCallResult. unfold bind at 1.
  rewrite (getLastAction_returns _ _ Hla), Hboot, String.eqb_refl.
  unfold bind at 1, prop.
  destruct (get_prop payload "idTagInfo") as [info|] eqn:E; [|reflexivity].
  unfold ret at 1. unfold bind at 1. now rewrite (Hinfo info eq_refl).
Qed.

Lemma Authorize_result_without_idTagInfo_throws_witness :
  let w := final (setLastAction "Authorize" fresh_world) in
  handleCallResult sample_constants sample_platform (Obj []) w = Thrown "TypeError" w.
Proof.
  apply (Authorize_result_without_idTagInfo_throws sample_constants sample_platform
           (Obj []) (final (setLastAction "Authorize" fresh_world))).
  - reflexivity.
  - discriminate.
  - intros info [= <-]. reflexivity.
Defined.

(** X9: while the pending action is StopTransaction, any result, with or
    without a payload, stores Available as the status of connector 1 and does
    nothing else: no StatusNotification is sent, no observer is called and
    the pending action stays as it is. *)
Theorem StopTransaction_result_marks_available ocpp js (payload : value) (w : World) :
  result (getLastAction w) = Some (STOP_TRANSACTION ocpp) ->
  STOP_TRANSACTION ocpp <> BOOT_NOTIFICATION ocpp ->
  STOP_TRANSACTION ocpp <> AUTHORIZE ocpp ->
  STOP_TRANSACTION ocpp <> START_TRANSACTION ocpp ->
  exists w',
    handleCallResult ocpp js payload w = Normal tt w' /\
    trace w' = (trace w ++
      [sessionStorage_setItem (KEY_CONN_STATUS ocpp +:+ pretty 1) (CONN_AVAILABLE ocpp)])%list /\
    result (connectorStatus ocpp (Num (Int 1)) w') = Some (CONN_AVAILABLE ocpp) /\
    result (getLastAction w') = Some (STOP_TRANSACTION ocpp).
Proof.
  intros Hla H1 H2 H3. apply String.eqb_neq in H1, H2, H3.
  assert (Hrun : handleCallResult ocpp js payload w =
    setConnectorStatus ocpp js (Num (Int 1)) (CONN_AVAILABLE ocpp) false w).
  { unfold handleCallResult. unfold bind at 1.
    now rewrite (getLastAction_returns _ _ Hla), H1, H2, H3, String.eqb_refl. }
  rewrite Hrun. clear Hrun.
  pose proof (connector_key_not_LastAction (KEY_CONN_STATUS ocpp) 1) as Hkey.
  unfold_engine. open_world w. cbn in *.
  rewrite !ToString_Int, ToString_Str in *.
  eexists. split; [reflexivity|]. cbn. split; [reflexivity|].
  rewrite lookup_insert_eq, empty_default, lookup_insert_ne by assumption.
  split; [reflexivity|exact Hla].
Qed.

Lemma StopTransaction_result_marks_available_witness :
  let w := final (setLastAction "StopTransaction" fresh_world) in
  exists w',
    handleCallResult sample_constants sample_platform Undefined w = Normal tt w' /\
    trace w' = (trace w ++
      [sessionStorage_setItem ("conn_status" +:+ pretty 1) "Available"])%list /\
    result (connectorStatus sample_constants (Num (Int 1)) w') = Some "Available" /\
    result (getLastAction w') = Some "StopTransaction".
Proof.
  exact (StopTransaction_result_marks_available sample_constants sample_platform Undefined
           (final (setLastAction "StopTransaction" fresh_world))
           eq_refl ltac:(discriminate) ltac:(discriminate) ltac:(discriminate)).
Defined.

(** X10: while the pending action is none of BootNotification, Authorize,
    StartTransaction and StopTransaction (a heartbeat, a meter value, a status
    notification, or anything unknown), a result changes neither store nor
    field of the engine and sends nothing; at most it is logged. *)
Theorem other_results_change_nothing ocpp js (payload : value) (la : string) (w : World) :
  result (getLastAction w) = Some la ->
  la <> BOOT_NOTIFICATION ocpp ->
  la <> AUTHORIZE ocpp ->
  la <> START_TRANSACTION ocpp ->
  la <> STOP_TRANSACTION ocpp ->
  exists w' evs,
    handleCallResult ocpp js payload w = Normal tt w' /\
    trace w' = (trace w ++ evs)%list /\
    engine_events evs = [] /\
    this w' = this w /\
    sessionStorage w' = sessionStorage w /\
    localStorage w' = localStorage w /\
    intervals w' = intervals w.
Proof.
  intros Hla H1 H2 H3 H4. apply String.eqb_neq in H1, H2, H3, H4.
  unfold handleCallResult. unfold bind at 1.
  rewrite (getLastAction_returns _ _ Hla), H1, H2, H3, H4.
  destruct (String.eqb la (HEARTBEAT ocpp));
    [exists w, []; rewrite app_nil_r; repeat split|].
  destruct (String.eqb la (METERVALUES ocpp));
    [exists w, []; rewrite app_nil_r; repeat split|].
  destruct (String.eqb la (STATUSNOTIFICATION ocpp));
    [exists w, []; rewrite app_nil_r; repeat split|].
  clear Hla. unfold_engine. open_world w. destruct lcb; cbn.
  - eexists; eexists; finish_run. repeat split.
  - eexists; exists []; rewrite app_nil_r. repeat split.
Qed.

Lemma other_results_change_nothing_witness :
  let w := final (sendHeartbeat sample_constants sample_platform fresh_world) in
  exists w' evs,
    handleCallResult sample_constants sample_platform
      (Obj [("currentTime", Str "2023-10-17T08:45:43Z")]) w = Normal tt w' /\
    trace w' = (trace w ++ evs)%list /\
    engine_events evs = [] /\
    this w' = this w /\
    sessionStorage w' = sessionStorage w /\
    localStorage w' = localStorage w /\
    intervals w' = intervals w.
Proof.
  exact (other_results_change_nothing sample_constants sample_platform
           (Obj [("currentTime", Str "2023-10-17T08:45:43Z")]) "Heartbeat"
           (final (sendHeartbeat sample_constants sample_platform fresh_world))
           eq_refl ltac:(discriminate) ltac:(discriminate) ltac:(discriminate)
           ltac:(discriminate)).
Defined.

(** ** The transport *)

(** X11: a frame whose first element is not the number 2, 3 or 4 (another
    number, the string "2", or nothing at all for the empty array) reaches no
    handler: decoding and dispatching it changes nothing and leaves nothing
    pending. *)
Theorem unknown_message_type_ignored ocpp js (elems : list value) (w : World) :
  (forall z, nth 0 elems Undefined = Num (Int z) -> z <> 2 /\ z <> 3 /\ z <> 4) ->
  (let! call := decode js (Arr elems) in dispatch ocpp js call) w = Normal [] w.
Proof.
  intros H. unfold decode, index, bind. cbn [get_index ret].
  destruct (nth 0 elems Undefined) as [| |b|[|z]|s|es|ps] eqn:E; try reflexivity.
  destruct (H z eq_refl) as (H2 & H3 & H4).
  apply Z.eqb_neq in H2, H3, H4. cbn. now rewrite H2, H3, H4.
Qed.

Lemma unknown_message_type_ignored_witness :
  (let! call := decode sample_platform (Arr [Str "2"; Str "id1"; Str "Reset"; Obj []])
   in dispatch sample_constants sample_platform call) fresh_world = Normal [] fresh_world.
Proof.
  apply (unknown_message_type_ignored sample_constants sample_platform
           [Str "2"; Str "id1"; Str "Reset"; Obj []] fresh_world).
  intros z H. discriminate H.
Defined.

(** X12: a CALLERROR frame [[4, id, code, description, ...]] sets the
    charge-point status to Error whatever the pending action is, tells the
    status observer "ErrorCode: code (description)" (with [undefined] printed
    for a part the frame lacks), and writes nothing else. *)
Theorem CALLERROR_sets_error ocpp js (elems : list value) (w : World) :
  nth 0 elems Undefined = Num (Int 4) ->
  exists w',
    (let! call := decode js (Arr elems) in dispatch ocpp js call) w = Normal [] w' /\
    trace w' =
      (trace w ++
       sessionStorage_setItem (KEY_CP_STATUS ocpp) (CP_ERROR ocpp) ::
       match _statusChangeCb (this w) with
       | Some cb =>
           [call_statusChangeCb cb (CP_ERROR ocpp)
              ("ErrorCode: " +:+ ToString (nth 2 elems Undefined) +:+ " (" +:+
               ToString (nth 3 elems Undefined) +:+ ")")]
       | None => []
       end)%list /\
    result (status ocpp w') = Some (CP_ERROR ocpp) /\
    this w' = this w.
Proof.
  intros H. unfold decode, index, bind. cbn [get_index ret]. rewrite H. cbn.
  unfold handleCallError. unfold_engine. open_world w. destruct scb; cbn.
  all: eexists; split; [reflexivity|]; split; [cbn; norm_trace; reflexivity|].
  all: cbn; rewrite ToString_Str, lookup_insert_eq, empty_default; split; reflexivity.
Qed.

Lemma CALLERROR_sets_error_witness :
  let elems := [Num (Int 4); Str "id1"; Str "InternalError"] in
  let w := final (setStatusChangeCallback (Some "page") fresh_world) in
  exists w',
    (let! call := decode sample_platform (Arr elems)
     in dispatch sample_constants sample_platform call) w = Normal [] w' /\
    trace w' =
      (trace w ++
       sessionStorage_setItem (KEY_CP_STATUS sample_constants) (CP_ERROR sample_constants) ::
       match _statusChangeCb (this w) with
       | Some cb =>
           [call_statusChangeCb cb (CP_ERROR sample_constants)
              ("ErrorCode: " +:+ ToString (nth 2 elems Undefined) +:+ " (" +:+
               ToString (nth 3 elems Undefined) +:+ ")")]
       | None => []
       end)%list /\
    result (status sample_constants w') = Some (CP_ERROR sample_constants) /\
    this w' = this w.
Proof.
  apply (CALLERROR_sets_error sample_constants sample_platform
           [Num (Int 4); Str "id1"; Str "InternalError"]
           (final (setStatusChangeCallback (Some "page") fresh_world))).
  reflexivity.
Defined.

(** X13: when the socket closes, whatever the code, the engine forgets the
    socket and the heartbeat handle and the timer it held no longer runs; the
    status reads Disconnected for the code 3001 and Error for any other
    code. *)
Theorem onclose_forgets_socket_and_timer ocpp (code : Z) (w : World) :
  exists w',
    onclose ocpp code w = Normal tt w' /\
    _websocket (this w') = None /\
    _heartbeat (this w') = None /\
    (forall id, _heartbeat (this w) = Some id -> intervals w' !! id = None) /\
    (forall id, _heartbeat (this w) <> Some id -> intervals w' !! id = intervals w !! id) /\
    result (status ocpp w')
      = Some (if Z.eqb code 3001 then CP_DISCONNECTED ocpp else CP_ERROR ocpp).
Proof.
  unfold onclose, clearInterval, set_heartbeat, set_websocket. unfold_engine.
  open_world w. destruct hb, scb, lcb, (Z.eqb code 3001); cbn.
  all: eexists; split; [reflexivity|]; cbn.
  all: rewrite ToString_Str, lookup_insert_eq, empty_default.
  all: repeat split; try discriminate.
  all: try (intros id [= <-]; apply lookup_delete_eq).
  all: intros id Hid; apply lookup_delete_ne; congruence.
Qed.

(** X14: [wsConnect] never opens a second socket: with a socket already held
    it keeps it, asks it to close with code 3001 and leaves the status Error;
    with none it holds a new socket to the address [wsurl] followed by the
    charge-point id, and writes and sends nothing yet. *)
Theorem wsConnect_single_socket ocpp (wsurl cpid : string) (w : World) :
  exists w' evs,
    wsConnect ocpp wsurl cpid w = Normal tt w' /\
    trace w' = (trace w ++ evs)%list /\
    match _websocket (this w) with
    | Some sock =>
        _websocket (this w') = Some sock /\
        engine_events evs =
          [sessionStorage_setItem (KEY_CP_STATUS ocpp) (CP_ERROR ocpp);
           websocket_close 3001] /\
        result (status ocpp w') = Some (CP_ERROR ocpp)
    | None =>
        _websocket (this w') = Some (wsurl +:+ cpid) /\
        evs = [] /\
        sessionStorage w' = sessionStorage w
    end.
Proof.
  unfold wsConnect, set_websocket. unfold_engine. open_world w.
  destruct ws, scb; cbn.
  1,2: eexists; eexists; finish_run.
  1,2: cbn; rewrite ToString_Str, lookup_insert_eq, empty_default; repeat split.
  all: eexists; exists []; split; [reflexivity|]; cbn; rewrite app_nil_r.
  all: repeat split.
Qed.

(** ** Identifiers and the stores *)

#[local] Transparent generateId_loop.

Lemma charAt_possible_length (i : nat) :
  (i < 62)%nat -> String.length (charAt possible i) = 1%nat.
Proof.
  intros H. do 62 (destruct i as [|i]; [reflexivity|]). lia.
Qed.

Lemma generateId_loop_length js (i k : nat) (id : string) :
  (forall k, random_index js k 62 < 62)%nat ->
  String.length (generateId_loop js k i id) = (String.length id + i)%nat.
Proof.
  intros H. revert k id. induction i as [|i IH]; intros k id.
  - rewrite Nat.add_0_r. reflexivity.
  - change (generateId_loop js k (S i) id)
      with (generateId_loop js (S k) i (id +:+ charAt possible (random_index js k 62))).
    rewrite IH, length_append.
    rewrite charAt_possible_length by apply H. lia.
Qed.

#[local] Opaque generateId_loop.

(** X15: when every random index falls inside the alphabet (as
    [Math.floor(Math.random() * 62)] does), [generateId] returns an
    identifier of exactly 36 characters and consumes 36 random numbers. *)
Theorem generateId_has_36_characters js (w : World) :
  (forall k, random_index js k 62 < 62)%nat ->
  exists id w',
    generateId js w = Normal id w' /\
    String.length id = 36%nat /\
    draws w' = (draws w + 36)%nat.
Proof.
  intros H. unfold generateId. eexists; eexists. split; [reflexivity|].
  split; [now rewrite generateId_loop_length|]. now destruct w.
Qed.

Lemma generateId_has_36_characters_witness :
  exists id w',
    generateId sample_platform fresh_world = Normal id w' /\
    String.length id = 36%nat /\
    draws w' = (draws fresh_world + 36)%nat.
Proof.
  apply (generateId_has_36_characters sample_platform fresh_world).
  intros k. change (random_index sample_platform k 62) with (k mod 62)%nat.
  apply Nat.mod_upper_bound. discriminate.
Defined.

(** X16: a value stored with [setSessionKey] is read back by [getSessionKey]
    as its string form, except that an empty string reads back as the
    default, like a key that was never stored; the other keys read as
    before. *)
Theorem session_key_round_trip (key d : string) (val : value) (w : World) :
  let w' := final (setSessionKey key val w) in
  result (getSessionKey key d w')
  = Some (if String.eqb (ToString val) "" then d else ToString val) /\
  (forall k d', k <> key ->
     result (getSessionKey k d' w') = result (getSessionKey k d' w)) /\
  (sessionStorage w !! key = None -> result (getSessionKey key d w) = Some d).
Proof.
  unfold_engine. open_world w. cbn. rewrite lookup_insert_eq.
  split; [reflexivity|]. split.
  - intros k d' Hk. now rewrite lookup_insert_ne by congruence.
  - now intros ->.
Qed.

(** X17: [setConnectorStatus(c, st)] without the update flag stores the
    status of connector [c] and nothing else: [connectorStatus(c)] reads [st],
    the status of every other connector and the pending action read as
    before, and nothing is sent. *)
Theorem setConnectorStatus_local ocpp js (c : Z) (st : string) (w : World) :
  exists w',
    setConnectorStatus ocpp js (Num (Int c)) st false w = Normal tt w' /\
    trace w' = (trace w ++
      [sessionStorage_setItem (KEY_CONN_STATUS ocpp +:+ pretty c) st])%list /\
    result (connectorStatus ocpp (Num (Int c)) w') = Some st /\
    (forall d, d <> c ->
       result (connectorStatus ocpp (Num (Int d)) w')
       = result (connectorStatus ocpp (Num (Int d)) w)) /\
    result (getLastAction w') = result (getLastAction w).
Proof.
  pose proof (connector_key_not_LastAction (KEY_CONN_STATUS ocpp) c) as Hla.
  unfold_engine. open_world w. cbn. rewrite !ToString_Int, ToString_Str.
  eexists. split; [reflexivity|]. cbn. split; [reflexivity|].
  rewrite lookup_insert_eq, empty_default. split; [reflexivity|]. split.
  - intros d Hd. rewrite ToString_Int.
    now rewrite lookup_insert_ne by (apply connector_keys_differ; congruence).
  - now rewrite lookup_insert_ne by assumption.
Qed.

(** ** Availability *)

(** The own part of [setConnectorAvailability] on an integer connector. *)
Lemma setConnectorAvailability_own_stores ocpp js (c : Z) (X : value) (w : World) :
  exists w',
    setConnectorAvailability_own ocpp js (Num (Int c)) X w = Normal tt w' /\
    this w' = this w /\
    localStorage w' = <[KEY_CONN_AVAILABILITY ocpp +:+ pretty c := ToString X]> (localStorage w) /\
    (loose_eq_string js X (AVAILABITY_INOPERATIVE ocpp) = false ->
     sessionStorage w' = sessionStorage w) /\
    (loose_eq_string js X (AVAILABITY_INOPERATIVE ocpp) = true ->
     forall d, KEY_CP_STATUS ocpp <> KEY_CONN_STATUS ocpp +:+ pretty d ->
       sessionStorage w' !! (KEY_CONN_STATUS ocpp +:+ pretty d)
       = if Z.eqb c d then Some (CONN_UNAVAILABLE ocpp)
         else sessionStorage w !! (KEY_CONN_STATUS ocpp +:+ pretty d)).
Proof.
  destruct (setConnectorAvailability_own_spec ocpp js (Num (Int c)) X w)
    as (w' & evs & R & _ & _ & Hthis & L & _ & H).
  exists w'. rewrite ToString_Int in L. repeat split; try assumption.
  - intros HX. rewrite HX in H. tauto.
  - intros HX d Hd. rewrite HX in H. destruct H as [_ S]. rewrite S.
    destruct (Z.eqb_spec c d) as [->|Hcd].
    + now apply notify_session_self.
    + now apply notify_session_other.
Qed.

(** X18: [setConnectorAvailability(0, Inoperative)] leaves the three
    connectors 0, 1 and 2 with the stored status Unavailable, when none of
    their status keys is the key of the charge-point status. *)
Theorem inoperative_on_0_marks_all_unavailable ocpp js (w : World) :
  (forall i : Z, KEY_CP_STATUS ocpp <> KEY_CONN_STATUS ocpp +:+ pretty i) ->
  exists w',
    setConnectorAvailability ocpp js (Num (Int 0))
      (Str (AVAILABITY_INOPERATIVE ocpp)) w = Normal tt w' /\
    result (connectorStatus ocpp (Num (Int 0)) w') = Some (CONN_UNAVAILABLE ocpp) /\
    result (connectorStatus ocpp (Num (Int 1)) w') = Some (CONN_UNAVAILABLE ocpp) /\
    result (connectorStatus ocpp (Num (Int 2)) w') = Some (CONN_UNAVAILABLE ocpp).
Proof.
  intros Hk.
  assert (HX : loose_eq_string js (Str (AVAILABITY_INOPERATIVE ocpp))
                 (AVAILABITY_INOPERATIVE ocpp) = true) by apply String.eqb_refl.
  rewrite setConnectorAvailability_zero by reflexivity. unfold bind.
  destruct (setConnectorAvailability_own_stores ocpp js 0
              (Str (AVAILABITY_INOPERATIVE ocpp)) w) as (w1 & -> & _ & _ & _ & S1).
  destruct (setConnectorAvailability_own_stores ocpp js 1
              (Str (AVAILABITY_INOPERATIVE ocpp)) w1) as (w2 & -> & _ & _ & _ & S2).
  destruct (setConnectorAvailability_own_stores ocpp js 2
              (Str (AVAILABITY_INOPERATIVE ocpp)) w2) as (w3 & -> & _ & _ & _ & S3).
  specialize (S1 HX). specialize (S2 HX). specialize (S3 HX).
  exists w3. split; [reflexivity|].
  rewrite !connectorStatus_reads, !ToString_Int.
  rewrite !S3, !S2, !S1 by apply Hk. cbn. repeat split.
Qed.

Lemma inoperative_on_0_marks_all_unavailable_witness :
  exists w',
    setConnectorAvailability sample_constants sample_platform (Num (Int 0))
      (Str "Inoperative") fresh_world = Normal tt w' /\
    result (connectorStatus sample_constants (Num (Int 0)) w') = Some "Unavailable" /\
    result (connectorStatus sample_constants (Num (Int 1)) w') = Some "Unavailable" /\
    result (connectorStatus sample_constants (Num (Int 2)) w') = Some "Unavailable".
Proof.
  apply (inoperative_on_0_marks_all_unavailable sample_constants sample_platform fresh_world).
  intros i E.
  assert (H : "cp_status" = "conn_status" +:+ pretty i) by exact E.
  discriminate H.
Defined.

Lemma is_connector_zero_Int js (c : Z) :
  is_connector_zero js (Num (Int c)) = Z.eqb c 0.
Proof. reflexivity. Qed.

(** What [setConnectorAvailability] leaves in the stores for its own
    connector, cascade included. *)
Lemma setConnectorAvailability_stores ocpp js (c : Z) (X : value) (w : World) :
  exists w',
    setConnectorAvailability ocpp js (Num (Int c)) X w = Normal tt w' /\
    localStorage w' !! (KEY_CONN_AVAILABILITY ocpp +:+ pretty c) = Some (ToString X) /\
    (loose_eq_string js X (AVAILABITY_INOPERATIVE ocpp) = false ->
     sessionStorage w' = sessionStorage w) /\
    (loose_eq_string js X (AVAILABITY_INOPERATIVE ocpp) = true ->
     (forall i : Z, KEY_CP_STATUS ocpp <> KEY_CONN_STATUS ocpp +:+ pretty i) ->
     sessionStorage w' !! (KEY_CONN_STATUS ocpp +:+ pretty c) = Some (CONN_UNAVAILABLE ocpp)).
Proof.
  destruct (Z.eqb_spec c 0) as [->|Hc].
  - rewrite setConnectorAvailability_zero by reflexivity. unfold bind.
    destruct (setConnectorAvailability_own_stores ocpp js 0 X w)
      as (w1 & -> & _ & L1 & F1 & S1).
    destruct (setConnectorAvailability_own_stores ocpp js 1 X w1)
      as (w2 & -> & _ & L2 & F2 & S2).
    destruct (setConnectorAvailability_own_stores ocpp js 2 X w2)
      as (w3 & -> & _ & L3 & F3 & S3).
    exists w3. split; [reflexivity|]. split; [|split].
    + rewrite L3, L2, L1.
      rewrite !lookup_insert_ne by (apply connector_keys_differ; discriminate).
      apply lookup_insert_eq.
    + intros HX. now rewrite (F3 HX), (F2 HX), (F1 HX).
    + intros HX Hk. rewrite (S3 HX), (S2 HX), (S1 HX) by apply Hk. reflexivity.
  - rewrite setConnectorAvailability_nonzero
      by (rewrite is_connector_zero_Int; now apply Z.eqb_neq).
    destruct (setConnectorAvailability_own_stores ocpp js c X w)
      as (w1 & -> & _ & L1 & F1 & S1).
    exists w1. split; [reflexivity|]. split; [|split].
    + rewrite L1. apply lookup_insert_eq.
    + assumption.
    + intros HX Hk. rewrite (S1 HX) by apply Hk. now rewrite Z.eqb_refl.
Qed.

(** X19: setting a connector Inoperative and then Operative again gives
    back its availability but not its status: [availability(c)] reads
    Operative while [connectorStatus(c)] still reads Unavailable, the second
    test of [setConnectorAvailability] being the same as the first. *)
Theorem operative_does_not_restore_status ocpp js (c : Z) (w : World) :
  (forall i : Z, KEY_CP_STATUS ocpp <> KEY_CONN_STATUS ocpp +:+ pretty i) ->
  AVAILABITY_OPERATIVE ocpp <> AVAILABITY_INOPERATIVE ocpp ->
  exists w1 w2,
    setConnectorAvailability ocpp js (Num (Int c))
      (Str (AVAILABITY_INOPERATIVE ocpp)) w = Normal tt w1 /\
    setConnectorAvailability ocpp js (Num (Int c))
      (Str (AVAILABITY_OPERATIVE ocpp)) w1 = Normal tt w2 /\
    result (availability ocpp (Num (Int c)) w2) = Some (AVAILABITY_OPERATIVE ocpp) /\
    result (connectorStatus ocpp (Num (Int c)) w2) = Some (CONN_UNAVAILABLE ocpp).
Proof.
  intros Hk Hne.
  destruct (setConnectorAvailability_stores ocpp js c
              (Str (AVAILABITY_INOPERATIVE ocpp)) w) as (w1 & R1 & _ & _ & S1).
  destruct (setConnectorAvailability_stores ocpp js c
              (Str (AVAILABITY_OPERATIVE ocpp)) w1) as (w2 & R2 & L2 & F2 & _).
  exists w1, w2. split; [assumption|]. split; [assumption|].
  rewrite availability_reads, connectorStatus_reads, ToString_Int, L2, ToString_Str.
  rewrite F2 by (cbn; now apply String.eqb_neq).
  rewrite S1 by (try apply String.eqb_refl; assumption).
  split; [|reflexivity].
  now destruct (String.eqb (AVAILABITY_OPERATIVE ocpp) "").
Qed.

Lemma operative_does_not_restore_status_witness :
  exists w1 w2,
    setConnectorAvailability sample_constants sample_platform (Num (Int 1))
      (Str "Inoperative") fresh_world = Normal tt w1 /\
    setConnectorAvailability sample_constants sample_platform (Num (Int 1))
      (Str "Operative") w1 = Normal tt w2 /\
    result (availability sample_constants (Num (Int 1)) w2) = Some "Operative" /\
    result (connectorStatus sample_constants (Num (Int 1)) w2) = Some "Unavailable".
Proof.
  apply (operative_does_not_restore_status sample_constants sample_platform 1 fresh_world).
  - intros i E.
    assert (H : "cp_status" = "conn_status" +:+ pretty i) by exact E.
    discriminate H.
  - discriminate.
Defined.

(** X20: for a connector other than 0 there is no cascade: the observer is
    called once, and the availability of every other connector reads as
    before, as does its status when its key is not the charge-point
    status key. *)
Theorem nonzero_connector_no_cascade ocpp js (c : Z) (X : value) (w : World) :
  c <> 0 ->
  exists w' evs,
    setConnectorAvailability ocpp js (Num (Int c)) X w = Normal tt w' /\
    trace w' = (trace w ++ evs)%list /\
    availability_calls evs = observer_call w (Num (Int c)) X /\
    forall d, d <> c ->
      result (availability ocpp (Num (Int d)) w')
      = result (availability ocpp (Num (Int d)) w) /\
      (KEY_CP_STATUS ocpp <> KEY_CONN_STATUS ocpp +:+ pretty d ->
       result (connectorStatus ocpp (Num (Int d)) w')
       = result (connectorStatus ocpp (Num (Int d)) w)).
Proof.
  intros Hc.
  rewrite setConnectorAvailability_nonzero
    by (rewrite is_connector_zero_Int; now apply Z.eqb_neq).
  destruct (setConnectorAvailability_own_spec ocpp js (Num (Int c)) X w)
    as (w' & evs & R & T & O & _ & L & _ & H).
  exists w', evs. split; [assumption|]. split; [assumption|]. split; [assumption|].
  intros d Hd. split.
  - rewrite !availability_reads, L.
    now rewrite lookup_insert_ne by (apply availability_keys_differ; congruence).
  - intros Hk. rewrite !connectorStatus_reads, ToString_Int.
    destruct (loose_eq_string js X (AVAILABITY_INOPERATIVE ocpp)).
    + destruct H as [_ ->]. now rewrite notify_session_other by congruence.
    + destruct H as [_ ->]. reflexivity.
Qed.

Lemma nonzero_connector_no_cascade_witness :
  exists w' evs,
    setConnectorAvailability sample_constants sample_platform (Num (Int 2))
      (Str "Inoperative") fresh_world = Normal tt w' /\
    trace w' = (trace fresh_world ++ evs)%list /\
    availability_calls evs = observer_call fresh_world (Num (Int 2)) (Str "Inoperative") /\
    forall d, d <> 2 ->
      result (availability sample_constants (Num (Int d)) w')
      = result (availability sample_constants (Num (Int d)) fresh_world) /\
      (KEY_CP_STATUS sample_constants <> KEY_CONN_STATUS sample_constants +:+ pretty d ->
       result (connectorStatus sample_constants (Num (Int d)) w')
       = result (connectorStatus sample_constants (Num (Int d)) fresh_world)).
Proof.
  apply (nonzero_connector_no_cascade sample_constants sample_platform 2
           (Str "Inoperative") fresh_world).
  discriminate.
Defined.

(** ** Requests that change availability or trigger a message *)

(** A log line and a frame handed to [wsSendData], followed by anything. *)
Lemma log_then_send ocpp js (msg data : string) (w : World) :
  exists w1 evs,
    (forall A (k : M A), (logMsg msg >> wsSendData ocpp js data >> k) w = k w1) /\
    trace w1 = (trace w ++ evs)%list /\
    engine_events evs =
      wsSendData_events ocpp (_websocket (this w)) (utc_iso js (ticks w)) data /\
    this w1 = this w /\
    localStorage w1 = localStorage w.
Proof.
  unfold_engine. unfold wsSendData_events. open_world w.
  destruct ws, scb, lcb; cbn.
  all: eexists; eexists; split; [intros A k; reflexivity|].
  all: split; [cbn; norm_trace; reflexivity|].
  all: repeat split.
Qed.

(** A run of [setConnectorAvailability] starts by storing the availability
    of its own connector. *)
Lemma setConnectorAvailability_runs ocpp js (c : Z) (X : value) (w : World) :
  exists w' evs rest,
    setConnectorAvailability ocpp js (Num (Int c)) X w = Normal tt w' /\
    trace w' = (trace w ++ evs)%list /\
    engine_events evs =
      localStorage_setItem (KEY_CONN_AVAILABILITY ocpp +:+ pretty c) (ToString X) :: rest.
Proof.
  assert (Hown : forall d v, exists v' evs rest,
            setConnectorAvailability_own ocpp js (Num (Int d)) X v = Normal tt v' /\
            trace v' = (trace v ++ evs)%list /\
            engine_events evs =
              localStorage_setItem (KEY_CONN_AVAILABILITY ocpp +:+ pretty d) (ToString X)
              :: rest).
  { intros d v.
    destruct (setConnectorAvailability_own_spec ocpp js (Num (Int d)) X v)
      as (v' & evs & R & T & _ & _ & _ & _ & H).
    rewrite ToString_Int in H. exists v', evs.
    destruct (loose_eq_string js X (AVAILABITY_INOPERATIVE ocpp));
      destruct H as [E _]; eexists; (split; [exact R|]); (split; [exact T|]); exact E. }
  destruct (Z.eqb_spec c 0) as [->|Hc].
  - rewrite setConnectorAvailability_zero by reflexivity. unfold bind.
    destruct (Hown 0 w) as (w1 & e1 & r1 & -> & T1 & E1).
    destruct (Hown 1 w1) as (w2 & e2 & r2 & -> & T2 & E2).
    destruct (Hown 2 w2) as (w3 & e3 & r3 & -> & T3 & E3).
    exists w3, (e1 ++ e2 ++ e3)%list. eexists. split; [reflexivity|]. split.
    + rewrite T3, T2, T1. now rewrite <- !app_assoc.
    + rewrite engine_events_app, E1. cbn. reflexivity.
  - rewrite setConnectorAvailability_nonzero
      by (rewrite is_connector_zero_Int; now apply Z.eqb_neq).
    apply Hown.
Qed.

(** X21: a ChangeAvailability request is answered Accepted before anything
    is changed, whatever type it asks for, and the type is then stored as the
    availability of connector [Number(connectorId)] without being checked
    against Operative and Inoperative. *)
Theorem ChangeAvailability_accepted_unchecked ocpp js (id payload avail connectorId : value)
    (c : Z) (w : World) :
  get_prop payload "type" = Some avail ->
  get_prop payload "connectorId" = Some connectorId ->
  ToNumber js connectorId = Int c ->
  exists w' evs rest,
    handleCallRequest ocpp js id (Str "ChangeAvailability") payload w = Normal [] w' /\
    trace w' = (trace w ++ evs)%list /\
    engine_events evs =
      (wsSendData_events ocpp (_websocket (this w)) (utc_iso js (ticks w))
         (status_reply id "Accepted") ++
       localStorage_setItem (KEY_CONN_AVAILABILITY ocpp +:+ pretty c) (ToString avail)
       :: rest)%list /\
    localStorage w' !! (KEY_CONN_AVAILABILITY ocpp +:+ pretty c) = Some (ToString avail).
Proof.
  intros Ht Hc Hn. unfold handleCallRequest.
  cbn [strict_eq_string String.eqb Ascii.eqb Bool.eqb]. cbn match.
  unfold prop. unfold bind at 1. rewrite Ht. unfold ret at 1.
  unfold bind at 1. rewrite Hc. unfold ret at 1. rewrite Hn.
  destruct (log_then_send ocpp js
              ("Reception of a ChangeAvailability request (connector "
               +:+ ToString connectorId +:+ " " +:+ ToString avail +:+ ")")
              (status_reply id "Accepted") w) as (w1 & e1 & K & T1 & E1 & _ & _).
  unfold status_reply in K. rewrite K. unfold bind.
  destruct (setConnectorAvailability_runs ocpp js c avail w1) as (w2 & e2 & rest & R2 & T2 & E2).
  destruct (setConnectorAvailability_stores ocpp js c avail w1) as (w2' & R2' & L & _).
  rewrite R2 in R2'. injection R2' as <-. rewrite R2. cbn.
  exists w2, (e1 ++ e2)%list, rest. split; [reflexivity|]. split.
  - rewrite T2, T1. now rewrite <- app_assoc.
  - split; [|exact L]. now rewrite engine_events_app, E1, E2.
Qed.

Lemma ChangeAvailability_accepted_unchecked_witness :
  exists w' evs rest,
    handleCallRequest sample_constants sample_platform (Str "id4")
      (Str "ChangeAvailability")
      (Obj [("connectorId", Str "2"); ("type", Str "Broken")]) fresh_world = Normal [] w' /\
    trace w' = (trace fresh_world ++ evs)%list /\
    engine_events evs =
      (wsSendData_events sample_constants (_websocket (this fresh_world))
         (utc_iso sample_platform (ticks fresh_world))
         (status_reply (Str "id4") "Accepted") ++
       localStorage_setItem (KEY_CONN_AVAILABILITY sample_constants +:+ pretty 2%Z)
         (ToString (Str "Broken"))
       :: rest)%list /\
    localStorage w' !! (KEY_CONN_AVAILABILITY sample_constants +:+ pretty 2%Z)
    = Some (ToString (Str "Broken")).
Proof.
  apply (ChangeAvailability_accepted_unchecked sample_constants sample_platform
           (Str "id4") (Obj [("connectorId", Str "2"); ("type", Str "Broken")])
           (Str "Broken") (Str "2") 2 fresh_world); reflexivity.
Defined.

(** A log line leaves no engine event and changes nothing but the trace. *)
Lemma logMsg_runs (msg : string) (w : World) :
  exists w' evs,
    logMsg msg w = Normal tt w' /\
    trace w' = (trace w ++ evs)%list /\
    engine_events evs = [] /\
    this w' = this w /\
    sessionStorage w' = sessionStorage w /\
    localStorage w' = localStorage w.
Proof.
  unfold_engine. open_world w. destruct lcb; cbn.
  - eexists; eexists; repeat split.
  - eexists; exists []; rewrite app_nil_r; repeat split.
Qed.

(** X22: a TriggerMessage request for a message other than BootNotification,
    Heartbeat, MeterValues and StatusNotification is still answered Accepted,
    and nothing else is sent or stored. *)
Theorem TriggerMessage_unsupported_accepted ocpp js (id payload requestedMessage : value)
    (w : World) :
  get_prop payload "requestedMessage" = Some requestedMessage ->
  triggers_a_message requestedMessage = false ->
  exists w' evs,
    handleCallRequest ocpp js id (Str "TriggerMessage") payload w = Normal [] w' /\
    trace w' = (trace w ++ evs)%list /\
    engine_events evs =
      wsSendData_events ocpp (_websocket (this w)) (utc_iso js (ticks w))
        (status_reply id "Accepted").
Proof.
  intros Hm Hn. unfold triggers_a_message in Hn.
  repeat (apply orb_false_iff in Hn as [Hn ?]).
  assert (Hc : exists given, get_prop payload "connectorId" = Some given)
    by (destruct payload; try discriminate; eexists; reflexivity).
  destruct Hc as [given Hc].
  unfold handleCallRequest.
  cbn [strict_eq_string String.eqb Ascii.eqb Bool.eqb]. cbn match.
  unfold prop. unfold bind at 1. rewrite Hm. unfold ret at 1.
  unfold bind at 1. rewrite Hc. unfold ret at 1.
  destruct (log_then_send ocpp js
              ("Reception of a TriggerMessage request (" +:+ ToString requestedMessage +:+ ")")
              (status_reply id "Accepted") w) as (w1 & e1 & K & T1 & E1 & _ & _).
  unfold status_reply in K. rewrite K.
  unfold triggerMessage.
  repeat match goal with E : strict_eq_string requestedMessage _ = false |- _ =>
    rewrite E; clear E end.
  assert (Hq : exists w2 e2,
            (if strict_eq_string requestedMessage "DiagnosticStatusNotification"
             then ret tt
             else if strict_eq_string requestedMessage "FirmwareStatusNotification"
             then ret tt
             else logMsg ("Requested Message not supported: "
                          +:+ ToString requestedMessage)) w1 = Normal tt w2 /\
            trace w2 = (trace w1 ++ e2)%list /\ engine_events e2 = []).
  { destruct (strict_eq_string requestedMessage "DiagnosticStatusNotification");
      [exists w1, []; rewrite app_nil_r; repeat split|].
    destruct (strict_eq_string requestedMessage "FirmwareStatusNotification");
      [exists w1, []; rewrite app_nil_r; repeat split|].
    destruct (logMsg_runs ("Requested Message not supported: "
                           +:+ ToString requestedMessage) w1) as (w2 & e2 & R & T & E & _).
    now exists w2, e2. }
  destruct Hq as (w2 & e2 & R2 & T2 & E2).
  unfold bind at 1. cbn match. rewrite R2. cbn.
  exists w2, (e1 ++ e2)%list. split; [reflexivity|]. split.
  - rewrite T2, T1. now rewrite <- app_assoc.
  - now rewrite engine_events_app, E1, E2, app_nil_r.
Qed.

Lemma TriggerMessage_unsupported_accepted_witness :
  exists w' evs,
    handleCallRequest sample_constants sample_platform (Str "id5") (Str "TriggerMessage")
      (Obj [("requestedMessage", Str "DiagnosticsStatusNotification")]) fresh_world
    = Normal [] w' /\
    trace w' = (trace fresh_world ++ evs)%list /\
    engine_events evs =
      wsSendData_events sample_constants (_websocket (this fresh_world))
        (utc_iso sample_platform (ticks fresh_world))
        (status_reply (Str "id5") "Accepted").
Proof.
  apply (TriggerMessage_unsupported_accepted sample_constants sample_platform (Str "id5")
           (Obj [("requestedMessage", Str "DiagnosticsStatusNotification")])
           (Str "DiagnosticsStatusNotification") fresh_world); reflexivity.
Defined.

(** ** Meter values *)

(** One run of [sendMeterValue]. *)
Lemma sendMeterValue_runs ocpp js (connectorId : value) (w : World) :
  exists w' evs id tid meter stamp,
    sendMeterValue ocpp js connectorId w = Normal tt w' /\
    trace w' = (trace w ++ evs)%list /\
    engine_events evs =
      sessionStorage_setItem "LastAction" "MeterValues" ::
      wsSendData_events ocpp (_websocket (this w)) (utc_iso js (S (ticks w)))
        (MeterValues_frame id
           match connectorId with Undefined => Num (Int 1) | _ => connectorId end
           tid meter stamp) /\
    (KEY_METER_VALUE ocpp <> "LastAction" ->
     meter = match sessionStorage w !! KEY_METER_VALUE ocpp with
             | Some v => v
             | None => ""
             end).
Proof.
  unfold sendMeterValue, MeterValues_frame. unfold_engine. unfold wsSendData_events.
  open_world w. destruct ws, scb, lcb; cbn.
  all: eexists; eexists; eexists; eexists; eexists; eexists; finish_run.
  all: split; [rewrite ?app_nil_r; reflexivity|].
  all: intros Hk; rewrite lookup_insert_ne by congruence.
  all: destruct (ss !! KEY_METER_VALUE ocpp); [now rewrite empty_default|reflexivity].
Qed.

Lemma given_or_zero_defined (given x : value) :
  x = (if truthy given then given else Num (Int 0)) ->
  match x with Undefined => Num (Int 0) | _ => x end = x.
Proof. intros ->. destruct given; try reflexivity; destruct (truthy _); reflexivity. Qed.

(** X23: a TriggerMessage request for MeterValues is answered Accepted and
    followed by a MeterValues CALL for the connector of the request, or for
    connector 0 when the request names none (or a falsy one), not for
    connector 1 as when the page sets the meter. *)
Theorem TriggerMessage_MeterValues_connector ocpp js (id payload given : value) (w : World) :
  get_prop payload "requestedMessage" = Some (Str "MeterValues") ->
  get_prop payload "connectorId" = Some given ->
  exists w' evs frame_id tid meter stamp now,
    handleCallRequest ocpp js id (Str "TriggerMessage") payload w = Normal [] w' /\
    trace w' = (trace w ++ evs)%list /\
    engine_events evs =
      (wsSendData_events ocpp (_websocket (this w)) (utc_iso js (ticks w))
         (status_reply id "Accepted") ++
       sessionStorage_setItem "LastAction" "MeterValues" ::
       wsSendData_events ocpp (_websocket (this w)) now
         (MeterValues_frame frame_id (if truthy given then given else Num (Int 0))
            tid meter stamp))%list.
Proof.
  intros Hm Hc. unfold handleCallRequest.
  cbn [strict_eq_string String.eqb Ascii.eqb Bool.eqb]. cbn match.
  unfold prop. unfold bind at 1. rewrite Hm. unfold ret at 1.
  unfold bind at 1. rewrite Hc. unfold ret at 1.
  destruct (log_then_send ocpp js
              ("Reception of a TriggerMessage request (" +:+ ToString (Str "MeterValues") +:+ ")")
              (status_reply id "Accepted") w) as (w1 & e1 & K & T1 & E1 & Hthis & _).
  unfold status_reply in K. rewrite K.
  unfold triggerMessage. cbn [strict_eq_string String.eqb Ascii.eqb Bool.eqb]. cbn match.
  rewrite (given_or_zero_defined given _ eq_refl).
  destruct (sendMeterValue_runs ocpp js (if truthy given then given else Num (Int 0)) w1)
    as (w2 & e2 & fid & tid & meter & stamp & R2 & T2 & E2 & _).
  assert (Hd : match (if truthy given then given else Num (Int 0)) with
               | Undefined => Num (Int 1)
               | _ => if truthy given then given else Num (Int 0)
               end = if truthy given then given else Num (Int 0))
    by (destruct given; try reflexivity; destruct (truthy _); reflexivity).
  rewrite Hd in E2.
  unfold bind. rewrite R2. cbn.
  exists w2, (e1 ++ e2)%list, fid, tid, meter, stamp, (utc_iso js (S (ticks w1))).
  split; [reflexivity|]. split.
  - rewrite T2, T1. now rewrite <- app_assoc.
  - now rewrite engine_events_app, E1, E2, Hthis.
Qed.

Lemma TriggerMessage_MeterValues_connector_witness :
  exists w' evs frame_id tid meter stamp now,
    handleCallRequest sample_constants sample_platform (Str "id6") (Str "TriggerMessage")
      (Obj [("requestedMessage", Str "MeterValues")]) fresh_world = Normal [] w' /\
    trace w' = (trace fresh_world ++ evs)%list /\
    engine_events evs =
      (wsSendData_events sample_constants (_websocket (this fresh_world))
         (utc_iso sample_platform (ticks fresh_world))
         (status_reply (Str "id6") "Accepted") ++
       sessionStorage_setItem "LastAction" "MeterValues" ::
       wsSendData_events sample_constants (_websocket (this fresh_world)) now
         (MeterValues_frame frame_id (if truthy Undefined then Undefined else Num (Int 0))
            tid meter stamp))%list.
Proof.
  apply (TriggerMessage_MeterValues_connector sample_constants sample_platform (Str "id6")
           (Obj [("requestedMessage", Str "MeterValues")]) Undefined fresh_world);
    reflexivity.
Defined.

(** X24: [setMeterValue(v, true)] stores the reading and reports it at once:
    the MeterValues CALL is for connector 1 and its sampled value is the
    reading just stored, as a string; with the flag off (the default) the
    reading is stored and nothing is sent. *)
Theorem setMeterValue_reports_stored_value ocpp js (v : value) (w : World) :
  KEY_METER_VALUE ocpp <> "LastAction" ->
  (exists w' evs frame_id tid stamp now,
     setMeterValue ocpp js v true w = Normal tt w' /\
     trace w' = (trace w ++ evs)%list /\
     engine_events evs =
       sessionStorage_setItem (KEY_METER_VALUE ocpp) (ToString v) ::
       sessionStorage_setItem "LastAction" "MeterValues" ::
       wsSendData_events ocpp (_websocket (this w)) now
         (MeterValues_frame frame_id (Num (Int 1)) tid (ToString v) stamp)) /\
  (exists w',
     setMeterValue ocpp js v false w = Normal tt w' /\
     trace w' = (trace w ++ [sessionStorage_setItem (KEY_METER_VALUE ocpp) (ToString v)])%list /\
     sessionStorage w' = <[KEY_METER_VALUE ocpp := ToString v]> (sessionStorage w)).
Proof.
  intros Hk. split.
  - unfold setMeterValue, setSessionKey, emit, modify. unfold bind at 1 2. 
    set (w1 := with_sessionStorage _ _).
    destruct (sendMeterValue_runs ocpp js Undefined w1)
      as (w2 & e2 & fid & tid & meter & stamp & R2 & T2 & E2 & Hm).
    specialize (Hm Hk). rewrite R2.
    assert (Hs : sessionStorage w1 = <[KEY_METER_VALUE ocpp := ToString v]> (sessionStorage w))
      by (subst w1; destruct w; reflexivity).
    assert (Ht : trace w1 = (trace w ++ [sessionStorage_setItem (KEY_METER_VALUE ocpp) (ToString v)])%list)
      by (subst w1; destruct w; reflexivity).
    assert (Hw : this w1 = this w) by (subst w1; destruct w; reflexivity).
    rewrite Hs, lookup_insert_eq in Hm. subst meter.
    exists w2, (sessionStorage_setItem (KEY_METER_VALUE ocpp) (ToString v) :: e2).
    exists fid, tid, stamp, (utc_iso js (S (ticks w1))).
    split; [reflexivity|]. split.
    + rewrite T2, Ht. now rewrite <- app_assoc.
    + cbn. now rewrite E2, Hw.
  - unfold setMeterValue. unfold_engine. open_world w. cbn.
    eexists. repeat split.
Qed.

Lemma setMeterValue_reports_stored_value_witness :
  (exists w' evs frame_id tid stamp now,
     setMeterValue sample_constants sample_platform (Num (Int 42)) true fresh_world
     = Normal tt w' /\
     trace w' = (trace fresh_world ++ evs)%list /\
     engine_events evs =
       sessionStorage_setItem (KEY_METER_VALUE sample_constants) (ToString (Num (Int 42))) ::
       sessionStorage_setItem "LastAction" "MeterValues" ::
       wsSendData_events sample_constants (_websocket (this fresh_world)) now
         (MeterValues_frame frame_id (Num (Int 1)) tid (ToString (Num (Int 42))) stamp)) /\
  (exists w',
     setMeterValue sample_constants sample_platform (Num (Int 42)) false fresh_world
     = Normal tt w' /\
     trace w' = (trace fresh_world ++
       [sessionStorage_setItem (KEY_METER_VALUE sample_constants)
          (ToString (Num (Int 42)))])%list /\
     sessionStorage w' = <[KEY_METER_VALUE sample_constants := ToString (Num (Int 42))]>
                           (sessionStorage fresh_world)).
Proof.
  apply (setMeterValue_reports_stored_value sample_constants sample_platform
           (Num (Int 42)) fresh_world).
  discriminate.
Defined.

(** ** Transactions *)

Lemma reservation_property_spec js (reservationId : value) :
  (let r := match reservationId with Undefined => Num (Int 0) | _ => reservationId end in
   if negb (loose_eq_number js r (Int 0)) then [("reservationId", r)] else [])
  = reservation_property js reservationId.
Proof.
  unfold reservation_property. destruct reservationId; try reflexivity; cbn zeta;
    destruct (loose_eq_number _ _ _); reflexivity.
Qed.

(** X25: [startTransaction] on connector [c] sends a StartTransaction CALL
    that carries a [reservationId] only when one other than 0 was given,
    marks the connector Charging and leaves StartTransaction as the pending
    action. The charge-point status reads InTransaction afterwards when a
    socket is held, and Error when none is. *)
Theorem startTransaction_marks_charging ocpp js (tagId reservationId : value) (c : Z)
    (w : World) :
  KEY_CP_STATUS ocpp <> "LastAction" ->
  KEY_CP_STATUS ocpp <> KEY_CONN_STATUS ocpp +:+ pretty c ->
  exists w' evs id mv stamp now rest,
    startTransaction ocpp js tagId (Num (Int c)) reservationId w = Normal tt w' /\
    trace w' = (trace w ++ evs)%list /\
    engine_events evs =
      (sessionStorage_setItem (KEY_CP_STATUS ocpp) (CP_INTRANSACTION ocpp) ::
       wsSendData_events ocpp (_websocket (this w)) now
         (StartTransaction_frame ocpp js id (Num (Int c)) tagId mv stamp reservationId)
       ++ rest)%list /\
    result (connectorStatus ocpp (Num (Int c)) w') = Some (CONN_CHARGING ocpp) /\
    result (getLastAction w') = Some (START_TRANSACTION ocpp) /\
    result (status ocpp w') =
      Some (match _websocket (this w) with
            | Some _ => CP_INTRANSACTION ocpp
            | None => CP_ERROR ocpp
            end).
Proof.
  intros Hla Hkey.
  pose proof (connector_key_not_LastAction (KEY_CONN_STATUS ocpp) c) as Hcla.
  unfold startTransaction, StartTransaction_frame.
  rewrite <- (reservation_property_spec js reservationId). cbn zeta.
  unfold_engine. unfold wsSendData_events. open_world w.
  destruct (loose_eq_number js
              match reservationId with Undefined => Num (Int 0) | _ => reservationId end
              (Int 0));
    destruct ws, scb, lcb; cbn [negb]; cbn.
  all: rewrite ?ToString_Int, ?ToString_Str.
  all: eexists; eexists; eexists; eexists; eexists; eexists; eexists; finish_run.
  all: split; [cbn; rewrite ?app_nil_r; reflexivity|].
  all: cbn; rewrite ?ToString_Int, ?ToString_Str.
  all: repeat first [rewrite lookup_insert_eq | rewrite lookup_insert_ne by congruence].
  all: rewrite !empty_default; repeat split.
Qed.

Lemma startTransaction_marks_charging_witness :
  exists w' evs id mv stamp now rest,
    startTransaction sample_constants sample_platform (Str "TAG1") (Num (Int 1))
      (Num (Int 7)) fresh_world = Normal tt w' /\
    trace w' = (trace fresh_world ++ evs)%list /\
    engine_events evs =
      (sessionStorage_setItem (KEY_CP_STATUS sample_constants)
         (CP_INTRANSACTION sample_constants) ::
       wsSendData_events sample_constants (_websocket (this fresh_world)) now
         (StartTransaction_frame sample_constants sample_platform id (Num (Int 1))
            (Str "TAG1") mv stamp (Num (Int 7)))
       ++ rest)%list /\
    result (connectorStatus sample_constants (Num (Int 1)) w')
    = Some (CONN_CHARGING sample_constants) /\
    result (getLastAction w') = Some (START_TRANSACTION sample_constants) /\
    result (status sample_constants w') =
      Some (match _websocket (this fresh_world) with
            | Some _ => CP_INTRANSACTION sample_constants
            | None => CP_ERROR sample_constants
            end).
Proof.
  apply (startTransaction_marks_charging sample_constants sample_platform
           (Str "TAG1") (Num (Int 7)) 1 fresh_world).
  - discriminate.
  - intros E.
    assert (H : "cp_status" = "conn_status" +:+ pretty 1%Z) by exact E.
    discriminate H.
Defined.

(** X26: StopTransaction is the pending action when the synchronous part of
    [stopTransactionWithId] ends, but only until its first timer fires: the
    StatusNotification sent then replaces it, in whatever state the timer
    finds the engine. *)
Theorem stop_pending_until_first_timer ocpp js (transactionId tagId : value) (w : World) :
  KEY_CP_STATUS ocpp <> "LastAction" ->
  exists w1 ms resume,
    stopTransactionWithId ocpp js transactionId tagId w = Normal (Sleep ms resume) w1 /\
    result (getLastAction w1) = Some (STOP_TRANSACTION ocpp) /\
    forall v, exists next v',
      resume v = Normal next v' /\
      result (getLastAction v') = Some "StatusNotification".
Proof.
  intros Hk.
  destruct (stopTransactionWithId_runs ocpp js transactionId tagId w)
    as (w1 & evs & id & stamp & mv & R & _ & _ & _ & S).
  exists w1. eexists. eexists. split; [exact R|]. split.
  - unfold getLastAction, getSessionKey, gets. cbn. rewrite S.
    destruct (_websocket (this w)).
    + rewrite lookup_insert_ne by congruence.
      now rewrite lookup_insert_eq, empty_default.
    + rewrite !lookup_insert_ne by congruence.
      now rewrite lookup_insert_eq, empty_default.
  - intros v.
    destruct (setConnectorStatus_notifies ocpp js (Num (Int 1)) (CONN_FINISHING ocpp) v)
      as (v' & e & Rv & _ & _ & _ & Sv & _).
    eexists. exists v'. unfold bind. rewrite Rv. split; [reflexivity|].
    unfold getLastAction, getSessionKey, gets. cbn. rewrite Sv. unfold notify_session.
    destruct (_websocket (this v)).
    + now rewrite lookup_insert_eq.
    + rewrite lookup_insert_ne by congruence. now rewrite lookup_insert_eq.
Qed.

Lemma stop_pending_until_first_timer_witness :
  exists w1 ms resume,
    stopTransactionWithId sample_constants sample_platform (Num (Int 42)) Undefined
      fresh_world = Normal (Sleep ms resume) w1 /\
    result (getLastAction w1) = Some (STOP_TRANSACTION sample_constants) /\
    forall v, exists next v',
      resume v = Normal next v' /\
      result (getLastAction v') = Some "StatusNotification".
Proof.
  apply (stop_pending_until_first_timer sample_constants sample_platform
           (Num (Int 42)) Undefined fresh_world).
  discriminate.
Defined.

(** ** Requests without a payload *)

(** X27: a CALL for Reset, RemoteStartTransaction, RemoteStopTransaction,
    TriggerMessage, ChangeAvailability or GetConfiguration whose payload is
    [null] (a frame of three elements) or [undefined] gets no reply at all:
    the handler throws on the first read of the payload, the rejection is
    not observed, and the engine is left as it was. *)
Theorem request_without_payload_gets_no_reply ocpp js (id request payload : value)
    (w : World) :
  reads_payload request = true ->
  payload = Null \/ payload = Undefined ->
  handleCallRequest ocpp js id request payload w = Thrown "TypeError" w /\
  dispatch ocpp js (to_handleCallRequest id request payload) w = Normal [] w.
Proof.
  intros Hr Hp.
  assert (Hthrow : handleCallRequest ocpp js id request payload w = Thrown "TypeError" w).
  { unfold reads_payload in Hr. unfold handleCallRequest.
    destruct (strict_eq_string request "Reset");
      [destruct Hp as [-> | ->]; reflexivity|].
    destruct (strict_eq_string request "RemoteStartTransaction");
      [destruct Hp as [-> | ->]; reflexivity|].
    destruct (strict_eq_string request "RemoteStopTransaction");
      [destruct Hp as [-> | ->]; reflexivity|].
    destruct (strict_eq_string request "TriggerMessage");
      [destruct Hp as [-> | ->]; reflexivity|].
    destruct (strict_eq_string request "ChangeAvailability");
      [destruct Hp as [-> | ->]; reflexivity|].
    destruct (strict_eq_string request "UnlockConnector") eqn:Eu.
    - destruct request as [| | | |s| |]; try discriminate.
      cbn in Eu. apply String.eqb_eq in Eu. subst s. discriminate Hr.
    - destruct (strict_eq_string request "GetConfiguration");
        [destruct Hp as [-> | ->]; reflexivity|discriminate Hr]. }
  split; [exact Hthrow|].
  unfold dispatch, unawaited. now rewrite Hthrow.
Qed.

Lemma request_without_payload_gets_no_reply_witness :
  handleCallRequest sample_constants sample_platform (Str "id7") (Str "Reset") Null
    fresh_world = Thrown "TypeError" fresh_world /\
  dispatch sample_constants sample_platform
    (to_handleCallRequest (Str "id7") (Str "Reset") Null) fresh_world
  = Normal [] fresh_world.
Proof.
  apply (request_without_payload_gets_no_reply sample_constants sample_platform
           (Str "id7") (Str "Reset") Null fresh_world).
  - reflexivity.
  - left. reflexivity.
Defined.

(** ** Authorization and the heartbeat timer *)

(** X28: [authorize(tag)] sends an Authorize CALL for the tag and records
    the literal "Authorize" as the pending action; when that is the table's
    AUTHORIZE action (and not its BootNotification one), a result whose
    [idTagInfo.status] is not Invalid, handled next, leaves the charge point
    Authorized. *)
Theorem authorize_then_result ocpp js (tagId payload info st : value) (w : World) :
  AUTHORIZE ocpp = "Authorize" ->
  BOOT_NOTIFICATION ocpp <> "Authorize" ->
  KEY_CP_STATUS ocpp <> "LastAction" ->
  get_prop payload "idTagInfo" = Some info ->
  get_prop info "status" = Some st ->
  loose_eq_string js st "Invalid" = false ->
  exists w1 evs w2,
    authorize ocpp js tagId w = Normal tt w1 /\
    trace w1 = (trace w ++ evs)%list /\
    engine_events evs =
      sessionStorage_setItem "LastAction" "Authorize" ::
      wsSendData_events ocpp (_websocket (this w)) (utc_iso js (ticks w))
        (Authorize_frame (generateId_loop js (draws w) 36 "") tagId) /\
    handleCallResult ocpp js payload w1 = Normal tt w2 /\
    result (status ocpp w2) = Some (CP_AUTHORIZED ocpp).
Proof.
  intros Ha Hb Hk Hi Hs Hinv. apply String.eqb_neq in Hb.
  assert (Hrun : exists w1 evs,
    authorize ocpp js tagId w = Normal tt w1 /\
    trace w1 = (trace w ++ evs)%list /\
    engine_events evs =
      sessionStorage_setItem "LastAction" "Authorize" ::
      wsSendData_events ocpp (_websocket (this w)) (utc_iso js (ticks w))
        (Authorize_frame (generateId_loop js (draws w) 36 "") tagId) /\
    result (getLastAction w1) = Some "Authorize").
  { unfold authorize, Authorize_frame. unfold_engine. unfold wsSendData_events.
    open_world w. destruct ws, scb, lcb; cbn.
    all: eexists; eexists; finish_run.
    all: split; [reflexivity|].
    all: cbn; rewrite ?ToString_Str.
    all: repeat first [rewrite lookup_insert_eq | rewrite lookup_insert_ne by congruence].
    all: reflexivity. }
  destruct Hrun as (w1 & evs & R & T & E & Hla).
  exists w1, evs.
  assert (Hres : exists w2,
    handleCallResult ocpp js payload w1 = Normal tt w2 /\
    result (status ocpp w2) = Some (CP_AUTHORIZED ocpp)).
  { unfold handleCallResult. unfold bind at 1.
    rewrite (getLastAction_returns _ _ Hla), Ha.
    rewrite (proj2 (String.eqb_neq _ _)) by (intros E'; apply String.eqb_neq in Hb; congruence).
    rewrite String.eqb_refl.
    unfold prop. unfold bind at 1. rewrite Hi. unfold ret at 1.
    unfold bind at 1. rewrite Hs. unfold ret at 1. rewrite Hinv.
    clear. unfold_engine. open_world w1. destruct scb, lcb; cbn.
    all: eexists; split; [reflexivity|].
    all: cbn; rewrite ?ToString_Str, lookup_insert_eq, empty_default; reflexivity. }
  destruct Hres as (w2 & R2 & S2).
  exists w2. repeat split; assumption.
Qed.

Lemma authorize_then_result_witness :
  exists w1 evs w2,
    authorize sample_constants sample_platform (Str "TAG1") fresh_world = Normal tt w1 /\
    trace w1 = (trace fresh_world ++ evs)%list /\
    engine_events evs =
      sessionStorage_setItem "LastAction" "Authorize" ::
      wsSendData_events sample_constants (_websocket (this fresh_world))
        (utc_iso sample_platform (ticks fresh_world))
        (Authorize_frame (generateId_loop sample_platform (draws fresh_world) 36 "")
           (Str "TAG1")) /\
    handleCallResult sample_constants sample_platform
      (Obj [("idTagInfo", Obj [("status", Str "Accepted")])]) w1 = Normal tt w2 /\
    result (status sample_constants w2) = Some (CP_AUTHORIZED sample_constants).
Proof.
  apply (authorize_then_result sample_constants sample_platform (Str "TAG1")
           (Obj [("idTagInfo", Obj [("status", Str "Accepted")])])
           (Obj [("status", Str "Accepted")]) (Str "Accepted") fresh_world);
    try reflexivity; discriminate.
Defined.

(** X29: the timer started by [setHeartbeat] sends a Heartbeat CALL, with an
    empty payload, each time it fires, and makes Heartbeat the pending
    action; once the socket has closed no timer does anything any more,
    whatever the close code. *)
Theorem heartbeat_timer_until_close ocpp js (n code : Z) (w : World) :
  heartbeat_owns_timers w ->
  exists w1,
    setHeartbeat js (Num (Int n)) w = Normal tt w1 /\
    (exists w2 evs,
       interval_fires ocpp js (next_timer w) w1 = Normal tt w2 /\
       trace w2 = (trace w1 ++ evs)%list /\
       engine_events evs =
         sessionStorage_setItem "LastAction" "Heartbeat" ::
         wsSendData_events ocpp (_websocket (this w1)) (utc_iso js (ticks w1))
           (Heartbeat_frame (generateId_loop js (draws w1) 36 ""))) /\
    (exists w3,
       onclose ocpp code w1 = Normal tt w3 /\
       forall j, interval_fires ocpp js j w3 = Normal tt w3).
Proof.
  intros Hinv.
  destruct (setHeartbeat_spec js n w) as (w1 & e1 & R1 & _ & _ & H1 & _ & I1).
  exists w1. split; [exact R1|]. split.
  - unfold interval_fires, gets. unfold bind at 1. rewrite I1, lookup_insert_eq.
    clear. unfold sendHeartbeat, Heartbeat_frame. unfold_engine. unfold wsSendData_events.
    open_world w1. destruct ws, scb, lcb; cbn.
    all: eexists; eexists; finish_run.
    all: reflexivity.
  - pose proof (setHeartbeat_keeps_timers_owned js n w Hinv) as Hown.
    rewrite R1 in Hown. cbn in Hown.
    destruct (onclose_keeps_timers_owned ocpp code w1 Hown) as [_ Hempty].
    assert (Hret : exists w3, onclose ocpp code w1 = Normal tt w3).
    { clear. unfold onclose, clearInterval, set_heartbeat, set_websocket.
      unfold_engine. open_world w1.
      destruct hb, scb, lcb, (Z.eqb code 3001); cbn; eexists; reflexivity. }
    destruct Hret as [w3 R3]. rewrite R3 in Hempty. cbn in Hempty.
    exists w3. split; [exact R3|].
    intros j. unfold interval_fires, gets. unfold bind. now rewrite Hempty, lookup_empty.
Qed.

Lemma heartbeat_timer_until_close_witness :
  exists w1,
    setHeartbeat sample_platform (Num (Int 60)) fresh_world = Normal tt w1 /\
    (exists w2 evs,
       interval_fires sample_constants sample_platform (next_timer fresh_world) w1
       = Normal tt w2 /\
       trace w2 = (trace w1 ++ evs)%list /\
       engine_events evs =
         sessionStorage_setItem "LastAction" "Heartbeat" ::
         wsSendData_events sample_constants (_websocket (this w1))
           (utc_iso sample_platform (ticks w1))
           (Heartbeat_frame (generateId_loop sample_platform (draws w1) 36 ""))) /\
    (exists w3,
       onclose sample_constants 1006 w1 = Normal tt w3 /\
       forall j, interval_fires sample_constants sample_platform j w3 = Normal tt w3).
Proof.
  apply (heartbeat_timer_until_close sample_constants sample_platform 60 1006 fresh_world).
  reflexivity.
Defined.

(** ** The static file server *)

(** X30: the server answers a request only when its URL is exactly [/] or
    [/index.html], or starts with [/js/]; any other URL (another folder, a
    query string after [/]) is never answered. The two page URLs get the same
    answer: the page with status 200, or status 500 when it cannot be read.
    A script URL gets the file at [path.join(__dirname, url)] with status
    200 as JavaScript, or status 404 when it cannot be read. *)
Theorem server_answers dir path_join readFile (url : string) :
  let answer := requestListener dir path_join readFile url in
  let page := String.eqb url "/" || String.eqb url "/index.html" in
  (answer = None <-> page = false /\ startsWith url "/js/" = false) /\
  (page = true ->
   answer = requestListener dir path_join readFile "/" /\
   exists r, answer = Some r /\
     match readFile (path_join dir "index.html") with
     | Some data => statusCode r = 200 /\ contentType r = "text/html" /\ body r = data
     | None => statusCode r = 500 /\ contentType r = "text/plain"
     end) /\
  (page = false -> startsWith url "/js/" = true ->
   exists r, answer = Some r /\
     match readFile (path_join dir url) with
     | Some data => statusCode r = 200 /\ contentType r = "text/javascript" /\ body r = data
     | None => statusCode r = 404 /\ contentType r = "text/plain"
     end).
Proof.
  cbn zeta. unfold requestListener.
  change (String.eqb "/" "/" || String.eqb "/" "/index.html") with true. cbn match.
  destruct (String.eqb url "/" || String.eqb url "/index.html").
  - split; [|split].
    + split; [destruct (readFile _); discriminate|intros [? _]; discriminate].
    + intros _. split; [reflexivity|].
      destruct (readFile (path_join dir "index.html")); eexists; repeat split.
    + discriminate.
  - destruct (startsWith url "/js/").
    + split; [|split].
      * split; [destruct (readFile _); discriminate|intros [_ ?]; discriminate].
      * discriminate.
      * intros _ _. destruct (readFile (path_join dir url)); eexists; repeat split.
    + split; [|split].
      * split; auto.
      * discriminate.
      * discriminate.
Qed.
